(** * OTP slot applet of Pico FIDO ([src/fido/otp.c])

    A shallow embedding of the OTP applet: the packed slot record, the
    two slot files, the revision counter [config_seq], the status
    report, the configure command and the button handler, followed by
    the properties of the design that hold on this code and by the
    inputs on which others fail. *)

From Stdlib Require Import ZArith List Bool Lia.
Import ListNotations.
Local Open Scope Z_scope.

(** ** Machine integers

    C integers are [Z] with the wrap-around written out.  [int32] is the
    value an [int] holds after an operation whose mathematical result is
    [x] (two's complement, as the compilers of the targets do it), and
    [u8], [u32], [u64] are the conversions to the unsigned types. *)

Definition u8 (x : Z) : Z := x mod 2 ^ 8.
Definition u32 (x : Z) : Z := x mod 2 ^ 32.
Definition u64 (x : Z) : Z := x mod 2 ^ 64.
Definition int32 (x : Z) : Z := (x + 2 ^ 31) mod 2 ^ 32 - 2 ^ 31.

Definition is_byte (b : Z) : Prop := 0 <= b < 256.

(** [x & mask] used as a C condition. *)
Definition flag_set (x mask : Z) : bool := negb (Z.land x mask =? 0).

(** ** Constants of the source *)

Definition FIXED_SIZE : nat := 16.
Definition KEY_SIZE : nat := 16.
Definition UID_SIZE : nat := 6.
Definition KEY_SIZE_OATH : nat := 20.
Definition ACC_CODE_SIZE : nat := 6.

Definition CONFIG1_VALID : Z := 0x01.
Definition CONFIG2_VALID : Z := 0x02.
Definition CONFIG1_TOUCH : Z := 0x04.
Definition CONFIG2_TOUCH : Z := 0x08.
Definition CONFIG_LED_INV : Z := 0x10.
Definition CONFIG_STATUS_MASK : Z := 0x1f.

(* TKT flags *)
Definition APPEND_CR : Z := 0x20.
Definition OATH_HOTP : Z := 0x40.
Definition CHAL_RESP : Z := 0x40.
Definition PROTECT_CFG2 : Z := 0x80.

(* CFG flags *)
Definition SEND_REF : Z := 0x01.
Definition SHORT_TICKET : Z := 0x02.
Definition STATIC_TICKET : Z := 0x20.
Definition OATH_HOTP8 : Z := 0x02.

Definition INS_OTP : Z := 0x01.
Definition CCID_OK : Z := 0.

(** ** Byte buffers

    [apdu.data] and [res_APDU] point into large static buffers: a read
    at any offset returns whatever the buffer holds there.  They are
    total maps from offsets to bytes. *)

Definition buffer := nat -> Z.

Definition bytes_at (m : buffer) (off len : nat) : list Z :=
  map (fun i => m (off + i)%nat) (seq 0 len).

Definition poke (m : buffer) (i : nat) (v : Z) : buffer :=
  fun j => if Nat.eqb j i then v else m j.

Definition store_bytes (m : buffer) (off : nat) (bs : list Z) : buffer :=
  fun j =>
    if (Nat.leb off j && Nat.ltb j (off + length bs))%bool
    then nth (j - off) bs 0 else m j.

(** A buffer that holds [l] and zero bytes after it. *)
Definition buffer_of (l : list Z) : buffer := fun i => nth i l 0.

Definition slice (off len : nat) (bs : list Z) : list Z :=
  firstn len (skipn off bs).

Fixpoint bytes_eqb (a b : list Z) : bool :=
  match a, b with
  | [], [] => true
  | x :: a', y :: b' => (x =? y) && bytes_eqb a' b'
  | _, _ => false
  end.

Definition all_zero (bs : list Z) : bool := forallb (fun b => b =? 0) bs.

(** ** The slot record [otp_config_t]

    The struct is packed: its size is the sum of the sizes of its
    members and each member lies right after the one before. *)

Record otp_config_t := {
  fixed_data : list Z;   (* uint8_t [FIXED_SIZE] *)
  uid        : list Z;   (* uint8_t [UID_SIZE] *)
  aes_key    : list Z;   (* uint8_t [KEY_SIZE] *)
  acc_code   : list Z;   (* uint8_t [ACC_CODE_SIZE] *)
  fixed_size : Z;
  ext_flags  : Z;
  tkt_flags  : Z;
  cfg_flags  : Z;
  rfu        : list Z;   (* uint8_t [2] *)
  crc        : Z         (* uint16_t, low byte first *)
}.

Definition otp_config_size : nat :=
  FIXED_SIZE + UID_SIZE + KEY_SIZE + ACC_CODE_SIZE + 1 + 1 + 1 + 1 + 2 + 2.

Definition off_fixed_data : nat := 0.
Definition off_uid : nat := off_fixed_data + FIXED_SIZE.
Definition off_aes_key : nat := off_uid + UID_SIZE.
Definition off_acc_code : nat := off_aes_key + KEY_SIZE.
Definition off_fixed_size : nat := off_acc_code + ACC_CODE_SIZE.
Definition off_ext_flags : nat := off_fixed_size + 1.
Definition off_tkt_flags : nat := off_ext_flags + 1.
Definition off_cfg_flags : nat := off_tkt_flags + 1.
Definition off_rfu : nat := off_cfg_flags + 1.
Definition off_crc : nat := off_rfu + 2.

(** [(otp_config_t * ) data]: the record read through a pointer to
    stored bytes.  It is defined when the bytes hold a whole record;
    reading members of a shorter object has no defined result. *)
Definition view_config (data : list Z) : option otp_config_t :=
  if (length data <? otp_config_size)%nat then None
  else Some {|
    fixed_data := slice off_fixed_data FIXED_SIZE data;
    uid        := slice off_uid UID_SIZE data;
    aes_key    := slice off_aes_key KEY_SIZE data;
    acc_code   := slice off_acc_code ACC_CODE_SIZE data;
    fixed_size := nth off_fixed_size data 0;
    ext_flags  := nth off_ext_flags data 0;
    tkt_flags  := nth off_tkt_flags data 0;
    cfg_flags  := nth off_cfg_flags data 0;
    rfu        := slice off_rfu 2 data;
    crc        := nth off_crc data 0 + 256 * nth (S off_crc) data 0
  |}.

(** [len] bytes read from stored bytes at [off]; no defined result when
    the read runs past the stored object. *)
Definition read_bytes (data : list Z) (off len : nat) : option (list Z) :=
  if (off + len <=? length data)%nat then Some (slice off len data) else None.

(** [p[i] = v] on stored bytes. *)
Definition write_byte (data : list Z) (i : nat) (v : Z) : list Z :=
  firstn i data ++ v :: skipn (S i) data.

(** ** Collaborators that are not part of [otp.c] *)

Inductive file_id := EF_OTP_SLOT1 | EF_OTP_SLOT2.

(** Outcome of a command; the [SW_...()] macros of the transport. *)
Inductive sw :=
| SW_OK
| SW_INCORRECT_P1P2
| SW_WRONG_DATA
| SW_SECURITY_STATUS_NOT_SATISFIED
| SW_CLA_NOT_SUPPORTED
| SW_INS_NOT_SUPPORTED.

(** The version macros of [version.h], the OATH primitive, the board
    identifier and the flash.  [calculate_oath truncate key chal] gives
    its return code and the bytes it appends to [res_APDU];
    [pico_get_unique_board_id_string len] gives the bytes it writes;
    [flash_write_outcome f bs] is the return code of the write of the
    bytes [bs] to the file [f]: [CCID_OK] when the bytes are stored, a
    storage failure otherwise. *)
Class Externals := {
  PICO_FIDO_VERSION_MAJOR : Z;
  PICO_FIDO_VERSION_MINOR : Z;
  calculate_oath : Z -> list Z -> list Z -> Z * list Z;
  pico_get_unique_board_id_string : nat -> list Z;
  flash_write_outcome : file_id -> list Z -> Z
}.

(** The command as the transport hands it over: [CLA(apdu)],
    [INS(apdu)], [P1(apdu)], [P2(apdu)], [apdu.nc] and the buffer behind
    [apdu.data]. *)
Record apdu_t := {
  CLA : Z;
  INS : Z;
  P1 : Z;
  P2 : Z;
  nc : nat;
  data : buffer
}.

(** ** State of the applet *)

Record state := {
  ef_otp_slot1 : option (list Z);   (* bytes stored under EF_OTP_SLOT1 *)
  ef_otp_slot2 : option (list Z);   (* bytes stored under EF_OTP_SLOT2 *)
  config_seq : Z;                   (* static uint8_t *)
  res_APDU : buffer;
  res_APDU_size : nat;
  apdu_ne : nat;
  keyboard_buffer : list Z;         (* bytes handed to the keystroke channel *)
  keyboard_encode : bool;
  oath_calls : list (Z * list Z * list Z)
    (* ghost: arguments of the calls of calculate_oath, latest first *)
}.

Definition with_file (st : state) (f : file_id) (v : option (list Z)) : state :=
  {| ef_otp_slot1 := match f with EF_OTP_SLOT1 => v | _ => ef_otp_slot1 st end;
     ef_otp_slot2 := match f with EF_OTP_SLOT2 => v | _ => ef_otp_slot2 st end;
     config_seq := config_seq st;
     res_APDU := res_APDU st;
     res_APDU_size := res_APDU_size st;
     apdu_ne := apdu_ne st;
     keyboard_buffer := keyboard_buffer st;
     keyboard_encode := keyboard_encode st;
     oath_calls := oath_calls st |}.

Definition with_config_seq (st : state) (v : Z) : state :=
  {| ef_otp_slot1 := ef_otp_slot1 st;
     ef_otp_slot2 := ef_otp_slot2 st;
     config_seq := v;
     res_APDU := res_APDU st;
     res_APDU_size := res_APDU_size st;
     apdu_ne := apdu_ne st;
     keyboard_buffer := keyboard_buffer st;
     keyboard_encode := keyboard_encode st;
     oath_calls := oath_calls st |}.

Definition with_res (st : state) (b : buffer) (n : nat) : state :=
  {| ef_otp_slot1 := ef_otp_slot1 st;
     ef_otp_slot2 := ef_otp_slot2 st;
     config_seq := config_seq st;
     res_APDU := b;
     res_APDU_size := n;
     apdu_ne := apdu_ne st;
     keyboard_buffer := keyboard_buffer st;
     keyboard_encode := keyboard_encode st;
     oath_calls := oath_calls st |}.

Definition with_apdu_ne (st : state) (n : nat) : state :=
  {| ef_otp_slot1 := ef_otp_slot1 st;
     ef_otp_slot2 := ef_otp_slot2 st;
     config_seq := config_seq st;
     res_APDU := res_APDU st;
     res_APDU_size := res_APDU_size st;
     apdu_ne := n;
     keyboard_buffer := keyboard_buffer st;
     keyboard_encode := keyboard_encode st;
     oath_calls := oath_calls st |}.

Definition with_keyboard (st : state) (bs : list Z) (enc : bool) : state :=
  {| ef_otp_slot1 := ef_otp_slot1 st;
     ef_otp_slot2 := ef_otp_slot2 st;
     config_seq := config_seq st;
     res_APDU := res_APDU st;
     res_APDU_size := res_APDU_size st;
     apdu_ne := apdu_ne st;
     keyboard_buffer := bs;
     keyboard_encode := enc;
     oath_calls := oath_calls st |}.

Definition log_oath_call (st : state) (c : Z * list Z * list Z) : state :=
  {| ef_otp_slot1 := ef_otp_slot1 st;
     ef_otp_slot2 := ef_otp_slot2 st;
     config_seq := config_seq st;
     res_APDU := res_APDU st;
     res_APDU_size := res_APDU_size st;
     apdu_ne := apdu_ne st;
     keyboard_buffer := keyboard_buffer st;
     keyboard_encode := keyboard_encode st;
     oath_calls := c :: oath_calls st |}.

(** *** The slot store *)

(** Modelled from the spec: the storage subsystem ([search_dynamic_file],
    [file_new], [file_get_data], [file_get_size], [file_has_data],
    [flash_write_data_to_file], [delete_file]) is not part of [otp.c].
    A slot has stored bytes or none; a slot is empty iff its stored
    bytes are absent or all zero; a write that takes effect replaces the
    stored bytes as a whole; a delete removes them. *)
Definition search_dynamic_file (st : state) (f : file_id) : option (list Z) :=
  match f with
  | EF_OTP_SLOT1 => ef_otp_slot1 st
  | EF_OTP_SLOT2 => ef_otp_slot2 st
  end.

(** Modelled from the spec: [file_new] gives the entry of the slot and
    creates no stored bytes. *)
Definition file_new (st : state) (f : file_id) : option (list Z) :=
  search_dynamic_file st f.

(** Modelled from the spec: see [search_dynamic_file]. *)
Definition file_has_data (ef : option (list Z)) : bool :=
  match ef with
  | None => false
  | Some bs => negb (all_zero bs)
  end.

(** Modelled from the spec: the pointer to the stored bytes, [None] for
    the null pointer of a slot without stored bytes. *)
Definition file_get_data (ef : option (list Z)) : option (list Z) := ef.

(** Modelled from the spec: the length of the stored bytes. *)
Definition file_get_size (ef : option (list Z)) : nat :=
  match ef with
  | None => 0%nat
  | Some bs => length bs
  end.

(** Modelled from the spec: a write is all-or-nothing for its caller.
    It replaces the stored bytes as a whole and returns [CCID_OK], or
    it stores nothing and returns the storage failure; which of the two
    is up to the platform ([flash_write_outcome]). *)
Definition flash_write_data_to_file {E : Externals} (st : state) (f : file_id)
    (bs : list Z) : state * Z :=
  let r := flash_write_outcome f bs in
  if r =? CCID_OK then (with_file st f (Some bs), r) else (st, r).

(** Modelled from the spec: see [search_dynamic_file]. *)
Definition delete_file (st : state) (f : file_id) : state :=
  with_file st f None.

(** Modelled from the spec: the keystroke channel takes an ordered byte
    sequence; [add_keyboard_buffer] starts a sequence and
    [append_keyboard_buffer] adds to it. *)
Definition add_keyboard_buffer (st : state) (bs : list Z) (enc : bool) : state :=
  with_keyboard st bs enc.

(** Modelled from the spec: see [add_keyboard_buffer]. *)
Definition append_keyboard_buffer (st : state) (bs : list Z) : state :=
  with_keyboard st (keyboard_buffer st ++ bs) (keyboard_encode st).

(** ** Sequencing of steps that may have no defined result *)

Notation "x <- c ;; k" :=
  (match c with Some x => k | None => None end)
  (at level 61, c at next level, right associativity).

(** ** The applet *)

Definition otp_aid : list Z := [7; 0xa0; 0x00; 0x00; 0x05; 0x27; 0x20; 0x01].

(** [slot == 1 ? EF_OTP_SLOT1 : EF_OTP_SLOT2] of the button handler. *)
Definition slot_file (slot : Z) : file_id :=
  if slot =? 1 then EF_OTP_SLOT1 else EF_OTP_SLOT2.

(** [p1 == 0x01 ? EF_OTP_SLOT1 : EF_OTP_SLOT2] of the configure command. *)
Definition target_file (p1 : Z) : file_id :=
  if p1 =? 0x01 then EF_OTP_SLOT1 else EF_OTP_SLOT2.

Section Applet.

Context {E : Externals}.

(** [otp_status]: the report goes to [res_APDU[1..6]] and
    [res_APDU_size] is set to 0. *)
Definition capability_flags (st : state) : Z :=
  Z.lor
    (Z.lor (Z.lor CONFIG2_TOUCH CONFIG1_TOUCH)
       (if file_has_data (search_dynamic_file st EF_OTP_SLOT1)
        then CONFIG1_VALID else 0x00))
    (if file_has_data (search_dynamic_file st EF_OTP_SLOT2)
     then CONFIG2_VALID else 0x00).

Definition otp_status (st : state) : state * sw :=
  let r := res_APDU st in
  let r := poke r 1 (u8 PICO_FIDO_VERSION_MAJOR) in
  let r := poke r 2 (u8 PICO_FIDO_VERSION_MINOR) in
  let r := poke r 3 0 in
  let r := poke r 4 (config_seq st) in
  let r := poke r 5 (capability_flags st) in
  let r := poke r 6 0 in
  (with_res st r 0, SW_OK).

(** [otp_select]: [true] when the AID is taken (the source returns the
    application), [false] for [NULL]. *)
Definition otp_select (st : state) (aid : list Z) : state * bool :=
  let n := Nat.min (length aid) (Z.to_nat (hd 0 otp_aid)) in
  if bytes_eqb (firstn n aid) (firstn n (tl otp_aid)) then
    let st :=
      if (file_has_data (search_dynamic_file st EF_OTP_SLOT1)
          || file_has_data (search_dynamic_file st EF_OTP_SLOT2))%bool
      then with_config_seq st 1
      else with_config_seq st 0 in
    let st := fst (otp_status st) in
    (with_apdu_ne st (res_APDU_size st), true)
  else (st, false).

(** *** The button handler *)

(** [imf] of a slot without counter extension:
    [((uid[4] << 8) | uid[5]) << 4], computed in [int] and converted to
    [uint64_t]. *)
Definition imf_of_uid (c : otp_config_t) : Z :=
  u64 (int32 (Z.shiftl
                (int32 (Z.lor (int32 (Z.shiftl (nth 4 (uid c) 0) 8))
                              (nth 5 (uid c) 0)))
                4)).

(** [imf] read from the eight bytes at [p].  The first four bytes are
    cast to [uint64_t] before the shift.  The last four are not: each is
    promoted to [int], shifted as an [int], and the [int] is converted
    to [uint64_t] by the [|=], which extends its sign. *)
Definition imf_of_ext (p : list Z) : Z :=
  let imf := 0 in
  let imf := Z.lor imf (u64 (Z.shiftl (u64 (nth 0 p 0)) 56)) in
  let imf := Z.lor imf (u64 (Z.shiftl (u64 (nth 1 p 0)) 48)) in
  let imf := Z.lor imf (u64 (Z.shiftl (u64 (nth 2 p 0)) 40)) in
  let imf := Z.lor imf (u64 (Z.shiftl (u64 (nth 3 p 0)) 32)) in
  let imf := Z.lor imf (u64 (int32 (Z.shiftl (nth 4 p 0) 24))) in
  let imf := Z.lor imf (u64 (int32 (Z.shiftl (nth 5 p 0) 16))) in
  let imf := Z.lor imf (u64 (int32 (Z.shiftl (nth 6 p 0) 8))) in
  let imf := Z.lor imf (u64 (nth 7 p 0)) in
  imf.

(** [{imf >> 56, imf >> 48, ..., imf >> 8, imf & 0xff}] as [uint8_t[8]]. *)
Definition chal_of_imf (imf : Z) : list Z :=
  [ u8 (Z.shiftr imf 56); u8 (Z.shiftr imf 48); u8 (Z.shiftr imf 40);
    u8 (Z.shiftr imf 32); u8 (Z.shiftr imf 24); u8 (Z.shiftr imf 16);
    u8 (Z.shiftr imf 8); u8 (Z.land imf 0xff) ].

(** The moving factor the handler works with. *)
Definition resolve_imf (ef : option (list Z)) (bytes : list Z)
    (c : otp_config_t) : option Z :=
  if (file_get_size ef =? otp_config_size)%nat then Some (imf_of_uid c)
  else
    p <- read_bytes bytes otp_config_size 8 ;;
    Some (imf_of_ext p).

(** [sprintf("%0<width>lu", number)] as character codes. *)
Fixpoint decimal (width : nat) (number : Z) : list Z :=
  match width with
  | O => []
  | S w => decimal w (number / 10) ++ [48 + number mod 10]
  end.

(** [tmp_key]: byte 0 is set, bytes 2.. are copied from the record, and
    byte 1 is never written; [tmp_key_1] is what the stack holds there. *)
Definition tmp_key_of (c : otp_config_t) (tmp_key_1 : Z) : list Z :=
  0x01 :: tmp_key_1 :: aes_key c.

(** [otp_button_pressed slot], as built without [ENABLE_EMULATION].
    [None] is a run with no defined result: a member read through the
    null pointer of a slot without stored bytes, or a read past the
    stored bytes. *)
Definition otp_button_pressed (st : state) (slot : Z) (tmp_key_1 : Z)
    : option (state * Z) :=
  let f := slot_file slot in
  let ef := search_dynamic_file st f in
  bytes <- file_get_data ef ;;
  otp_config <- view_config bytes ;;
  if flag_set (tkt_flags otp_config) OATH_HOTP then
    let tmp_key := tmp_key_of otp_config tmp_key_1 in
    imf <- resolve_imf ef bytes otp_config ;;
    let chal := chal_of_imf imf in
    let st := with_res st (res_APDU st) 0 in
    let '(ret, out) := calculate_oath 1 tmp_key chal in
    let st := log_oath_call st (1, tmp_key, chal) in
    let st := with_res st (store_bytes (res_APDU st) (res_APDU_size st) out)
                (res_APDU_size st + length out) in
    let st :=
      if ret =? CCID_OK then
        let base := if flag_set (cfg_flags otp_config) OATH_HOTP8
                    then 100000000 else 1000000 in
        let r := res_APDU st in
        let number :=
          u32 (int32 (Z.lor (Z.lor (Z.lor (int32 (Z.shiftl (r 2%nat) 24))
                                          (int32 (Z.shiftl (r 3%nat) 16)))
                                   (int32 (Z.shiftl (r 4%nat) 8)))
                            (r 5%nat))) in
        let number := number mod base in
        let st :=
          if flag_set (cfg_flags otp_config) OATH_HOTP8
          then add_keyboard_buffer st (decimal 8 number) true
          else add_keyboard_buffer st (decimal 6 number) true in
        let imf := u64 (imf + 1) in
        let new_chal := chal_of_imf imf in
        let new_otp_config := firstn otp_config_size bytes ++ new_chal in
        (* the value the write returns is not looked at *)
        fst (flash_write_data_to_file st f new_otp_config)
      else st in
    let st :=
      if flag_set (tkt_flags otp_config) APPEND_CR
      then append_keyboard_buffer st [13] else st in
    Some (st, 0)
  else if (flag_set (cfg_flags otp_config) SHORT_TICKET
           || flag_set (cfg_flags otp_config) STATIC_TICKET)%bool then
    (* otp_config->fixed_size /= 2 writes through the pointer to the
       stored bytes; a byte halves to a byte *)
    let bytes :=
      if flag_set (cfg_flags otp_config) SHORT_TICKET
      then write_byte bytes off_fixed_size (fixed_size otp_config / 2)
      else bytes in
    let st :=
      if flag_set (cfg_flags otp_config) SHORT_TICKET
      then with_file st f (Some bytes) else st in
    let n := nth off_fixed_size bytes 0 in
    ticket <- read_bytes bytes off_fixed_data (Z.to_nat n) ;;
    let st := add_keyboard_buffer st ticket false in
    let st :=
      if flag_set (tkt_flags otp_config) APPEND_CR
      then append_keyboard_buffer st [0x28] else st in
    Some (st, 0)
  else Some (st, 0).

(** Presses of the button of one slot, one after the other; the list
    gives the stack byte under [tmp_key[1]] at each press. *)
Fixpoint presses (st : state) (slot : Z) (stack : list Z) : option state :=
  match stack with
  | [] => Some st
  | g :: stack' =>
      r <- otp_button_pressed st slot g ;;
      presses (fst r) slot stack'
  end.

(** *** The command handler *)

(** [cmd_otp].  [None] is a run with no defined result (the access code
    read from stored bytes that do not hold a record). *)
Definition cmd_otp (st : state) (apdu : apdu_t) : option (state * sw) :=
  let p1 := P1 apdu in
  let p2 := P2 apdu in
  if negb (p2 =? 0x00) then Some (st, SW_INCORRECT_P1P2)
  else if ((p1 =? 0x01) || (p1 =? 0x03))%bool then
    (* odata->rfu[0], odata->rfu[1] *)
    if (negb (data apdu off_rfu =? 0) || negb (data apdu (S off_rfu) =? 0))%bool
    then Some (st, SW_WRONG_DATA)
    else
      let f := target_file p1 in
      let ef := file_new st f in
      denied <-
        (if file_has_data ef then
           bytes <- file_get_data ef ;;
           otpc <- view_config bytes ;;
           Some (negb (bytes_eqb (acc_code otpc)
                         (bytes_at (data apdu) otp_config_size ACC_CODE_SIZE)))
         else Some false) ;;
      if (denied : bool) then Some (st, SW_SECURITY_STATUS_NOT_SATISFIED)
      else if negb (all_zero (bytes_at (data apdu) 0 otp_config_size)) then
        (* some apdu.data[c] != 0, c < otp_config_size; the value the
           write returns is not looked at *)
        let st := fst (flash_write_data_to_file st f
                         (bytes_at (data apdu) 0 otp_config_size)) in
        let st := with_config_seq st (u8 (config_seq st + 1)) in
        Some (otp_status st)
      else
        (* Delete slot *)
        let st := delete_file st f in
        let st :=
          if (negb (file_has_data (search_dynamic_file st EF_OTP_SLOT1))
              && negb (file_has_data (search_dynamic_file st EF_OTP_SLOT2)))%bool
          then with_config_seq st 0 else st in
        Some (otp_status st)
  else if p1 =? 0x10 then
    let st := with_res st
                (store_bytes (res_APDU st) 0 (pico_get_unique_board_id_string 4))
                4 in
    Some (st, SW_OK)
  else Some (st, SW_OK).

(** The command table, closed by the entry with instruction 0. *)
Definition cmds : list (Z * (state -> apdu_t -> option (state * sw))) :=
  [ (INS_OTP, cmd_otp); (0x00, fun st _ => Some (st, SW_OK)) ].

(** The loop of [otp_process_apdu] over the table. *)
Fixpoint dispatch (tab : list (Z * (state -> apdu_t -> option (state * sw))))
    (st : state) (apdu : apdu_t) : option (state * sw) :=
  match tab with
  | [] => Some (st, SW_INS_NOT_SUPPORTED)
  | (ins, cmd_handler) :: tab' =>
      if ins =? 0x00 then Some (st, SW_INS_NOT_SUPPORTED)
      else if ins =? INS apdu then cmd_handler st apdu
      else dispatch tab' st apdu
  end.

Definition otp_process_apdu (st : state) (apdu : apdu_t) : option (state * sw) :=
  if negb (CLA apdu =? 0x00) then Some (st, SW_CLA_NOT_SUPPORTED)
  else dispatch cmds st apdu.

End Applet.

(** ** The words of the design, for comparison with the code *)

(** Eight bytes read as a big-endian unsigned integer. *)
Definition be_decode (p : list Z) : Z :=
  fold_left (fun acc b => acc * 256 + b) p 0.

(** The moving factor a stored slot stands for: the counter extension
    when there is one, the value seeded from [uid] otherwise. *)
Definition moving_factor (bytes : list Z) : Z :=
  if (length bytes =? otp_config_size)%nat
  then (nth (off_uid + 4) bytes 0 * 256 + nth (off_uid + 5) bytes 0) * 16
  else be_decode (slice otp_config_size 8 bytes).

(** The two lengths stored bytes have in the design: the record, or the
    record with the counter extension. *)
Definition stored_length_ok (ef : option (list Z)) : Prop :=
  match ef with
  | None => True
  | Some bytes =>
      length bytes = otp_config_size
      \/ length bytes = (otp_config_size + 8)%nat
  end.

Definition slots_ok (st : state) : Prop :=
  stored_length_ok (search_dynamic_file st EF_OTP_SLOT1)
  /\ stored_length_ok (search_dynamic_file st EF_OTP_SLOT2).

(** The revision counter after a command, as the handler sets it. *)
Definition seq_after (st : state) (apdu : apdu_t) (out : sw) (st' : state) : Z :=
  match out with
  | SW_OK =>
      if ((P1 apdu =? 0x01) || (P1 apdu =? 0x03))%bool then
        if all_zero (bytes_at (data apdu) 0 otp_config_size) then
          if (negb (file_has_data (search_dynamic_file st' EF_OTP_SLOT1))
              && negb (file_has_data (search_dynamic_file st' EF_OTP_SLOT2)))%bool
          then 0 else config_seq st
        else u8 (config_seq st + 1)
      else config_seq st
  | _ => config_seq st
  end.

(** ** Concrete platforms, records and states *)

(** A platform whose OATH primitive answers every call with the same
    truncated code, and whose flash stores every write. *)
Definition steady_oath : Externals := {|
  PICO_FIDO_VERSION_MAJOR := 5;
  PICO_FIDO_VERSION_MINOR := 2;
  calculate_oath := fun _ _ _ => (CCID_OK, [5; 6; 0x12; 0x34; 0x56; 0x78]);
  pico_get_unique_board_id_string := fun n => repeat 0x30 n;
  flash_write_outcome := fun _ _ => CCID_OK
|}.

(** A platform whose OATH primitive reports an error. *)
Definition failing_oath : Externals := {|
  PICO_FIDO_VERSION_MAJOR := 5;
  PICO_FIDO_VERSION_MINOR := 2;
  calculate_oath := fun _ _ _ => (1, []);
  pico_get_unique_board_id_string := fun n => repeat 0x30 n;
  flash_write_outcome := fun _ _ => CCID_OK
|}.

(** A platform whose OATH primitive works and whose flash stores
    nothing: every write returns a failure. *)
Definition failing_flash : Externals := {|
  PICO_FIDO_VERSION_MAJOR := 5;
  PICO_FIDO_VERSION_MINOR := 2;
  calculate_oath := fun _ _ _ => (CCID_OK, [5; 6; 0x12; 0x34; 0x56; 0x78]);
  pico_get_unique_board_id_string := fun n => repeat 0x30 n;
  flash_write_outcome := fun _ _ => -1000
|}.

Definition empty_state : state := {|
  ef_otp_slot1 := None;
  ef_otp_slot2 := None;
  config_seq := 0;
  res_APDU := fun _ => 0;
  res_APDU_size := 0;
  apdu_ne := 0;
  keyboard_buffer := [];
  keyboard_encode := false;
  oath_calls := []
|}.

(** A record with fixed data 1..16, uid 0x21..0x26, key 0x41..0x50,
    access code 0x61..0x66 and the given size and flags. *)
Definition sample_record (fsize tkt cfg : Z) : list Z :=
  [1; 2; 3; 4; 5; 6; 7; 8; 9; 10; 11; 12; 13; 14; 15; 16]
  ++ [0x21; 0x22; 0x23; 0x24; 0x25; 0x26]
  ++ [0x41; 0x42; 0x43; 0x44; 0x45; 0x46; 0x47; 0x48;
      0x49; 0x4a; 0x4b; 0x4c; 0x4d; 0x4e; 0x4f; 0x50]
  ++ [0x61; 0x62; 0x63; 0x64; 0x65; 0x66]
  ++ [fsize; 0; tkt; cfg]
  ++ [0; 0]
  ++ [0; 0].

Definition state_with_slot1 (bytes : list Z) : state :=
  with_file empty_state EF_OTP_SLOT1 (Some bytes).

Definition state_with_both (b1 b2 : list Z) : state :=
  with_config_seq
    (with_file (with_file empty_state EF_OTP_SLOT1 (Some b1))
       EF_OTP_SLOT2 (Some b2))
    1.

Definition configure (p1 : Z) (payload : list Z) : apdu_t := {|
  CLA := 0x00; INS := INS_OTP; P1 := p1; P2 := 0x00;
  nc := length payload; data := buffer_of payload
|}.

(** ** Runs of the applet

    The host drives the applet by selections, commands and button
    presses, each run to completion before the next. *)

Inductive event :=
| Select (aid : list Z)
| Command (apdu : apdu_t)
| Button (slot : Z) (tmp_key_1 : Z).

Section Runs.

Context {E : Externals}.

Definition step (st : state) (e : event) : option state :=
  match e with
  | Select aid => Some (fst (otp_select st aid))
  | Command apdu => r <- otp_process_apdu st apdu ;; Some (fst r)
  | Button slot g => r <- otp_button_pressed st slot g ;; Some (fst r)
  end.

Fixpoint run (st : state) (es : list event) : option state :=
  match es with
  | [] => Some st
  | e :: es' => st' <- step st e ;; run st' es'
  end.

End Runs.

(** The number the handler takes from [res_APDU[2..5]] after the call
    of the primitive, as a [uint32_t]. *)
Definition res_number (r : buffer) : Z :=
  u32 (int32 (Z.lor (Z.lor (Z.lor (int32 (Z.shiftl (r 2%nat) 24))
                                  (int32 (Z.shiftl (r 3%nat) 16)))
                           (int32 (Z.shiftl (r 4%nat) 8)))
                    (r 5%nat))).

(** A string of decimal digits read back as a number. *)
Definition undecimal (cs : list Z) : Z :=
  fold_left (fun acc ch => acc * 10 + (ch - 48)) cs 0.

(** The other slot file. *)
Definition other_file (f : file_id) : file_id :=
  match f with
  | EF_OTP_SLOT1 => EF_OTP_SLOT2
  | EF_OTP_SLOT2 => EF_OTP_SLOT1
  end.

(** The presence bit of a slot file in the capability byte. *)
Definition valid_bit (f : file_id) : Z :=
  match f with
  | EF_OTP_SLOT1 => CONFIG1_VALID
  | EF_OTP_SLOT2 => CONFIG2_VALID
  end.

(** What the applet keeps between events: stored bytes of one of the
    two lengths, a revision counter that fits its byte, and a revision
    counter of 0 while both slots are empty. *)
Definition applet_inv (st : state) : Prop :=
  slots_ok st
  /\ 0 <= config_seq st < 256
  /\ (file_has_data (search_dynamic_file st EF_OTP_SLOT1) = false ->
      file_has_data (search_dynamic_file st EF_OTP_SLOT2) = false ->
      config_seq st = 0).

(** The access check of a configure command: the target slot is empty,
    or the six bytes after the record are its stored access code. *)
Definition access_granted (st : state) (apdu : apdu_t) : Prop :=
  let ef := search_dynamic_file st (target_file (P1 apdu)) in
  file_has_data ef = false
  \/ exists bytes c,
       ef = Some bytes /\ view_config bytes = Some c
       /\ acc_code c = bytes_at (data apdu) otp_config_size ACC_CODE_SIZE.

(** The slots and the revision counter a granted configure command
    leaves, before its status report. *)
Definition configured {E : Externals} (st : state) (apdu : apdu_t) : state :=
  let f := target_file (P1 apdu) in
  if all_zero (bytes_at (data apdu) 0 otp_config_size) then
    let st := delete_file st f in
    if (negb (file_has_data (search_dynamic_file st EF_OTP_SLOT1))
        && negb (file_has_data (search_dynamic_file st EF_OTP_SLOT2)))%bool
    then with_config_seq st 0 else st
  else
    with_config_seq
      (fst (flash_write_data_to_file st f
              (bytes_at (data apdu) 0 otp_config_size)))
      (u8 (config_seq st + 1)).

(** The members of the record at the start of stored bytes that hold
    one. *)
Definition view_of (bytes : list Z) : otp_config_t := {|
  fixed_data := slice off_fixed_data FIXED_SIZE bytes;
  uid        := slice off_uid UID_SIZE bytes;
  aes_key    := slice off_aes_key KEY_SIZE bytes;
  acc_code   := slice off_acc_code ACC_CODE_SIZE bytes;
  fixed_size := nth off_fixed_size bytes 0;
  ext_flags  := nth off_ext_flags bytes 0;
  tkt_flags  := nth off_tkt_flags bytes 0;
  cfg_flags  := nth off_cfg_flags bytes 0;
  rfu        := slice off_rfu 2 bytes;
  crc        := nth off_crc bytes 0 + 256 * nth (S off_crc) bytes 0
|}.

(** A command with the given header and payload. *)
Definition command (cla ins p1 p2 : Z) (payload : list Z) : apdu_t := {|
  CLA := cla; INS := ins; P1 := p1; P2 := p2;
  nc := length payload; data := buffer_of payload
|}.

(** The access code of [sample_record]. *)
Definition sample_code : list Z := [0x61; 0x62; 0x63; 0x64; 0x65; 0x66].

(** ** Basic facts on buffers and stored bytes *)

Lemma bytes_at_length (m : buffer) (off len : nat) :
  length (bytes_at m off len) = len.
Proof. unfold bytes_at. now rewrite length_map, length_seq. Qed.

Lemma bytes_eqb_eq (a b : list Z) : bytes_eqb a b = true <-> a = b.
Proof.
  revert b; induction a as [|x a IH]; intros [|y b]; simpl;
    try (split; congruence).
  rewrite andb_true_iff, Z.eqb_eq, IH. split.
  - intros [-> ->]; reflexivity.
  - intros H; inversion H; auto.
Qed.

Lemma otp_config_size_52 : otp_config_size = 52%nat.
Proof. reflexivity. Qed.

Lemma view_config_defined (bytes : list Z) :
  (otp_config_size <= length bytes)%nat ->
  exists c, view_config bytes = Some c.
Proof.
  intros H. unfold view_config.
  destruct (Nat.ltb_spec (length bytes) otp_config_size); [lia|].
  eexists; reflexivity.
Qed.

Lemma view_config_length (bytes : list Z) (c : otp_config_t) :
  view_config bytes = Some c -> (otp_config_size <= length bytes)%nat.
Proof.
  unfold view_config.
  destruct (Nat.ltb_spec (length bytes) otp_config_size); [discriminate|auto].
Qed.


(** ** Lists of stored bytes *)

Lemma nth_slice (off len i : nat) (l : list Z) :
  (i < len)%nat -> nth i (slice off len l) 0 = nth (off + i) l 0.
Proof.
  intros Hi. unfold slice. rewrite nth_firstn.
  destruct (Nat.ltb_spec i len); [|lia].
  apply nth_skipn.
Qed.

Lemma slice_app_prefix (off len : nat) (l ext : list Z) :
  (off + len <= length l)%nat ->
  slice off len (l ++ ext) = slice off len l.
Proof.
  intros H. unfold slice.
  rewrite skipn_app, firstn_app, length_skipn.
  replace (len - (length l - off))%nat with 0%nat by lia.
  rewrite firstn_O, app_nil_r. reflexivity.
Qed.

Lemma slice_firstn (off len n : nat) (l : list Z) :
  (off + len <= n)%nat ->
  slice off len (firstn n l) = slice off len l.
Proof.
  intros H. unfold slice.
  rewrite skipn_firstn_comm, firstn_firstn.
  f_equal. lia.
Qed.

Lemma slice_after_prefix (l ext : list Z) :
  slice (length l) (length ext) (l ++ ext) = ext.
Proof.
  unfold slice. rewrite skipn_app, skipn_all, Nat.sub_diag.
  simpl. apply firstn_all.
Qed.

Lemma nth_app_prefix (i : nat) (l ext : list Z) :
  (i < length l)%nat -> nth i (l ++ ext) 0 = nth i l 0.
Proof. intros H. now apply app_nth1. Qed.

Lemma nth_firstn_lt (i n : nat) (l : list Z) :
  (i < n)%nat -> nth i (firstn n l) 0 = nth i l 0.
Proof.
  intros H. rewrite nth_firstn.
  destruct (Nat.ltb_spec i n); [reflexivity|lia].
Qed.

Lemma all_zero_nth (bs : list Z) (i : nat) :
  all_zero bs = true -> nth i bs 0 = 0.
Proof.
  revert i; induction bs as [|b bs IH]; intros [|i] H; simpl in *;
    try reflexivity.
  - apply andb_true_iff in H. destruct H as [H _]. now apply Z.eqb_eq in H.
  - apply andb_true_iff in H. destruct H as [_ H]. now apply IH.
Qed.

Lemma write_byte_length (bs : list Z) (i : nat) (v : Z) :
  (i < length bs)%nat -> length (write_byte bs i v) = length bs.
Proof.
  intros H. unfold write_byte.
  rewrite length_app, length_firstn. cbn [length]. rewrite length_skipn. lia.
Qed.

Lemma nth_write_byte (bs : list Z) (i : nat) (v : Z) :
  (i < length bs)%nat -> nth i (write_byte bs i v) 0 = v.
Proof.
  intros H. unfold write_byte.
  rewrite app_nth2; rewrite length_firstn, Nat.min_l by lia; [|lia].
  now rewrite Nat.sub_diag.
Qed.

Lemma firstn_write_byte (bs : list Z) (i n : nat) (v : Z) :
  (n <= i)%nat -> (i < length bs)%nat ->
  firstn n (write_byte bs i v) = firstn n bs.
Proof.
  intros Hn Hi. unfold write_byte.
  rewrite firstn_app, length_firstn, Nat.min_l by lia.
  replace (n - i)%nat with 0%nat by lia.
  rewrite firstn_O, app_nil_r, firstn_firstn.
  f_equal. lia.
Qed.

Lemma view_config_prefix (bytes ext : list Z) :
  (otp_config_size <= length bytes)%nat ->
  view_config (firstn otp_config_size bytes ++ ext) = view_config bytes.
Proof.
  intros H. unfold view_config.
  rewrite length_app, length_firstn, Nat.min_l by assumption.
  destruct (Nat.ltb_spec (otp_config_size + length ext) otp_config_size); [lia|].
  destruct (Nat.ltb_spec (length bytes) otp_config_size); [lia|].
  assert (Hl : length (firstn otp_config_size bytes) = otp_config_size)
    by (rewrite length_firstn; lia).
  assert (Hs : forall off len, (off + len <= otp_config_size)%nat ->
            slice off len (firstn otp_config_size bytes ++ ext) =
            slice off len bytes).
  { intros off len Hol.
    rewrite slice_app_prefix by lia. now apply slice_firstn. }
  assert (Hn : forall i, (i < otp_config_size)%nat ->
            nth i (firstn otp_config_size bytes ++ ext) 0 = nth i bytes 0).
  { intros i Hi.
    rewrite nth_app_prefix by lia. now apply nth_firstn_lt. }
  rewrite !Hs, !Hn by (vm_compute; lia).
  reflexivity.
Qed.

(** ** Shifts, masks and conversions *)

Lemma testbit_above (b k n : Z) :
  0 <= k -> 0 <= b < 2 ^ k -> k <= n -> Z.testbit b n = false.
Proof.
  intros Hk Hb Hn.
  rewrite <- (Z.mod_small b (2 ^ k)) by assumption.
  apply Z.mod_pow2_bits_high. lia.
Qed.

Lemma lor_add_disjoint (a b k : Z) :
  0 <= k -> 0 <= b < 2 ^ k -> Z.lor (a * 2 ^ k) b = a * 2 ^ k + b.
Proof.
  intros Hk Hb.
  assert (Hland : Z.land (a * 2 ^ k) b = 0).
  { apply Z.bits_inj'. intros n Hn.
    rewrite Z.land_spec, Z.bits_0, <- Z.shiftl_mul_pow2 by assumption.
    destruct (Z.lt_ge_cases n k).
    - rewrite Z.shiftl_spec_low by assumption. reflexivity.
    - rewrite (testbit_above b k n) by assumption. apply andb_false_r. }
  rewrite <- Z.lxor_lor by assumption.
  symmetry. now apply Z.add_nocarry_lxor.
Qed.

Lemma int32_small (x : Z) : 0 <= x < 2 ^ 31 -> int32 x = x.
Proof. intros H. unfold int32. rewrite Z.mod_small; lia. Qed.

Lemma int32_bit31 (x : Z) :
  2 ^ 31 <= x < 2 ^ 32 -> u64 (int32 x) = x + (2 ^ 64 - 2 ^ 32).
Proof.
  intros H. unfold int32, u64. Z.div_mod_to_equations. lia.
Qed.

Lemma u64_small (x : Z) : 0 <= x < 2 ^ 64 -> u64 x = x.
Proof. intros H. unfold u64. now apply Z.mod_small. Qed.

Lemma u8_byte (x : Z) : is_byte (u8 x).
Proof. unfold is_byte, u8. apply Z.mod_pos_bound. reflexivity. Qed.

Lemma chal_of_imf_length (imf : Z) : length (chal_of_imf imf) = 8%nat.
Proof. reflexivity. Qed.

Lemma chal_of_imf_bytes (imf : Z) : Forall is_byte (chal_of_imf imf).
Proof. unfold chal_of_imf. repeat constructor; apply u8_byte. Qed.

Lemma shiftr_byte_step (v k : Z) :
  0 <= k -> v / 2 ^ (k + 8) * 256 + (v / 2 ^ k) mod 256 = v / 2 ^ k.
Proof.
  intros Hk.
  rewrite Z.pow_add_r, <- Z.div_div by lia.
  change (2 ^ 8) with 256.
  rewrite (Z.div_mod (v / 2 ^ k) 256) at 3 by lia. ring.
Qed.

Ltac byte_step v k k8 :=
  let S := fresh "S" in
  pose proof (shiftr_byte_step v k ltac:(lia)) as S;
  change (k + 8) with k8 in S; rewrite S; clear S.

(** The serialised counter, read as a big-endian integer, is the
    counter. *)
Lemma be_decode_chal (imf : Z) :
  0 <= imf < 2 ^ 64 -> be_decode (chal_of_imf imf) = imf.
Proof.
  intros H. unfold be_decode, chal_of_imf, u8. cbn [fold_left].
  change 255 with (Z.ones 8). rewrite Z.land_ones by lia.
  rewrite !Z.shiftr_div_pow2 by lia.
  change (2 ^ 8) with 256.
  assert (H7 : (imf / 2 ^ 56) mod 256 = imf / 2 ^ 56).
  { apply Z.mod_small. split.
    - apply Z.div_pos; lia.
    - apply Z.div_lt_upper_bound; lia. }
  rewrite H7. change (0 * 256 + imf / 2 ^ 56) with (imf / 2 ^ 56).
  byte_step imf 48 56. byte_step imf 40 48. byte_step imf 32 40.
  byte_step imf 24 32. byte_step imf 16 24.
  change (imf / 256) with (imf / 2 ^ 8). byte_step imf 8 16.
  change (2 ^ 8) with 256.
  rewrite Z.mod_mod by lia.
  pose proof (Z.div_mod imf 256 ltac:(lia)). lia.
Qed.

Lemma lor_next_byte (hi b s : Z) :
  0 <= s -> is_byte b ->
  Z.lor (hi * 2 ^ (s + 8)) (b * 2 ^ s) = (hi * 256 + b) * 2 ^ s.
Proof.
  intros Hs Hb. unfold is_byte in Hb.
  rewrite lor_add_disjoint.
  - rewrite Z.pow_add_r by lia. change (2 ^ 8) with 256. ring.
  - lia.
  - rewrite Z.pow_add_r by lia. change (2 ^ 8) with 256.
    assert (0 < 2 ^ s) by (apply Z.pow_pos_nonneg; lia). nia.
Qed.

Ltac lor_step b s s8 :=
  match goal with
  | |- context [Z.lor (?hi * 2 ^ s8) (b * 2 ^ s)] =>
      let S := fresh "S" in
      pose proof (lor_next_byte hi b s ltac:(lia) ltac:(assumption)) as S;
      change (s + 8) with s8 in S; rewrite S; clear S
  end.

(** The seed of a slot without extension is the two low [uid] bytes
    shifted left by four bits. *)
Lemma imf_of_uid_value (c : otp_config_t) :
  is_byte (nth 4 (uid c) 0) -> is_byte (nth 5 (uid c) 0) ->
  imf_of_uid c =
    Z.shiftl (Z.lor (Z.shiftl (nth 4 (uid c) 0) 8) (nth 5 (uid c) 0)) 4
  /\ imf_of_uid c = (nth 4 (uid c) 0 * 256 + nth 5 (uid c) 0) * 16
  /\ 0 <= imf_of_uid c < 2 ^ 20.
Proof.
  intros H4 H5. unfold imf_of_uid.
  set (u4 := nth 4 (uid c) 0) in *. set (u5 := nth 5 (uid c) 0) in *.
  unfold is_byte in *.
  rewrite !Z.shiftl_mul_pow2 by lia.
  rewrite (int32_small (u4 * 2 ^ 8)) by lia.
  rewrite lor_add_disjoint by lia.
  rewrite (int32_small (u4 * 2 ^ 8 + u5)) by lia.
  rewrite int32_small by lia.
  rewrite u64_small by lia.
  lia.
Qed.

Ltac split_bytes :=
  repeat match goal with
         | H : Forall _ (_ :: _) |- _ => inversion H; subst; clear H
         | H : Forall _ [] |- _ => clear H
         end.

(** Eight bytes shifted into place and or-ed together are their
    big-endian value. *)
Lemma be_decode_lor (b0 b1 b2 b3 b4 b5 b6 b7 : Z) :
  Forall is_byte [b0; b1; b2; b3; b4; b5; b6; b7] ->
  Z.lor (Z.lor (Z.lor (Z.lor (Z.lor (Z.lor (Z.lor
    (b0 * 2 ^ 56) (b1 * 2 ^ 48)) (b2 * 2 ^ 40)) (b3 * 2 ^ 32))
    (b4 * 2 ^ 24)) (b5 * 2 ^ 16)) (b6 * 2 ^ 8)) b7 =
  be_decode [b0; b1; b2; b3; b4; b5; b6; b7].
Proof.
  intros Hb. split_bytes.
  unfold be_decode. cbn [fold_left].
  lor_step b1 48 56. lor_step b2 40 48. lor_step b3 32 40.
  lor_step b4 24 32. lor_step b5 16 24. lor_step b6 8 16.
  match goal with H : is_byte b7 |- _ => unfold is_byte in H end.
  rewrite lor_add_disjoint by lia.
  ring.
Qed.

(** What the handler computes from the eight bytes, before the
    conversions of the lower four are resolved. *)
Lemma imf_of_ext_terms (b0 b1 b2 b3 b4 b5 b6 b7 : Z) :
  Forall is_byte [b0; b1; b2; b3; b4; b5; b6; b7] ->
  imf_of_ext [b0; b1; b2; b3; b4; b5; b6; b7] =
  Z.lor (Z.lor (Z.lor (Z.lor (Z.lor (Z.lor (Z.lor
    (b0 * 2 ^ 56) (b1 * 2 ^ 48)) (b2 * 2 ^ 40)) (b3 * 2 ^ 32))
    (u64 (int32 (b4 * 2 ^ 24)))) (b5 * 2 ^ 16)) (b6 * 2 ^ 8)) b7.
Proof.
  intros Hb. split_bytes.
  unfold imf_of_ext. cbn [nth].
  repeat match goal with H : is_byte _ |- _ => unfold is_byte in H end.
  rewrite (u64_small b0), (u64_small b1), (u64_small b2), (u64_small b3),
    (u64_small b7) by lia.
  rewrite !Z.shiftl_mul_pow2 by lia.
  rewrite (int32_small (b5 * 2 ^ 16)), (int32_small (b6 * 2 ^ 8)) by lia.
  rewrite (u64_small (b0 * 2 ^ 56)), (u64_small (b1 * 2 ^ 48)),
    (u64_small (b2 * 2 ^ 40)), (u64_small (b3 * 2 ^ 32)),
    (u64_small (b5 * 2 ^ 16)), (u64_small (b6 * 2 ^ 8)) by lia.
  rewrite Z.lor_0_l. reflexivity.
Qed.

(** The extension read by the handler is its big-endian value as long
    as the byte shifted by 24 is below 0x80. *)
Lemma imf_of_ext_be (b0 b1 b2 b3 b4 b5 b6 b7 : Z) :
  Forall is_byte [b0; b1; b2; b3; b4; b5; b6; b7] ->
  b4 < 128 ->
  imf_of_ext [b0; b1; b2; b3; b4; b5; b6; b7] =
  be_decode [b0; b1; b2; b3; b4; b5; b6; b7].
Proof.
  intros Hb H4.
  rewrite imf_of_ext_terms, <- be_decode_lor by assumption.
  split_bytes.
  match goal with H : is_byte b4 |- _ => unfold is_byte in H end.
  rewrite int32_small, u64_small by lia.
  reflexivity.
Qed.

(** From 0x80 on, the sign of the shifted [int] fills the upper half:
    the handler works with the big-endian value or-ed with
    0xFFFFFFFF00000000. *)
Lemma imf_of_ext_sign_extended (b0 b1 b2 b3 b4 b5 b6 b7 : Z) :
  Forall is_byte [b0; b1; b2; b3; b4; b5; b6; b7] ->
  128 <= b4 ->
  imf_of_ext [b0; b1; b2; b3; b4; b5; b6; b7] =
  Z.lor (be_decode [b0; b1; b2; b3; b4; b5; b6; b7]) 0xFFFFFFFF00000000.
Proof.
  intros Hb H4.
  rewrite imf_of_ext_terms, <- be_decode_lor by assumption.
  split_bytes.
  match goal with H : is_byte b4 |- _ => unfold is_byte in H end.
  rewrite int32_bit31 by lia.
  replace (b4 * 2 ^ 24 + (2 ^ 64 - 2 ^ 32))
    with (Z.lor (b4 * 2 ^ 24) 0xFFFFFFFF00000000).
  2:{ rewrite Z.lor_comm.
      change 0xFFFFFFFF00000000 with (4294967295 * 2 ^ 32).
      rewrite lor_add_disjoint by lia. lia. }
  apply Z.bits_inj'. intros n Hn.
  rewrite !Z.lor_spec.
  repeat match goal with
         | |- context [Z.testbit ?x n] => destruct (Z.testbit x n)
         end; reflexivity.
Qed.

(** Bit 31 of a big-endian value is the top bit of its fifth byte. *)
Lemma be_decode_bit31 (b0 b1 b2 b3 b4 b5 b6 b7 : Z) :
  Forall is_byte [b0; b1; b2; b3; b4; b5; b6; b7] ->
  Z.testbit (be_decode [b0; b1; b2; b3; b4; b5; b6; b7]) 31 = false ->
  b4 < 128.
Proof.
  intros Hb Ht. split_bytes.
  unfold is_byte in *.
  apply Z.testbit_false in Ht; [|lia].
  unfold be_decode in Ht. cbn [fold_left] in Ht.
  revert Ht.
  set (hi := ((0 * 256 + b0) * 256 + b1) * 256 + b2).
  assert (0 <= hi) by (unfold hi; lia).
  set (lo := b5 * 65536 + b6 * 256 + b7).
  assert (0 <= lo < 2 ^ 24) by (unfold lo; lia).
  replace (((((hi * 256 + b3) * 256 + b4) * 256 + b5) * 256 + b6) * 256 + b7)
    with ((hi * 256 + b3) * 2 ^ 32 + b4 * 2 ^ 24 + lo) by (unfold lo; ring).
  intros Ht.
  destruct (Z.lt_ge_cases b4 128) as [Hlt|Hge]; [exact Hlt|exfalso].
  set (top := hi * 256 + b3) in *.
  replace (top * 2 ^ 32 + b4 * 2 ^ 24 + lo)
    with ((top * 2 + 1) * 2 ^ 31 + ((b4 - 128) * 2 ^ 24 + lo)) in Ht by ring.
  rewrite Z.div_add_l, Z.div_small in Ht by lia.
  rewrite Z.add_0_r, Z.add_comm, Z.mod_add in Ht by lia.
  discriminate.
Qed.

Lemma Forall_firstn_bytes (n : nat) (l : list Z) :
  Forall is_byte l -> Forall is_byte (firstn n l).
Proof.
  intros H. rewrite <- (firstn_skipn n l) in H.
  apply Forall_app in H. tauto.
Qed.

Lemma Forall_skipn_bytes (n : nat) (l : list Z) :
  Forall is_byte l -> Forall is_byte (skipn n l).
Proof.
  intros H. rewrite <- (firstn_skipn n l) in H.
  apply Forall_app in H. tauto.
Qed.

Lemma Forall_slice_bytes (off len : nat) (l : list Z) :
  Forall is_byte l -> Forall is_byte (slice off len l).
Proof.
  intros H. unfold slice.
  now apply Forall_firstn_bytes, Forall_skipn_bytes.
Qed.

Lemma slice_length (off len : nat) (l : list Z) :
  (off + len <= length l)%nat -> length (slice off len l) = len.
Proof.
  intros H. unfold slice. rewrite length_firstn, length_skipn. lia.
Qed.

Lemma be_decode_nonneg (p : list Z) :
  Forall is_byte p -> 0 <= be_decode p.
Proof.
  unfold be_decode.
  assert (G : forall acc, 0 <= acc -> Forall is_byte p ->
            0 <= fold_left (fun a b => a * 256 + b) p acc).
  { induction p as [|b p IH]; intros acc Hacc Hp; cbn [fold_left].
    - exact Hacc.
    - inversion Hp as [|? ? Hb Hp']; subst. unfold is_byte in Hb.
      apply IH; [lia|assumption]. }
  apply G. lia.
Qed.

(** ** The moving factor of a stored slot, as the handler resolves it *)

Lemma uid_bytes_of_view (bytes : list Z) (c : otp_config_t) (i : nat) :
  view_config bytes = Some c -> (i < UID_SIZE)%nat ->
  nth i (uid c) 0 = nth (off_uid + i) bytes 0.
Proof.
  intros Hv Hi. unfold view_config in Hv.
  destruct (length bytes <? otp_config_size)%nat; [discriminate|].
  inversion Hv; subst; cbn [uid].
  now apply nth_slice.
Qed.

Lemma nth_is_byte (bytes : list Z) (i : nat) :
  Forall is_byte bytes -> (i < length bytes)%nat -> is_byte (nth i bytes 0).
Proof. intros H Hi. now apply Forall_nth. Qed.

(** On a stored slot of one of the two lengths of the design, the
    handler resolves the moving factor of the design whenever bit 31 of
    that moving factor is clear. *)
Lemma resolve_imf_moving_factor (bytes : list Z) (c : otp_config_t) :
  length bytes = otp_config_size \/ length bytes = (otp_config_size + 8)%nat ->
  Forall is_byte bytes ->
  view_config bytes = Some c ->
  Z.testbit (moving_factor bytes) 31 = false ->
  resolve_imf (Some bytes) bytes c = Some (moving_factor bytes)
  /\ 0 <= moving_factor bytes.
Proof.
  intros Hlen Hb Hv Ht. unfold resolve_imf, moving_factor in *.
  cbn [file_get_size].
  destruct Hlen as [Hlen|Hlen]; rewrite Hlen in *.
  - rewrite Nat.eqb_refl in *.
    assert (H4 : is_byte (nth (off_uid + 4) bytes 0))
      by (apply nth_is_byte; [assumption|rewrite Hlen; vm_compute; lia]).
    assert (H5 : is_byte (nth (off_uid + 5) bytes 0))
      by (apply nth_is_byte; [assumption|rewrite Hlen; vm_compute; lia]).
    rewrite <- (uid_bytes_of_view bytes c 4 Hv) in * by (vm_compute; lia).
    rewrite <- (uid_bytes_of_view bytes c 5 Hv) in * by (vm_compute; lia).
    destruct (imf_of_uid_value c H4 H5) as [_ [-> _]].
    unfold is_byte in H4, H5. split; [reflexivity|lia].
  - replace (otp_config_size + 8 =? otp_config_size)%nat with false in *
      by reflexivity.
    unfold read_bytes. rewrite Hlen, Nat.leb_refl.
    pose proof (Forall_slice_bytes otp_config_size 8 bytes Hb) as Hs.
    pose proof (slice_length otp_config_size 8 bytes ltac:(lia)) as Hl8.
    destruct (slice otp_config_size 8 bytes)
      as [|b0 [|b1 [|b2 [|b3 [|b4 [|b5 [|b6 [|b7 [|? ?]]]]]]]]];
      try discriminate.
    pose proof (be_decode_bit31 _ _ _ _ _ _ _ _ Hs Ht) as H4.
    rewrite imf_of_ext_be by assumption.
    split; [reflexivity|now apply be_decode_nonneg].
Qed.

(** The stored slot after a press that wrote the counter [imf]. *)
Lemma moving_factor_written (bytes : list Z) (imf : Z) :
  (otp_config_size <= length bytes)%nat -> 0 <= imf < 2 ^ 64 ->
  moving_factor (firstn otp_config_size bytes ++ chal_of_imf imf) = imf.
Proof.
  intros Hl Hi. unfold moving_factor.
  assert (Hf : length (firstn otp_config_size bytes) = otp_config_size)
    by (rewrite length_firstn; lia).
  rewrite length_app, Hf, chal_of_imf_length.
  replace (otp_config_size + 8 =? otp_config_size)%nat with false by reflexivity.
  rewrite <- Hf at 1. change 8%nat with (length (chal_of_imf imf)) at 1.
  rewrite slice_after_prefix.
  now apply be_decode_chal.
Qed.

Lemma firstn_written (bytes ext : list Z) :
  (otp_config_size <= length bytes)%nat ->
  firstn otp_config_size (firstn otp_config_size bytes ++ ext) =
  firstn otp_config_size bytes.
Proof.
  intros Hl.
  rewrite firstn_app, length_firstn, Nat.min_l by assumption.
  rewrite Nat.sub_diag, firstn_O, app_nil_r.
  rewrite firstn_firstn. now rewrite Nat.min_id.
Qed.

Section Properties.

Context {E : Externals}.

(** ** The write to the flash *)

Lemma flash_write_effect (st : state) (f : file_id) (bs : list Z) :
  fst (flash_write_data_to_file st f bs) =
  if flash_write_outcome f bs =? CCID_OK then with_file st f (Some bs) else st.
Proof.
  unfold flash_write_data_to_file. cbv zeta.
  now destruct (flash_write_outcome f bs =? CCID_OK).
Qed.

Lemma flash_write_stored (st : state) (f : file_id) (bs : list Z) :
  flash_write_outcome f bs = CCID_OK ->
  fst (flash_write_data_to_file st f bs) = with_file st f (Some bs).
Proof. intros H. rewrite flash_write_effect, H. reflexivity. Qed.

Lemma flash_write_config_seq (st : state) (f : file_id) (bs : list Z) :
  config_seq (fst (flash_write_data_to_file st f bs)) = config_seq st.
Proof.
  rewrite flash_write_effect.
  now destruct (flash_write_outcome f bs =? CCID_OK).
Qed.

(** ** The dispatcher *)

Lemma process_apdu_is_cmd_otp (st : state) (apdu : apdu_t) :
  CLA apdu = 0x00 -> INS apdu = INS_OTP ->
  otp_process_apdu st apdu = cmd_otp st apdu.
Proof.
  intros Hc Hi. unfold otp_process_apdu, cmds, dispatch.
  rewrite Hc, Hi. reflexivity.
Qed.

(** C10: a command with class 0x00, instruction OTP, P2 = 0 and a
    selector P1 other than 0x01, 0x03 and 0x10 is answered with the
    generic success status, and the whole state (both slots and the
    revision counter with it) stays as it was. *)
Theorem unknown_selector_accepted (st : state) (apdu : apdu_t) :
  CLA apdu = 0x00 -> INS apdu = INS_OTP -> P2 apdu = 0x00 ->
  P1 apdu <> 0x01 -> P1 apdu <> 0x03 -> P1 apdu <> 0x10 ->
  otp_process_apdu st apdu = Some (st, SW_OK).
Proof.
  intros Hc Hi H2 Ha Hb Hd.
  rewrite process_apdu_is_cmd_otp by assumption.
  unfold cmd_otp. rewrite H2. simpl.
  destruct (Z.eqb_spec (P1 apdu) 1); [contradiction|].
  destruct (Z.eqb_spec (P1 apdu) 3); [contradiction|].
  destruct (Z.eqb_spec (P1 apdu) 16); [contradiction|].
  reflexivity.
Qed.

(** ** The status report *)

Lemma capability_flags_cases (st : state) :
  capability_flags st =
  12 + (if file_has_data (search_dynamic_file st EF_OTP_SLOT1) then 1 else 0)
     + (if file_has_data (search_dynamic_file st EF_OTP_SLOT2) then 2 else 0).
Proof.
  unfold capability_flags.
  destruct (file_has_data _), (file_has_data _); reflexivity.
Qed.

Lemma otp_status_files (st : state) (f : file_id) :
  search_dynamic_file (fst (otp_status st)) f = search_dynamic_file st f.
Proof. destruct f; reflexivity. Qed.

Lemma otp_status_config_seq (st : state) :
  config_seq (fst (otp_status st)) = config_seq st.
Proof. reflexivity. Qed.

Lemma status_outcome (st st' : state) (out : sw) :
  Some (otp_status st) = Some (st', out) ->
  st' = fst (otp_status st) /\ out = SW_OK.
Proof. intros H. inversion H. split; reflexivity. Qed.

(** C8 (as the code has it): a status report is the six bytes
    [major][minor][0][config_seq][capability][0] written to
    [res_APDU[1..6]]; byte 0 of the buffer is left as it was and the
    response length is set to 0.  The capability byte has both touch
    bits set, and the presence bit of a slot set iff the slot holds
    data. *)
Theorem status_report_layout (st : state) :
  let st' := fst (otp_status st) in
  snd (otp_status st) = SW_OK
  /\ bytes_at (res_APDU st') 1 6 =
       [ u8 PICO_FIDO_VERSION_MAJOR; u8 PICO_FIDO_VERSION_MINOR; 0;
         config_seq st; capability_flags st; 0 ]
  /\ res_APDU st' 0%nat = res_APDU st 0%nat
  /\ res_APDU_size st' = 0%nat
  /\ Z.land (capability_flags st) CONFIG1_TOUCH = CONFIG1_TOUCH
  /\ Z.land (capability_flags st) CONFIG2_TOUCH = CONFIG2_TOUCH
  /\ (Z.land (capability_flags st) CONFIG1_VALID = CONFIG1_VALID <->
      file_has_data (search_dynamic_file st EF_OTP_SLOT1) = true)
  /\ (Z.land (capability_flags st) CONFIG2_VALID = CONFIG2_VALID <->
      file_has_data (search_dynamic_file st EF_OTP_SLOT2) = true).
Proof.
  cbv zeta. do 4 (split; [reflexivity|]).
  rewrite capability_flags_cases.
  destruct (file_has_data (search_dynamic_file st EF_OTP_SLOT1));
    destruct (file_has_data (search_dynamic_file st EF_OTP_SLOT2));
    repeat split; try reflexivity;
    intros H; vm_compute in H; discriminate.
Qed.

(** ** The configure command *)

Lemma cmd_otp_configure (st : state) (apdu : apdu_t) :
  P2 apdu = 0x00 -> P1 apdu = 0x01 \/ P1 apdu = 0x03 ->
  data apdu off_rfu = 0 -> data apdu (S off_rfu) = 0 ->
  cmd_otp st apdu =
  (let f := target_file (P1 apdu) in
   let ef := file_new st f in
   denied <-
     (if file_has_data ef then
        bytes <- file_get_data ef ;;
        otpc <- view_config bytes ;;
        Some (negb (bytes_eqb (acc_code otpc)
                      (bytes_at (data apdu) otp_config_size ACC_CODE_SIZE)))
      else Some false) ;;
   if (denied : bool) then Some (st, SW_SECURITY_STATUS_NOT_SATISFIED)
   else if negb (all_zero (bytes_at (data apdu) 0 otp_config_size)) then
     Some (otp_status
             (with_config_seq
                (fst (flash_write_data_to_file st f
                        (bytes_at (data apdu) 0 otp_config_size)))
                (u8 (config_seq st + 1))))
   else
     Some (otp_status
             (let st := delete_file st f in
              if (negb (file_has_data (search_dynamic_file st EF_OTP_SLOT1))
                  && negb (file_has_data (search_dynamic_file st EF_OTP_SLOT2)))%bool
              then with_config_seq st 0 else st))).
Proof.
  intros H2 H1 Hr0 Hr1. unfold cmd_otp.
  rewrite H2, Hr0, Hr1.
  replace ((P1 apdu =? 1) || (P1 apdu =? 3))%bool with true
    by (destruct H1 as [-> | ->]; reflexivity).
  unfold flash_write_data_to_file. cbv zeta.
  destruct (flash_write_outcome _ _ =? CCID_OK); reflexivity.
Qed.

(** C5 (as the code has it): a configure command with zero reserved
    bytes that targets a non-empty slot and carries an access code other
    than the stored one is answered with security-status-not-satisfied,
    and the state (stored bytes and revision counter with it) stays as
    it was. *)
Theorem wrong_access_code_rejected (st : state) (apdu : apdu_t)
    (bytes : list Z) (c : otp_config_t) :
  CLA apdu = 0x00 -> INS apdu = INS_OTP -> P2 apdu = 0x00 ->
  P1 apdu = 0x01 \/ P1 apdu = 0x03 ->
  data apdu off_rfu = 0 -> data apdu (S off_rfu) = 0 ->
  search_dynamic_file st (target_file (P1 apdu)) = Some bytes ->
  file_has_data (Some bytes) = true ->
  view_config bytes = Some c ->
  bytes_at (data apdu) otp_config_size ACC_CODE_SIZE <> acc_code c ->
  otp_process_apdu st apdu = Some (st, SW_SECURITY_STATUS_NOT_SATISFIED).
Proof.
  intros Hc Hi H2 H1 Hr0 Hr1 Hf Hd Hv Hne.
  rewrite process_apdu_is_cmd_otp, cmd_otp_configure by assumption.
  cbv zeta. unfold file_new, file_get_data. rewrite Hf, Hd, Hv.
  destruct (bytes_eqb (acc_code c) _) eqn:Heq; [|reflexivity].
  apply bytes_eqb_eq in Heq. congruence.
Qed.

(** C1 (as the code has it): the record is 52 bytes, and a configure
    command to an empty slot whose first 52 payload bytes are not all
    zero and have zero reserved bytes, and whose write to the flash
    takes effect, stores exactly those 52 bytes, so that a read of the
    slot returns them. *)
Theorem configure_empty_slot_read_back (st : state) (apdu : apdu_t) :
  CLA apdu = 0x00 -> INS apdu = INS_OTP -> P2 apdu = 0x00 ->
  P1 apdu = 0x01 \/ P1 apdu = 0x03 ->
  file_has_data (search_dynamic_file st (target_file (P1 apdu))) = false ->
  data apdu off_rfu = 0 -> data apdu (S off_rfu) = 0 ->
  all_zero (bytes_at (data apdu) 0 otp_config_size) = false ->
  flash_write_outcome (target_file (P1 apdu))
    (bytes_at (data apdu) 0 otp_config_size) = CCID_OK ->
  otp_config_size = 52%nat
  /\ exists st',
       otp_process_apdu st apdu = Some (st', SW_OK)
       /\ file_get_data (search_dynamic_file st' (target_file (P1 apdu))) =
            Some (bytes_at (data apdu) 0 52)
       /\ file_get_size (search_dynamic_file st' (target_file (P1 apdu))) = 52%nat.
Proof.
  intros Hc Hi H2 H1 He Hr0 Hr1 Hnz Hw.
  split; [reflexivity|].
  rewrite process_apdu_is_cmd_otp, cmd_otp_configure by assumption.
  cbv zeta. unfold file_new. rewrite He, Hnz. simpl negb. cbv iota.
  rewrite (flash_write_stored _ _ _ Hw).
  eexists. split; [reflexivity|].
  destruct (target_file (P1 apdu)); split; reflexivity.
Qed.

(** ** The revision counter *)

Lemma otp_select_config_seq (st : state) (aid : list Z) :
  config_seq (fst (otp_select st aid)) =
  if snd (otp_select st aid) then
    if (file_has_data (search_dynamic_file st EF_OTP_SLOT1)
        || file_has_data (search_dynamic_file st EF_OTP_SLOT2))%bool
    then 1 else 0
  else config_seq st.
Proof.
  unfold otp_select.
  destruct (bytes_eqb _ _); [|reflexivity].
  destruct (_ || _)%bool; reflexivity.
Qed.

(** C7 (as the code has it): activation sets the revision counter to 1
    if a slot holds data and to 0 otherwise; a configure command that
    writes a record adds exactly 1 to it, modulo 256; a configure
    command that deletes a slot sets it to 0 if both slots are empty
    afterwards and leaves it as it was otherwise; every other outcome of
    a command leaves it as it was. *)
Theorem config_seq_rules (st : state) (aid : list Z) (apdu : apdu_t)
    (st' : state) (out : sw) :
  otp_process_apdu st apdu = Some (st', out) ->
  config_seq (fst (otp_select st aid)) =
    (if snd (otp_select st aid) then
       if (file_has_data (search_dynamic_file st EF_OTP_SLOT1)
           || file_has_data (search_dynamic_file st EF_OTP_SLOT2))%bool
       then 1 else 0
     else config_seq st)
  /\ config_seq st' = seq_after st apdu out st'.
Proof.
  intros Hrun. split; [apply otp_select_config_seq|].
  unfold otp_process_apdu in Hrun.
  destruct (CLA apdu =? 0); cbn [negb] in Hrun;
    [|inversion Hrun; reflexivity].
  unfold cmds, dispatch, INS_OTP in Hrun.
  change (1 =? 0) with false in Hrun. cbv iota in Hrun.
  destruct (1 =? INS apdu); [|inversion Hrun; reflexivity].
  unfold cmd_otp in Hrun. unfold seq_after.
  set (payload := bytes_at (data apdu) 0 otp_config_size) in *.
  destruct (P2 apdu =? 0); cbn [negb] in Hrun;
    [|inversion Hrun; reflexivity].
  destruct ((P1 apdu =? 1) || (P1 apdu =? 3))%bool.
  - destruct (negb (data apdu off_rfu =? 0) || negb (data apdu (S off_rfu) =? 0))%bool;
      [inversion Hrun; reflexivity|].
    match type of Hrun with
    | (match ?d with Some _ => _ | None => _ end) = _ =>
        destruct d as [[|]|]
    end; [inversion Hrun; reflexivity| |discriminate].
    destruct (all_zero payload); cbn [negb] in Hrun;
      apply status_outcome in Hrun; destruct Hrun as [-> ->].
    + rewrite !otp_status_files, otp_status_config_seq.
      set (st0 := delete_file st _).
      set (both_empty :=
             (negb (file_has_data (search_dynamic_file st0 EF_OTP_SLOT1))
              && negb (file_has_data (search_dynamic_file st0 EF_OTP_SLOT2)))%bool).
      destruct both_empty eqn:Hb.
      * change (0 = if both_empty then 0 else config_seq st).
        now rewrite Hb.
      * fold both_empty. now rewrite Hb.
    + rewrite otp_status_config_seq. cbn [config_seq with_config_seq].
      now rewrite flash_write_config_seq.
  - destruct (P1 apdu =? 16); inversion Hrun; reflexivity.
Qed.

(** ** The button handler *)

Lemma flag_set_0 (mask : Z) : flag_set 0 mask = false.
Proof. unfold flag_set. now rewrite Z.land_0_l. Qed.

(** A slot whose stored bytes hold a record of zero bytes: the press
    does nothing. *)
Lemma press_on_zero_record (st : state) (slot g : Z) (bytes : list Z) :
  search_dynamic_file st (slot_file slot) = Some bytes ->
  (otp_config_size <= length bytes)%nat ->
  all_zero bytes = true ->
  otp_button_pressed st slot g = Some (st, 0).
Proof.
  intros Hf Hl Hz. unfold otp_button_pressed.
  unfold file_get_data. rewrite Hf.
  destruct (view_config_defined bytes Hl) as [c Hc]. rewrite Hc.
  assert (Ht : tkt_flags c = 0 /\ cfg_flags c = 0).
  { unfold view_config in Hc.
    destruct (length bytes <? otp_config_size)%nat; [discriminate|].
    inversion Hc; subst; cbn [tkt_flags cfg_flags].
    split; now apply all_zero_nth. }
  destruct Ht as [-> ->]. rewrite !flag_set_0. reflexivity.
Qed.

(** A slot without stored bytes: the handler reads the flags through
    the null pointer. *)
Lemma press_on_absent_slot (st : state) (slot g : Z) :
  search_dynamic_file st (slot_file slot) = None ->
  otp_button_pressed st slot g = None.
Proof.
  intros Hf. unfold otp_button_pressed.
  unfold file_get_data. now rewrite Hf.
Qed.

(** C6 (evaluation): a press on slot 1 or 2 of a token on which no slot
    was ever configured has no defined result; the handler does not
    look whether the slot is empty before it reads the record. *)
Theorem press_on_empty_token_undefined (slot g : Z) :
  file_has_data (search_dynamic_file empty_state (slot_file slot)) = false
  /\ otp_button_pressed empty_state slot g = None.
Proof.
  split.
  - unfold slot_file. destruct (slot =? 1); reflexivity.
  - apply press_on_absent_slot.
    unfold slot_file. destruct (slot =? 1); reflexivity.
Qed.

(** One press in HOTP mode: the call of the primitive, and the stored
    bytes afterwards. *)
Lemma press_hotp (st : state) (slot g : Z) (bytes : list Z)
    (c : otp_config_t) (imf : Z) :
  search_dynamic_file st (slot_file slot) = Some bytes ->
  view_config bytes = Some c ->
  flag_set (tkt_flags c) OATH_HOTP = true ->
  resolve_imf (Some bytes) bytes c = Some imf ->
  exists st',
    otp_button_pressed st slot g = Some (st', 0)
    /\ oath_calls st' = (1, tmp_key_of c g, chal_of_imf imf) :: oath_calls st
    /\ search_dynamic_file st' (slot_file slot) =
         (if ((fst (calculate_oath 1 (tmp_key_of c g) (chal_of_imf imf))
               =? CCID_OK)
              && (flash_write_outcome (slot_file slot)
                    (firstn otp_config_size bytes ++ chal_of_imf (u64 (imf + 1)))
                  =? CCID_OK))%bool
          then Some (firstn otp_config_size bytes ++ chal_of_imf (u64 (imf + 1)))
          else Some bytes)
    /\ search_dynamic_file st' (other_file (slot_file slot)) =
         search_dynamic_file st (other_file (slot_file slot)).
Proof.
  intros Hf Hv Hh Hi. unfold otp_button_pressed.
  unfold file_get_data. rewrite Hf, Hv, Hh, Hi.
  destruct (calculate_oath 1 (tmp_key_of c g) (chal_of_imf imf)) as [ret out].
  cbn [fst]. rewrite !flash_write_effect.
  destruct (flash_write_outcome (slot_file slot)
              (firstn otp_config_size bytes ++ chal_of_imf (u64 (imf + 1)))
            =? CCID_OK);
    destruct (ret =? CCID_OK);
    destruct (flag_set (cfg_flags c) OATH_HOTP8);
    destruct (flag_set (tkt_flags c) APPEND_CR);
    eexists; (split; [reflexivity|]); (split; [reflexivity|]);
    (split; [revert Hf|]); destruct (slot_file slot); cbn; auto.
Qed.

(** The key handed to the primitive: 0x01, the byte the stack holds,
    and the sixteen key bytes of the record. *)
Lemma hotp_key_input (c : otp_config_t) (g : Z) :
  length (aes_key c) = KEY_SIZE ->
  length (tmp_key_of c g) = 18%nat
  /\ nth 0 (tmp_key_of c g) 0 = 0x01
  /\ nth 1 (tmp_key_of c g) 0 = g
  /\ skipn 2 (tmp_key_of c g) = aes_key c.
Proof.
  intros Hk. unfold tmp_key_of. cbn [length nth skipn].
  rewrite Hk. repeat split.
Qed.

(** C4 (evaluation): on a press of slot 1 in HOTP mode with the byte
    0xAA on the stack under [tmp_key[1]], the key handed to the
    primitive is 0x01, 0xAA and the sixteen key bytes: its second byte
    is not 0x00. *)
Theorem hotp_key_second_byte_not_zeroed :
  exists st',
    otp_button_pressed (state_with_slot1 (sample_record 16 OATH_HOTP 0)) 1 0xAA
      = Some (st', 0)
    /\ map (fun call => snd (fst call)) (oath_calls st') =
       [ [0x01; 0xAA;
          0x41; 0x42; 0x43; 0x44; 0x45; 0x46; 0x47; 0x48;
          0x49; 0x4a; 0x4b; 0x4c; 0x4d; 0x4e; 0x4f; 0x50] ].
Proof.
  destruct (press_hotp (state_with_slot1 (sample_record 16 OATH_HOTP 0)) 1 0xAA
              (sample_record 16 OATH_HOTP 0)
              {| fixed_data := slice off_fixed_data FIXED_SIZE (sample_record 16 OATH_HOTP 0);
                 uid := slice off_uid UID_SIZE (sample_record 16 OATH_HOTP 0);
                 aes_key := slice off_aes_key KEY_SIZE (sample_record 16 OATH_HOTP 0);
                 acc_code := slice off_acc_code ACC_CODE_SIZE (sample_record 16 OATH_HOTP 0);
                 fixed_size := 16; ext_flags := 0; tkt_flags := OATH_HOTP;
                 cfg_flags := 0;
                 rfu := slice off_rfu 2 (sample_record 16 OATH_HOTP 0);
                 crc := 0 |}
              0x25260)
    as [st' [Hrun [Hcalls _]]]; try reflexivity.
  exists st'. split; [exact Hrun|].
  rewrite Hcalls. reflexivity.
Qed.

(** C9 (as the code has it): on a press of a slot that is not in HOTP
    mode and has the short-ticket bit set, with half the stored
    [fixed_size] within the sixteen bytes of [fixed_data], the bytes
    handed to the keystroke channel are the first floor(fixed_size / 2)
    bytes of [fixed_data], followed by the byte 0x28 when the CR-append
    bit of [tkt_flags] is set. *)
Theorem short_ticket_emission (st : state) (slot g : Z) (bytes : list Z)
    (c : otp_config_t) :
  search_dynamic_file st (slot_file slot) = Some bytes ->
  view_config bytes = Some c ->
  flag_set (tkt_flags c) OATH_HOTP = false ->
  flag_set (cfg_flags c) SHORT_TICKET = true ->
  fixed_size c / 2 <= Z.of_nat FIXED_SIZE ->
  exists st',
    otp_button_pressed st slot g = Some (st', 0)
    /\ keyboard_buffer st' =
         firstn (Z.to_nat (fixed_size c / 2)) (fixed_data c)
         ++ (if flag_set (tkt_flags c) APPEND_CR then [0x28] else []).
Proof.
  intros Hf Hv Hh Hs Hn. unfold otp_button_pressed.
  unfold file_get_data. rewrite Hf, Hv, Hh, Hs. cbn [orb].
  pose proof (view_config_length _ _ Hv) as Hl.
  assert (Hoff : (off_fixed_size < length bytes)%nat)
    by (change off_fixed_size with 44%nat;
        change otp_config_size with 52%nat in Hl; lia).
  rewrite nth_write_byte by assumption.
  set (n := Z.to_nat (fixed_size c / 2)).
  change (Z.of_nat FIXED_SIZE) with 16 in Hn.
  assert (Hn16 : (n <= 16)%nat) by (subst n; lia).
  unfold read_bytes. rewrite write_byte_length by assumption.
  destruct (Nat.leb_spec (off_fixed_data + n) (length bytes));
    [|change off_fixed_data with 0%nat in *;
      change otp_config_size with 52%nat in *; lia].
  assert (Hticket : slice off_fixed_data n
                      (write_byte bytes off_fixed_size (fixed_size c / 2))
                    = firstn n (fixed_data c)).
  { unfold slice, off_fixed_data. cbn [skipn].
    rewrite firstn_write_byte
      by (assumption || (change off_fixed_size with 44%nat; lia)).
    unfold view_config in Hv.
    destruct (length bytes <? otp_config_size)%nat; [discriminate|].
    inversion Hv; subst; cbn [fixed_data].
    unfold slice, off_fixed_data. cbn [skipn].
    rewrite firstn_firstn. f_equal.
    change FIXED_SIZE with 16%nat. lia. }
  rewrite Hticket.
  destruct (flag_set (tkt_flags c) APPEND_CR);
    eexists; (split; [reflexivity|]); cbn; try rewrite app_nil_r; reflexivity.
Qed.

(** C3 (evaluation): slot 1 in HOTP mode with the stored extension
    [00 00 00 00 80 00 00 00], which is 0x80000000 read as a
    big-endian integer.  The handler resolves 0xFFFFFFFF80000000, and
    the challenge it hands to the primitive is [FF FF FF FF 80 00 00 00]. *)
Theorem extension_bit31_sign_extended :
  let ext := [0; 0; 0; 0; 0x80; 0; 0; 0] in
  let bytes := sample_record 16 OATH_HOTP 0 ++ ext in
  be_decode ext = 0x80000000
  /\ (exists c, view_config bytes = Some c
                /\ resolve_imf (Some bytes) bytes c = Some 0xFFFFFFFF80000000)
  /\ (exists st',
        otp_button_pressed (state_with_slot1 bytes) 1 0 = Some (st', 0)
        /\ map (fun call => snd call) (oath_calls st') =
           [ [0xFF; 0xFF; 0xFF; 0xFF; 0x80; 0; 0; 0] ]).
Proof.
  cbv zeta. split; [reflexivity|].
  set (bytes := sample_record 16 OATH_HOTP 0 ++ [0; 0; 0; 0; 0x80; 0; 0; 0]).
  destruct (view_config_defined bytes) as [c Hc]; [vm_compute; lia|].
  assert (Hr : resolve_imf (Some bytes) bytes c = Some 0xFFFFFFFF80000000).
  { unfold view_config in Hc. cbn in Hc. inversion Hc; subst. reflexivity. }
  split; [exists c; split; assumption|].
  assert (Hh : flag_set (tkt_flags c) OATH_HOTP = true).
  { unfold view_config in Hc. cbn in Hc. inversion Hc; subst. reflexivity. }
  destruct (press_hotp (state_with_slot1 bytes) 1 0 bytes c _
              eq_refl Hc Hh Hr) as [st' [Hrun [Hcalls _]]].
  exists st'. split; [exact Hrun|]. rewrite Hcalls. reflexivity.
Qed.

(** ** Consecutive presses in HOTP mode *)

Lemma press_hotp_advances (st : state) (slot g : Z) (bytes : list Z)
    (c : otp_config_t) :
  search_dynamic_file st (slot_file slot) = Some bytes ->
  length bytes = otp_config_size \/ length bytes = (otp_config_size + 8)%nat ->
  Forall is_byte bytes ->
  view_config bytes = Some c ->
  flag_set (tkt_flags c) OATH_HOTP = true ->
  Z.testbit (moving_factor bytes) 31 = false ->
  moving_factor bytes + 1 < 2 ^ 64 ->
  fst (calculate_oath 1 (tmp_key_of c g) (chal_of_imf (moving_factor bytes)))
    = CCID_OK ->
  flash_write_outcome (slot_file slot)
    (firstn otp_config_size bytes ++ chal_of_imf (moving_factor bytes + 1))
    = CCID_OK ->
  exists st',
    otp_button_pressed st slot g = Some (st', 0)
    /\ search_dynamic_file st' (slot_file slot) =
         Some (firstn otp_config_size bytes
               ++ chal_of_imf (moving_factor bytes + 1))
    /\ oath_calls st' =
         (1, tmp_key_of c g, chal_of_imf (moving_factor bytes)) :: oath_calls st.
Proof.
  intros Hf Hlen Hb Hv Hh Ht Hmax Hok Hw.
  destruct (resolve_imf_moving_factor bytes c Hlen Hb Hv Ht) as [Hr Hpos].
  destruct (press_hotp st slot g bytes c _ Hf Hv Hh Hr)
    as [st' [Hrun [Hc [Hst _]]]].
  exists st'. split; [exact Hrun|]. split; [|exact Hc].
  rewrite u64_small in Hst by lia. rewrite Hok, Hw in Hst. exact Hst.
Qed.

(** On stored bytes of one of the two lengths of the design the handler
    resolves a moving factor. *)
Lemma resolve_imf_defined (bytes : list Z) (c : otp_config_t) :
  stored_length_ok (Some bytes) ->
  exists imf, resolve_imf (Some bytes) bytes c = Some imf.
Proof.
  intros Hlen. unfold resolve_imf, read_bytes. cbn [file_get_size].
  destruct Hlen as [Hlen|Hlen]; rewrite Hlen.
  - rewrite Nat.eqb_refl. eexists; reflexivity.
  - replace (otp_config_size + 8 =? otp_config_size)%nat with false
      by reflexivity.
    rewrite Nat.leb_refl. eexists; reflexivity.
Qed.

(** A press on which the primitive reports an error: the handler does
    not get to its write. *)
Lemma press_hotp_error (st : state) (slot g : Z) (bytes : list Z)
    (c : otp_config_t) (imf : Z) :
  search_dynamic_file st (slot_file slot) = Some bytes ->
  view_config bytes = Some c ->
  flag_set (tkt_flags c) OATH_HOTP = true ->
  resolve_imf (Some bytes) bytes c = Some imf ->
  fst (calculate_oath 1 (tmp_key_of c g) (chal_of_imf imf)) <> CCID_OK ->
  exists st',
    otp_button_pressed st slot g = Some (st', 0)
    /\ search_dynamic_file st' EF_OTP_SLOT1 = search_dynamic_file st EF_OTP_SLOT1
    /\ search_dynamic_file st' EF_OTP_SLOT2 = search_dynamic_file st EF_OTP_SLOT2.
Proof.
  intros Hf Hv Hh Hr Hne.
  destruct (press_hotp st slot g bytes c imf Hf Hv Hh Hr)
    as [st' [Hrun [_ [Hst Ho]]]].
  apply Z.eqb_neq in Hne. rewrite Hne in Hst. cbn [andb] in Hst.
  rewrite <- Hf in Hst.
  exists st'. split; [exact Hrun|].
  destruct (slot_file slot); split; assumption.
Qed.

(** C2 (as the code has it): on a slot in HOTP mode whose stored bytes
    have the length of the record or of the record with its extension,
    [N] presses one after the other, on each of which the OATH
    primitive reports success and the write to the flash takes effect,
    add exactly [N] to the moving factor, as long as bit 31 of the
    moving factor is clear at each press and the result stays below
    2^64; each press replaces the stored bytes by the record followed by
    the new eight-byte big-endian value.  A press on which the
    primitive reports an error returns and leaves the stored bytes of
    both slots as they were. *)
Theorem hotp_presses_add (stack : list Z) :
  forall (st : state) (slot : Z) (bytes : list Z) (c : otp_config_t),
  search_dynamic_file st (slot_file slot) = Some bytes ->
  length bytes = otp_config_size \/ length bytes = (otp_config_size + 8)%nat ->
  Forall is_byte bytes ->
  view_config bytes = Some c ->
  flag_set (tkt_flags c) OATH_HOTP = true ->
  ((forall k, 0 <= k < Z.of_nat (length stack) ->
              Z.testbit (moving_factor bytes + k) 31 = false) ->
   moving_factor bytes + Z.of_nat (length stack) < 2 ^ 64 ->
   (forall i, (i < length stack)%nat ->
      fst (calculate_oath 1 (tmp_key_of c (nth i stack 0))
             (chal_of_imf (moving_factor bytes + Z.of_nat i))) = CCID_OK
      /\ flash_write_outcome (slot_file slot)
           (firstn otp_config_size bytes
            ++ chal_of_imf (moving_factor bytes + Z.of_nat i + 1)) = CCID_OK) ->
   exists st' bytes',
     presses st slot stack = Some st'
     /\ search_dynamic_file st' (slot_file slot) = Some bytes'
     /\ firstn otp_config_size bytes' = firstn otp_config_size bytes
     /\ moving_factor bytes' = moving_factor bytes + Z.of_nat (length stack)
     /\ (stack <> [] ->
         bytes' = firstn otp_config_size bytes
                  ++ chal_of_imf (moving_factor bytes + Z.of_nat (length stack))))
  /\ (exists imf,
        resolve_imf (Some bytes) bytes c = Some imf
        /\ forall g,
             fst (calculate_oath 1 (tmp_key_of c g) (chal_of_imf imf)) <> CCID_OK ->
             exists st',
               otp_button_pressed st slot g = Some (st', 0)
               /\ search_dynamic_file st' EF_OTP_SLOT1 =
                    search_dynamic_file st EF_OTP_SLOT1
               /\ search_dynamic_file st' EF_OTP_SLOT2 =
                    search_dynamic_file st EF_OTP_SLOT2).
Proof.
  induction stack as [|g stack IH]; intros st slot bytes c Hf Hlen Hb Hv Hh;
    (split;
     [intros Hbits Hmax Hok
     |destruct (resolve_imf_defined bytes c Hlen) as [imf Hr];
      exists imf; split; [exact Hr|]; intros g0 Hne;
      exact (press_hotp_error st slot g0 bytes c imf Hf Hv Hh Hr Hne)]).
  - exists st, bytes. cbn [presses length Z.of_nat].
    repeat split; try assumption; try lia. congruence.
  - cbn [length] in Hbits, Hmax, Hok. rewrite Nat2Z.inj_succ in Hbits, Hmax.
    assert (Hl : (otp_config_size <= length bytes)%nat) by (destruct Hlen; lia).
    assert (Ht0 : Z.testbit (moving_factor bytes) 31 = false).
    { rewrite <- (Z.add_0_r (moving_factor bytes)). apply Hbits. lia. }
    destruct (resolve_imf_moving_factor bytes c Hlen Hb Hv Ht0) as [_ Hpos].
    destruct (Hok 0%nat (Nat.lt_0_succ _)) as [Hok0 Hw0].
    cbn [nth Z.of_nat] in Hok0, Hw0. rewrite Z.add_0_r in Hok0, Hw0.
    destruct (press_hotp_advances st slot g bytes c Hf Hlen Hb Hv Hh Ht0)
      as [st1 [Hrun1 [Hst1 _]]]; [lia|exact Hok0|exact Hw0|].
    set (bytes1 := firstn otp_config_size bytes
                   ++ chal_of_imf (moving_factor bytes + 1)) in *.
    assert (Hmf1 : moving_factor bytes1 = moving_factor bytes + 1)
      by (apply moving_factor_written; [assumption|lia]).
    assert (Hfst1 : firstn otp_config_size bytes1 = firstn otp_config_size bytes)
      by (apply firstn_written; assumption).
    destruct (IH st1 slot bytes1 c Hst1) as [IHadd _].
    + right. unfold bytes1.
      rewrite length_app, length_firstn, chal_of_imf_length. lia.
    + apply Forall_app. split;
        [now apply Forall_firstn_bytes|apply chal_of_imf_bytes].
    + unfold bytes1. rewrite view_config_prefix by assumption. exact Hv.
    + exact Hh.
    + destruct IHadd as [st' [bytes' [Hrun [Hst' [Hfst [Hmf Hnew]]]]]].
      * intros k Hk. rewrite Hmf1.
        replace (moving_factor bytes + 1 + k) with (moving_factor bytes + (k + 1))
          by ring.
        apply Hbits. lia.
      * rewrite Hmf1. lia.
      * intros i Hi. rewrite Hmf1, Hfst1.
        replace (moving_factor bytes + 1 + Z.of_nat i)
          with (moving_factor bytes + Z.of_nat (S i)) by lia.
        apply (Hok (S i)). lia.
      * exists st', bytes'. cbn [presses length]. rewrite Hrun1. cbn [fst].
        rewrite Nat2Z.inj_succ.
        split; [exact Hrun|]. split; [exact Hst'|].
        split; [congruence|]. split; [rewrite Hmf, Hmf1; lia|].
        intros _. destruct stack as [|g' stack'].
        -- cbn [presses] in Hrun. inversion Hrun; subst st'.
           rewrite Hst1 in Hst'. inversion Hst'; subst bytes'.
           reflexivity.
        -- rewrite Hnew by discriminate. rewrite Hfst1, Hmf1.
           f_equal. f_equal. lia.
Qed.

(** The seed, as the handler resolves it on a slot without extension. *)
Lemma resolve_imf_seeded (bytes : list Z) (c : otp_config_t) :
  length bytes = otp_config_size ->
  Forall is_byte bytes ->
  view_config bytes = Some c ->
  resolve_imf (Some bytes) bytes c =
  Some (Z.shiftl (Z.lor (Z.shiftl (nth 4 (uid c) 0) 8) (nth 5 (uid c) 0)) 4).
Proof.
  intros Hlen Hb Hv. unfold resolve_imf. cbn [file_get_size].
  rewrite Hlen, Nat.eqb_refl.
  assert (H4 : is_byte (nth 4 (uid c) 0)).
  { rewrite (uid_bytes_of_view bytes c 4 Hv) by (vm_compute; lia).
    apply nth_is_byte; [assumption|rewrite Hlen; vm_compute; lia]. }
  assert (H5 : is_byte (nth 5 (uid c) 0)).
  { rewrite (uid_bytes_of_view bytes c 5 Hv) by (vm_compute; lia).
    apply nth_is_byte; [assumption|rewrite Hlen; vm_compute; lia]. }
  destruct (imf_of_uid_value c H4 H5) as [-> _]. reflexivity.
Qed.

(** On stored bytes of one of the two lengths of the design the press
    in HOTP mode always returns. *)
Lemma press_hotp_defined (st : state) (slot g : Z) (bytes : list Z)
    (c : otp_config_t) :
  search_dynamic_file st (slot_file slot) = Some bytes ->
  stored_length_ok (Some bytes) ->
  view_config bytes = Some c ->
  flag_set (tkt_flags c) OATH_HOTP = true ->
  exists st', otp_button_pressed st slot g = Some (st', 0).
Proof.
  intros Hf Hlen Hv Hh.
  destruct (resolve_imf_defined bytes c Hlen) as [imf Hr].
  destruct (press_hotp st slot g bytes c imf Hf Hv Hh Hr) as [st' [Hrun _]].
  exists st'. exact Hrun.
Qed.

(** The press of a short-ticket slot halves the [fixed_size] held in the
    stored bytes. *)
Lemma short_ticket_press_stored_size (st : state) (slot g : Z)
    (bytes : list Z) (c : otp_config_t) (st' : state) (r : Z) :
  search_dynamic_file st (slot_file slot) = Some bytes ->
  view_config bytes = Some c ->
  flag_set (tkt_flags c) OATH_HOTP = false ->
  flag_set (cfg_flags c) SHORT_TICKET = true ->
  otp_button_pressed st slot g = Some (st', r) ->
  search_dynamic_file st' (slot_file slot) =
  Some (write_byte bytes off_fixed_size (fixed_size c / 2)).
Proof.
  intros Hf Hv Hh Hs. unfold otp_button_pressed.
  unfold file_get_data. rewrite Hf, Hv, Hh, Hs. cbn [orb].
  destruct (read_bytes _ _ _); [|discriminate].
  destruct (flag_set (tkt_flags c) APPEND_CR);
    intros H; inversion H; subst; clear H;
    destruct (slot_file slot); reflexivity.
Qed.

(** ** Lengths of the stored bytes *)

Lemma with_file_slots_ok (st : state) (f : file_id) (v : option (list Z)) :
  slots_ok st -> stored_length_ok v -> slots_ok (with_file st f v).
Proof.
  intros [H1 H2] Hv. destruct f; split; assumption.
Qed.

Lemma flash_write_slots_ok (st : state) (f : file_id) (bs : list Z) :
  slots_ok st -> stored_length_ok (Some bs) ->
  slots_ok (fst (flash_write_data_to_file st f bs)).
Proof.
  intros Hok Hv. rewrite flash_write_effect.
  destruct (flash_write_outcome f bs =? CCID_OK);
    [now apply with_file_slots_ok|exact Hok].
Qed.

Lemma with_config_seq_slots_ok (st : state) (v : Z) :
  slots_ok st -> slots_ok (with_config_seq st v).
Proof. intros H. exact H. Qed.

Lemma otp_status_slots_ok (st : state) :
  slots_ok st -> slots_ok (fst (otp_status st)).
Proof. intros H. exact H. Qed.

(** The commands keep the stored bytes at the two lengths of the
    design. *)
Lemma process_apdu_slots_ok (st : state) (apdu : apdu_t) (st' : state)
    (out : sw) :
  slots_ok st -> otp_process_apdu st apdu = Some (st', out) -> slots_ok st'.
Proof.
  intros Hok Hrun. unfold otp_process_apdu in Hrun.
  destruct (CLA apdu =? 0); cbn [negb] in Hrun;
    [|inversion Hrun; subst; assumption].
  unfold cmds, dispatch, INS_OTP in Hrun.
  change (1 =? 0) with false in Hrun. cbv iota in Hrun.
  destruct (1 =? INS apdu); [|inversion Hrun; subst; assumption].
  unfold cmd_otp in Hrun.
  destruct (P2 apdu =? 0); cbn [negb] in Hrun;
    [|inversion Hrun; subst; assumption].
  destruct ((P1 apdu =? 1) || (P1 apdu =? 3))%bool.
  - destruct (negb (data apdu off_rfu =? 0) || negb (data apdu (S off_rfu) =? 0))%bool;
      [inversion Hrun; subst; assumption|].
    match type of Hrun with
    | (match ?d with Some _ => _ | None => _ end) = _ =>
        destruct d as [[|]|]
    end; [inversion Hrun; subst; assumption| |discriminate].
    destruct (all_zero (bytes_at (data apdu) 0 otp_config_size));
      cbn [negb] in Hrun;
      apply status_outcome in Hrun; destruct Hrun as [-> _];
      apply otp_status_slots_ok.
    + destruct (_ && _)%bool; apply with_file_slots_ok; try assumption; exact I.
    + apply with_config_seq_slots_ok, flash_write_slots_ok; [assumption|].
      left. apply bytes_at_length.
  - destruct (P1 apdu =? 16); inversion Hrun; subst; assumption.
Qed.

Lemma with_res_slots_ok (st : state) (b : buffer) (n : nat) :
  slots_ok st -> slots_ok (with_res st b n).
Proof. intros H. exact H. Qed.

Lemma log_oath_call_slots_ok (st : state) (call : Z * list Z * list Z) :
  slots_ok st -> slots_ok (log_oath_call st call).
Proof. intros H. exact H. Qed.

Lemma add_keyboard_buffer_slots_ok (st : state) (bs : list Z) (enc : bool) :
  slots_ok st -> slots_ok (add_keyboard_buffer st bs enc).
Proof. intros H. exact H. Qed.

Lemma append_keyboard_buffer_slots_ok (st : state) (bs : list Z) :
  slots_ok st -> slots_ok (append_keyboard_buffer st bs).
Proof. intros H. exact H. Qed.

Lemma some_pair_fst {A B : Type} (a a' : A) (b b' : B) :
  Some (a, b) = Some (a', b') -> a = a'.
Proof. intros H. now inversion H. Qed.

Ltac frame_slots :=
  repeat first
    [ assumption
    | apply append_keyboard_buffer_slots_ok
    | apply add_keyboard_buffer_slots_ok
    | apply with_res_slots_ok
    | apply log_oath_call_slots_ok
    | apply flash_write_slots_ok
    | apply with_file_slots_ok ].

(** So does the button. *)
Lemma button_slots_ok (st : state) (slot g : Z) (st' : state) (r : Z) :
  slots_ok st -> otp_button_pressed st slot g = Some (st', r) -> slots_ok st'.
Proof.
  intros Hok Hrun. unfold otp_button_pressed in Hrun.
  unfold file_get_data in Hrun.
  destruct (search_dynamic_file st (slot_file slot)) as [bytes|] eqn:Hf;
    [|discriminate].
  destruct (view_config bytes) as [c|] eqn:Hv; [|discriminate].
  pose proof (view_config_length _ _ Hv) as Hl.
  assert (Hlen : stored_length_ok (Some bytes)).
  { clear Hrun. destruct Hok as [H1 H2]. rewrite <- Hf.
    destruct (slot_file slot); assumption. }
  destruct (flag_set (tkt_flags c) OATH_HOTP).
  - destruct (resolve_imf (Some bytes) bytes c) as [imf|]; [|discriminate].
    destruct (calculate_oath 1 (tmp_key_of c g) (chal_of_imf imf)) as [ret out].
    assert (Hnew : stored_length_ok
                     (Some (firstn otp_config_size bytes
                            ++ chal_of_imf (u64 (imf + 1))))).
    { clear Hrun. right.
      rewrite length_app, length_firstn, chal_of_imf_length. lia. }
    apply some_pair_fst in Hrun; subst st'.
    destruct (ret =? CCID_OK);
      destruct (flag_set (cfg_flags c) OATH_HOTP8);
      destruct (flag_set (tkt_flags c) APPEND_CR);
      frame_slots.
  - destruct (flag_set (cfg_flags c) SHORT_TICKET) eqn:Hs; cbn [orb] in Hrun.
    + destruct (read_bytes _ _ _); [|discriminate].
      assert (Hnew : stored_length_ok
                       (Some (write_byte bytes off_fixed_size (fixed_size c / 2)))).
      { clear Hrun.
        cbn [stored_length_ok]. rewrite write_byte_length; [exact Hlen|].
        change off_fixed_size with 44%nat.
        change otp_config_size with 52%nat in Hl. lia. }
      apply some_pair_fst in Hrun; subst st'.
      destruct (flag_set (tkt_flags c) APPEND_CR); frame_slots.
    + destruct (flag_set (cfg_flags c) STATIC_TICKET).
      * destruct (read_bytes _ _ _); [|discriminate].
        apply some_pair_fst in Hrun; subst st'.
        destruct (flag_set (tkt_flags c) APPEND_CR); frame_slots.
      * apply some_pair_fst in Hrun; subst st'. assumption.
Qed.

End Properties.

(** ** The theorems on concrete slots and commands *)

Lemma unknown_selector_accepted_witness :
  @otp_process_apdu steady_oath empty_state (configure 0x02 []) =
  Some (empty_state, SW_OK).
Proof.
  apply (@unknown_selector_accepted steady_oath empty_state (configure 0x02 []));
    simpl; try reflexivity; lia.
Defined.

Lemma configure_empty_slot_read_back_witness :
  otp_config_size = 52%nat
  /\ exists st',
       @otp_process_apdu steady_oath empty_state
         (configure 0x01 (sample_record 16 0 STATIC_TICKET)) = Some (st', SW_OK)
       /\ file_get_data (search_dynamic_file st' (target_file 0x01)) =
            Some (bytes_at (buffer_of (sample_record 16 0 STATIC_TICKET)) 0 52)
       /\ file_get_size (search_dynamic_file st' (target_file 0x01)) = 52%nat.
Proof.
  apply (@configure_empty_slot_read_back steady_oath empty_state
           (configure 0x01 (sample_record 16 0 STATIC_TICKET)));
    try reflexivity.
  left; reflexivity.
Defined.

Lemma wrong_access_code_rejected_witness :
  @otp_process_apdu steady_oath
    (state_with_slot1 (sample_record 16 0 STATIC_TICKET))
    (configure 0x01 (sample_record 8 0 STATIC_TICKET ++ [9; 9; 9; 9; 9; 9])) =
  Some (state_with_slot1 (sample_record 16 0 STATIC_TICKET),
        SW_SECURITY_STATUS_NOT_SATISFIED).
Proof.
  apply (@wrong_access_code_rejected steady_oath
           (state_with_slot1 (sample_record 16 0 STATIC_TICKET))
           (configure 0x01 (sample_record 8 0 STATIC_TICKET ++ [9; 9; 9; 9; 9; 9]))
           (sample_record 16 0 STATIC_TICKET)
           {| fixed_data := slice off_fixed_data FIXED_SIZE (sample_record 16 0 STATIC_TICKET);
              uid := slice off_uid UID_SIZE (sample_record 16 0 STATIC_TICKET);
              aes_key := slice off_aes_key KEY_SIZE (sample_record 16 0 STATIC_TICKET);
              acc_code := [0x61; 0x62; 0x63; 0x64; 0x65; 0x66];
              fixed_size := 16; ext_flags := 0; tkt_flags := 0;
              cfg_flags := STATIC_TICKET;
              rfu := [0; 0]; crc := 0 |});
    try reflexivity.
  - left; reflexivity.
  - vm_compute. discriminate.
Defined.

Lemma config_seq_rules_witness :
  exists st',
    @otp_process_apdu steady_oath empty_state
      (configure 0x01 (sample_record 16 0 STATIC_TICKET)) = Some (st', SW_OK)
    /\ config_seq st' = 1.
Proof.
  eexists. split; [reflexivity|].
  apply (@config_seq_rules steady_oath empty_state []
           (configure 0x01 (sample_record 16 0 STATIC_TICKET)) _ SW_OK).
  reflexivity.
Defined.

Lemma short_ticket_emission_witness :
  exists st',
    @otp_button_pressed steady_oath
      (state_with_slot1 (sample_record 16 0 SHORT_TICKET)) 1 0 = Some (st', 0)
    /\ keyboard_buffer st' = [1; 2; 3; 4; 5; 6; 7; 8].
Proof.
  apply (@short_ticket_emission steady_oath
           (state_with_slot1 (sample_record 16 0 SHORT_TICKET)) 1 0
           (sample_record 16 0 SHORT_TICKET)
           {| fixed_data := [1; 2; 3; 4; 5; 6; 7; 8; 9; 10; 11; 12; 13; 14; 15; 16];
              uid := slice off_uid UID_SIZE (sample_record 16 0 SHORT_TICKET);
              aes_key := slice off_aes_key KEY_SIZE (sample_record 16 0 SHORT_TICKET);
              acc_code := slice off_acc_code ACC_CODE_SIZE (sample_record 16 0 SHORT_TICKET);
              fixed_size := 16; ext_flags := 0; tkt_flags := 0;
              cfg_flags := SHORT_TICKET;
              rfu := [0; 0]; crc := 0 |});
    try reflexivity.
  vm_compute. discriminate.
Defined.

Lemma hotp_presses_add_witness :
  let bytes := sample_record 16 OATH_HOTP 0 ++ [0; 0; 0; 0; 0; 0; 0; 5] in
  (exists st' bytes',
     @presses steady_oath (state_with_slot1 bytes) 1 [0; 0; 0] = Some st'
     /\ search_dynamic_file st' (slot_file 1) = Some bytes'
     /\ firstn otp_config_size bytes' = firstn otp_config_size bytes
     /\ moving_factor bytes' = moving_factor bytes + 3
     /\ ([0; 0; 0] <> [] ->
         bytes' = firstn otp_config_size bytes
                  ++ chal_of_imf (moving_factor bytes + 3)))
  /\ (exists st',
        @otp_button_pressed failing_oath (state_with_slot1 bytes) 1 0 =
          Some (st', 0)
        /\ search_dynamic_file st' EF_OTP_SLOT1 = Some bytes
        /\ search_dynamic_file st' EF_OTP_SLOT2 = None).
Proof.
  cbv zeta.
  assert (Hb : Forall is_byte
                 (sample_record 16 OATH_HOTP 0 ++ [0; 0; 0; 0; 0; 0; 0; 5])).
  { cbv [sample_record app OATH_HOTP].
    repeat (apply Forall_cons; [unfold is_byte; lia|]). apply Forall_nil. }
  split.
  - refine (proj1 (@hotp_presses_add steady_oath [0; 0; 0]
                     (state_with_slot1
                        (sample_record 16 OATH_HOTP 0 ++ [0; 0; 0; 0; 0; 0; 0; 5]))
                     1
                     (sample_record 16 OATH_HOTP 0 ++ [0; 0; 0; 0; 0; 0; 0; 5])
                     (view_of
                        (sample_record 16 OATH_HOTP 0 ++ [0; 0; 0; 0; 0; 0; 0; 5]))
                     _ _ Hb _ _) _ _ _);
      try reflexivity.
    + right; reflexivity.
    + intros k Hk.
      assert (Hcases : k = 0 \/ k = 1 \/ k = 2) by (simpl in Hk; lia).
      destruct Hcases as [-> | [-> | ->]]; reflexivity.
    + intros i Hi. split; reflexivity.
  - destruct (proj2 (@hotp_presses_add failing_oath []
                       (state_with_slot1
                          (sample_record 16 OATH_HOTP 0 ++ [0; 0; 0; 0; 0; 0; 0; 5]))
                       1
                       (sample_record 16 OATH_HOTP 0 ++ [0; 0; 0; 0; 0; 0; 0; 5])
                       (view_of
                          (sample_record 16 OATH_HOTP 0 ++ [0; 0; 0; 0; 0; 0; 0; 5]))
                       eq_refl (or_intror eq_refl) Hb eq_refl eq_refl))
      as [imf [_ Hpress]].
    apply (Hpress 0). cbn [calculate_oath failing_oath fst].
    unfold CCID_OK. lia.
Defined.

(** ** Inputs on which the design is not met *)

(** C1: the record has 52 bytes, not 46; a configure command with a
    non-zero payload of 46 bytes to an empty slot stores 52 bytes, so
    that the read does not return the payload; and a non-zero record
    with a non-zero reserved byte is not stored at all. *)
Lemma record_is_not_46_bytes :
  otp_config_size <> 46%nat
  /\ (let P := repeat 1 46 in
      length P = 46%nat /\ all_zero P = false
      /\ exists st',
           @otp_process_apdu steady_oath empty_state (configure 0x01 P) =
             Some (st', SW_OK)
           /\ file_get_size (search_dynamic_file st' EF_OTP_SLOT1) = 52%nat
           /\ file_get_data (search_dynamic_file st' EF_OTP_SLOT1) <> Some P)
  /\ (let P := firstn 48 (sample_record 16 0 STATIC_TICKET) ++ [0; 1; 0; 0] in
      length P = 52%nat /\ all_zero P = false
      /\ @otp_process_apdu steady_oath empty_state (configure 0x01 P) =
           Some (empty_state, SW_WRONG_DATA)
      /\ file_get_data (search_dynamic_file empty_state EF_OTP_SLOT1) = None).
Proof.
  split; [discriminate|]. cbv zeta. split.
  - split; [reflexivity|]. split; [reflexivity|].
    eexists. split; [reflexivity|]. split; [reflexivity|].
    vm_compute. discriminate.
  - repeat split.
Qed.

(** C2: a press at the stored moving factor 2^64 - 1 stores 0, a smaller
    value; and a press on which the OATH primitive reports an error
    leaves the stored moving factor as it was. *)
Lemma hotp_counter_wraps_or_stalls :
  (let bytes := sample_record 16 OATH_HOTP 0
                ++ [0xFF; 0xFF; 0xFF; 0xFF; 0xFF; 0xFF; 0xFF; 0xFF] in
   exists st' bytes',
     @presses steady_oath (state_with_slot1 bytes) 1 [0] = Some st'
     /\ search_dynamic_file st' EF_OTP_SLOT1 = Some bytes'
     /\ moving_factor bytes = 2 ^ 64 - 1
     /\ moving_factor bytes' = 0)
  /\ (let bytes := sample_record 16 OATH_HOTP 0 ++ [0; 0; 0; 0; 0; 0; 0; 5] in
      exists st',
        @presses failing_oath (state_with_slot1 bytes) 1 [0] = Some st'
        /\ search_dynamic_file st' EF_OTP_SLOT1 = Some bytes
        /\ moving_factor bytes = 5).
Proof.
  split; cbv zeta.
  - eexists. eexists. split; [reflexivity|]. split; [reflexivity|].
    split; reflexivity.
  - eexists. split; [reflexivity|]. split; reflexivity.
Qed.

(** C5: a configure command on a non-empty slot with an access code
    other than the stored one and a non-zero reserved byte is answered
    with wrong-data, not with security-status-not-satisfied. *)
Lemma reserved_bytes_checked_before_access_code :
  let stored := sample_record 16 0 STATIC_TICKET in
  let payload := firstn 48 stored ++ [1; 0] ++ [0; 0] ++ [9; 9; 9; 9; 9; 9] in
  file_has_data (search_dynamic_file (state_with_slot1 stored) EF_OTP_SLOT1) = true
  /\ slice off_acc_code ACC_CODE_SIZE stored <> slice otp_config_size ACC_CODE_SIZE payload
  /\ @otp_process_apdu steady_oath (state_with_slot1 stored) (configure 0x01 payload) =
       Some (state_with_slot1 stored, SW_WRONG_DATA).
Proof.
  cbv zeta. split; [reflexivity|]. split; [vm_compute; discriminate|].
  reflexivity.
Qed.

(** C7: with both slots configured and the revision counter at 1, the
    delete of slot 1 succeeds and leaves the counter at 1; the delete of
    slot 2 after it takes the counter down to 0; and a write at the
    counter value 255 takes it to 0. *)
Lemma delete_does_not_increment_config_seq :
  let r := sample_record 16 0 STATIC_TICKET in
  let code := [0x61; 0x62; 0x63; 0x64; 0x65; 0x66] in
  (exists st' st'',
     @otp_process_apdu steady_oath (state_with_both r r)
       (configure 0x01 (repeat 0 52 ++ code)) = Some (st', SW_OK)
     /\ search_dynamic_file st' EF_OTP_SLOT1 = None
     /\ config_seq (state_with_both r r) = 1
     /\ config_seq st' = 1
     /\ @otp_process_apdu steady_oath st'
          (configure 0x03 (repeat 0 52 ++ code)) = Some (st'', SW_OK)
     /\ search_dynamic_file st'' EF_OTP_SLOT2 = None
     /\ config_seq st'' = 0)
  /\ (exists st',
        @otp_process_apdu steady_oath (with_config_seq empty_state 255)
          (configure 0x01 r) = Some (st', SW_OK)
        /\ search_dynamic_file st' EF_OTP_SLOT1 = Some r
        /\ config_seq st' = 0).
Proof.
  cbv zeta. split.
  - eexists. eexists.
    split; [reflexivity|]. split; [reflexivity|]. split; [reflexivity|].
    split; [reflexivity|]. split; [reflexivity|]. split; reflexivity.
  - eexists. split; [reflexivity|]. split; reflexivity.
Qed.

(** C8: after a status report the response length is 0, so the response
    has no payload byte; and the first six bytes of the buffer are not
    the report, which starts one byte later. *)
Lemma status_report_not_in_payload :
  let st' := fst (@otp_status steady_oath empty_state) in
  res_APDU_size st' = 0%nat
  /\ bytes_at (res_APDU st') 0 (res_APDU_size st') = []
  /\ bytes_at (res_APDU st') 0 6 = [0; 5; 2; 0; 0; 12]
  /\ bytes_at (res_APDU st') 0 6 <> [5; 2; 0; 0; 12; 0].
Proof.
  cbv zeta. split; [reflexivity|]. split; [reflexivity|].
  split; [reflexivity|]. vm_compute. discriminate.
Qed.

(** C9: with the short-ticket bit and the CR-append bit set and
    [fixed_size] 16, the press hands nine bytes to the keystroke
    channel: the first eight bytes of [fixed_data] and the byte 0x28.
    With [fixed_size] 40 it hands over twenty bytes: the sixteen of
    [fixed_data] and the first four of [uid]. *)
Lemma short_ticket_with_cr_appends_terminator :
  (let bytes := sample_record 16 APPEND_CR SHORT_TICKET in
   exists st',
     @otp_button_pressed steady_oath (state_with_slot1 bytes) 1 0 = Some (st', 0)
     /\ keyboard_buffer st' = [1; 2; 3; 4; 5; 6; 7; 8; 0x28]
     /\ keyboard_buffer st' <> firstn 8 (slice off_fixed_data FIXED_SIZE bytes))
  /\ (let bytes := sample_record 40 0 SHORT_TICKET in
      exists st',
        @otp_button_pressed steady_oath (state_with_slot1 bytes) 1 0 = Some (st', 0)
        /\ keyboard_buffer st' =
             [1; 2; 3; 4; 5; 6; 7; 8; 9; 10; 11; 12; 13; 14; 15; 16;
              0x21; 0x22; 0x23; 0x24]
        /\ keyboard_buffer st' <> firstn 20 (slice off_fixed_data FIXED_SIZE bytes)).
Proof.
  cbv zeta. split.
  - eexists. split; [reflexivity|]. split; [reflexivity|].
    vm_compute. discriminate.
  - eexists. split; [reflexivity|]. split; [reflexivity|].
    vm_compute. discriminate.
Qed.

(** * The rest of the applet *)

Lemma other_file_neq (f : file_id) : other_file f <> f.
Proof. destruct f; discriminate. Qed.

Lemma with_file_other (st : state) (f : file_id) (v : option (list Z)) :
  search_dynamic_file (with_file st f v) (other_file f) =
  search_dynamic_file st (other_file f).
Proof. destruct f; reflexivity. Qed.

Lemma with_file_same (st : state) (f : file_id) (v : option (list Z)) :
  search_dynamic_file (with_file st f v) f = v.
Proof. destruct f; reflexivity. Qed.

Lemma file_cases (f g : file_id) : g = f \/ g = other_file f.
Proof. destruct f, g; auto. Qed.

Lemma bytes_at_store_bytes (m : buffer) (off : nat) (bs : list Z) :
  bytes_at (store_bytes m off bs) off (length bs) = bs.
Proof.
  unfold bytes_at.
  apply nth_ext with (d := store_bytes m off bs (off + 0)%nat) (d' := 0).
  - now rewrite length_map, length_seq.
  - intros i Hi. rewrite length_map, length_seq in Hi.
    rewrite (map_nth (fun i => store_bytes m off bs (off + i)%nat)).
    rewrite seq_nth by exact Hi. cbn [plus]. unfold store_bytes.
    destruct (Nat.leb_spec off (off + i)); [|lia].
    destruct (Nat.ltb_spec (off + i) (off + length bs)); [|lia].
    cbn [andb]. f_equal. lia.
Qed.

Lemma store_bytes_outside (m : buffer) (off : nat) (bs : list Z) (j : nat) :
  (j < off \/ off + length bs <= j)%nat -> store_bytes m off bs j = m j.
Proof.
  intros H. unfold store_bytes.
  destruct (Nat.leb_spec off j); destruct (Nat.ltb_spec j (off + length bs));
    cbn [andb]; try reflexivity; lia.
Qed.

Lemma int32_id (x : Z) : - 2 ^ 31 <= x < 2 ^ 31 -> int32 x = x.
Proof. intros H. unfold int32. rewrite Z.mod_small; lia. Qed.

Lemma int32_high (x : Z) : 2 ^ 31 <= x < 2 ^ 32 -> int32 x = x - 2 ^ 32.
Proof. intros H. unfold int32. Z.div_mod_to_equations. lia. Qed.

(** The number the handler takes from the response is the big-endian
    value of its bytes 2 to 5. *)
Lemma res_number_be (r : buffer) :
  is_byte (r 2%nat) -> is_byte (r 3%nat) -> is_byte (r 4%nat) ->
  is_byte (r 5%nat) ->
  res_number r = be_decode [r 2%nat; r 3%nat; r 4%nat; r 5%nat].
Proof.
  unfold res_number, be_decode, is_byte. cbn [fold_left].
  set (b2 := r 2%nat). set (b3 := r 3%nat).
  set (b4 := r 4%nat). set (b5 := r 5%nat).
  intros H2 H3 H4 H5.
  rewrite !Z.shiftl_mul_pow2 by lia.
  rewrite (int32_small (b3 * 2 ^ 16)), (int32_small (b4 * 2 ^ 8)) by lia.
  assert (Hs : exists s, (s = 0 \/ s = 1)
                         /\ int32 (b2 * 2 ^ 24) = (b2 - 256 * s) * 2 ^ 24
                         /\ - 128 <= b2 - 256 * s < 128).
  { destruct (Z.lt_ge_cases b2 128).
    - exists 0. rewrite int32_small by lia. split; [auto|]. split; lia.
    - exists 1. rewrite int32_high by lia. split; [auto|]. split; lia. }
  destruct Hs as [s [Hs [-> Hr]]].
  rewrite (lor_add_disjoint (b2 - 256 * s) (b3 * 2 ^ 16) 24) by lia.
  replace ((b2 - 256 * s) * 2 ^ 24 + b3 * 2 ^ 16)
    with (((b2 - 256 * s) * 2 ^ 8 + b3) * 2 ^ 16) by ring.
  rewrite lor_add_disjoint by lia.
  replace (((b2 - 256 * s) * 2 ^ 8 + b3) * 2 ^ 16 + b4 * 2 ^ 8)
    with ((((b2 - 256 * s) * 2 ^ 8 + b3) * 2 ^ 8 + b4) * 2 ^ 8) by ring.
  rewrite lor_add_disjoint by lia.
  rewrite int32_id by lia.
  unfold u32. symmetry.
  apply Z.mod_unique with (q := - s); lia.
Qed.

Lemma decimal_length (w : nat) (n : Z) : length (decimal w n) = w.
Proof.
  revert n. induction w as [|w IH]; intros n; cbn [decimal length].
  - reflexivity.
  - rewrite length_app, IH. cbn [length]. lia.
Qed.

Lemma decimal_digits (w : nat) (n : Z) :
  Forall (fun ch => 48 <= ch <= 57) (decimal w n).
Proof.
  revert n. induction w as [|w IH]; intros n; cbn [decimal].
  - constructor.
  - apply Forall_app. split; [apply IH|].
    constructor; [|constructor].
    pose proof (Z.mod_pos_bound n 10 ltac:(lia)). lia.
Qed.

Lemma undecimal_decimal (w : nat) (n : Z) :
  undecimal (decimal w n) = n mod 10 ^ Z.of_nat w.
Proof.
  revert n. induction w as [|w IH]; intros n.
  - cbn. now rewrite Z.mod_1_r.
  - cbn [decimal]. unfold undecimal in *.
    rewrite fold_left_app. cbn [fold_left]. rewrite IH.
    rewrite Nat2Z.inj_succ, Z.pow_succ_r by lia.
    rewrite Z.rem_mul_r by (try apply Z.pow_pos_nonneg; lia).
    lia.
Qed.

Lemma store_bytes_inside (m : buffer) (bs : list Z) (j : nat) :
  (j < length bs)%nat -> store_bytes m 0 bs j = nth j bs 0.
Proof.
  intros H. unfold store_bytes. cbn [Nat.leb plus andb].
  destruct (Nat.ltb_spec j (length bs)); [|lia].
  f_equal. lia.
Qed.

Lemma some_pair_inv {A B : Type} (a a' : A) (b b' : B) :
  Some (a, b) = Some (a', b') -> a = a' /\ b = b'.
Proof. intros H. now inversion H. Qed.

Section Coverage.

Context {E : Externals}.

(** ** Commands, case by case *)

Lemma configured_files (st : state) (apdu : apdu_t) (f : file_id) :
  search_dynamic_file (configured st apdu) f =
  if all_zero (bytes_at (data apdu) 0 otp_config_size) then
    search_dynamic_file (delete_file st (target_file (P1 apdu))) f
  else if flash_write_outcome (target_file (P1 apdu))
            (bytes_at (data apdu) 0 otp_config_size) =? CCID_OK then
    search_dynamic_file
      (with_file st (target_file (P1 apdu))
         (Some (bytes_at (data apdu) 0 otp_config_size))) f
  else search_dynamic_file st f.
Proof.
  unfold configured.
  destruct (all_zero _).
  - cbv zeta. destruct (_ && _)%bool; destruct f; reflexivity.
  - rewrite flash_write_effect.
    destruct (flash_write_outcome _ _ =? CCID_OK); destruct f; reflexivity.
Qed.

Lemma configured_frame (st : state) (apdu : apdu_t) :
  keyboard_buffer (configured st apdu) = keyboard_buffer st
  /\ keyboard_encode (configured st apdu) = keyboard_encode st
  /\ oath_calls (configured st apdu) = oath_calls st.
Proof.
  unfold configured. cbv zeta.
  destruct (all_zero _); [destruct (_ && _)%bool; repeat split|].
  rewrite flash_write_effect.
  destruct (flash_write_outcome _ _ =? CCID_OK); repeat split.
Qed.

Lemma configured_config_seq (st : state) (apdu : apdu_t) :
  config_seq (configured st apdu) =
  if all_zero (bytes_at (data apdu) 0 otp_config_size) then
    if (negb (file_has_data (search_dynamic_file (configured st apdu) EF_OTP_SLOT1))
        && negb (file_has_data
                   (search_dynamic_file (configured st apdu) EF_OTP_SLOT2)))%bool
    then 0 else config_seq st
  else u8 (config_seq st + 1).
Proof.
  unfold configured. cbv zeta.
  destruct (all_zero _); [|reflexivity].
  set (st0 := delete_file st (target_file (P1 apdu))).
  destruct (negb (file_has_data (search_dynamic_file st0 EF_OTP_SLOT1))
            && negb (file_has_data (search_dynamic_file st0 EF_OTP_SLOT2)))%bool
    eqn:Hb.
  - change (0 = if (negb (file_has_data (search_dynamic_file st0 EF_OTP_SLOT1))
                    && negb (file_has_data (search_dynamic_file st0 EF_OTP_SLOT2)))%bool
                then 0 else config_seq st).
    now rewrite Hb.
  - now rewrite Hb.
Qed.

Lemma process_apdu_inv (st : state) (apdu : apdu_t) (st' : state) (out : sw) :
  otp_process_apdu st apdu = Some (st', out) ->
  (out <> SW_OK /\ st' = st)
  \/ (out = SW_OK /\ CLA apdu = 0 /\ INS apdu = INS_OTP /\ P2 apdu = 0
      /\ ((P1 apdu <> 0x01 /\ P1 apdu <> 0x03 /\ P1 apdu <> 0x10 /\ st' = st)
          \/ (P1 apdu = 0x10
              /\ st' = with_res st
                         (store_bytes (res_APDU st) 0
                            (pico_get_unique_board_id_string 4)) 4)
          \/ ((P1 apdu = 0x01 \/ P1 apdu = 0x03)
              /\ data apdu off_rfu = 0 /\ data apdu (S off_rfu) = 0
              /\ access_granted st apdu
              /\ st' = fst (otp_status (configured st apdu))))).
Proof.
  intros Hrun. unfold otp_process_apdu in Hrun.
  destruct (Z.eqb_spec (CLA apdu) 0) as [Hc|Hc]; cbn [negb] in Hrun;
    [|left; inversion Hrun; split; [discriminate|reflexivity]].
  unfold cmds, dispatch, INS_OTP in Hrun.
  change (1 =? 0) with false in Hrun. cbv iota in Hrun.
  destruct (Z.eqb_spec 1 (INS apdu)) as [Hi|Hi];
    [|left; inversion Hrun; split; [discriminate|reflexivity]].
  unfold cmd_otp in Hrun.
  destruct (Z.eqb_spec (P2 apdu) 0) as [H2|H2]; cbn [negb] in Hrun;
    [|left; inversion Hrun; split; [discriminate|reflexivity]].
  destruct ((P1 apdu =? 1) || (P1 apdu =? 3))%bool eqn:Hp1.
  - assert (Hp : P1 apdu = 1 \/ P1 apdu = 3).
    { apply orb_true_iff in Hp1. destruct Hp1 as [H|H];
        apply Z.eqb_eq in H; auto. }
    destruct (Z.eqb_spec (data apdu off_rfu) 0) as [Hr0|Hr0]; cbn [negb orb] in Hrun;
      [|left; inversion Hrun; split; [discriminate|reflexivity]].
    destruct (Z.eqb_spec (data apdu (S off_rfu)) 0) as [Hr1|Hr1]; cbn [negb] in Hrun;
      [|left; inversion Hrun; split; [discriminate|reflexivity]].
    unfold file_new, file_get_data in Hrun.
    assert (Hg : forall b : bool,
               (if file_has_data (search_dynamic_file st (target_file (P1 apdu)))
                then
                  bytes <- search_dynamic_file st (target_file (P1 apdu)) ;;
                  otpc <- view_config bytes ;;
                  Some (negb (bytes_eqb (acc_code otpc)
                                (bytes_at (data apdu) otp_config_size ACC_CODE_SIZE)))
                else Some false) = Some b ->
               b = false -> access_granted st apdu).
    { intros b Hb ->. unfold access_granted. cbv zeta.
      destruct (file_has_data _); [|left; reflexivity].
      destruct (search_dynamic_file st (target_file (P1 apdu))) as [bytes|];
        [|discriminate].
      destruct (view_config bytes) as [c|] eqn:Hv; [|discriminate].
      right. exists bytes, c. repeat split; try assumption.
      inversion Hb as [Hn]. apply negb_false_iff in Hn.
      now apply bytes_eqb_eq in Hn. }
    match type of Hrun with
    | (match ?d with Some _ => _ | None => _ end) = _ =>
        destruct d as [[|]|] eqn:Hd
    end; [left; inversion Hrun; split; [discriminate|reflexivity]| |discriminate].
    specialize (Hg false eq_refl eq_refl).
    right. fold (configured st apdu) in Hrun.
    assert (Hst : st' = fst (otp_status (configured st apdu)) /\ out = SW_OK).
    { unfold configured. cbv zeta.
      destruct (all_zero (bytes_at (data apdu) 0 otp_config_size));
        cbn [negb] in Hrun; rewrite ?flash_write_config_seq in Hrun;
        apply status_outcome in Hrun; exact Hrun. }
    destruct Hst as [-> ->].
    repeat split; try assumption; try (symmetry; assumption).
    right. right. repeat split; assumption.
  - apply orb_false_iff in Hp1. destruct Hp1 as [Ha Hb].
    apply Z.eqb_neq in Ha, Hb.
    destruct (Z.eqb_spec (P1 apdu) 16) as [Hd|Hd];
      inversion Hrun; subst; right;
      (repeat split; try assumption; try (symmetry; assumption)).
    + right. left. split; [assumption|reflexivity].
    + left. repeat split; assumption.
Qed.

Lemma process_apdu_granted (st : state) (apdu : apdu_t) :
  CLA apdu = 0x00 -> INS apdu = INS_OTP -> P2 apdu = 0x00 ->
  P1 apdu = 0x01 \/ P1 apdu = 0x03 ->
  data apdu off_rfu = 0 -> data apdu (S off_rfu) = 0 ->
  access_granted st apdu ->
  otp_process_apdu st apdu =
  Some (fst (otp_status (configured st apdu)), SW_OK).
Proof.
  intros Hc Hi H2 H1 Hr0 Hr1 Hg.
  rewrite process_apdu_is_cmd_otp, cmd_otp_configure by assumption.
  cbv zeta. unfold file_new, file_get_data.
  assert (Hd : (if file_has_data (search_dynamic_file st (target_file (P1 apdu)))
                then
                  bytes <- search_dynamic_file st (target_file (P1 apdu)) ;;
                  otpc <- view_config bytes ;;
                  Some (negb (bytes_eqb (acc_code otpc)
                                (bytes_at (data apdu) otp_config_size ACC_CODE_SIZE)))
                else Some false) = Some false).
  { unfold access_granted in Hg. cbv zeta in Hg.
    destruct (file_has_data _) eqn:Hh; [|reflexivity].
    destruct Hg as [Hg|[bytes [c [Hf [Hv Ha]]]]]; [discriminate|].
    rewrite Hf, Hv. f_equal. apply negb_false_iff. now apply bytes_eqb_eq. }
  rewrite Hd. unfold configured. cbv zeta.
  destruct (all_zero (bytes_at (data apdu) 0 otp_config_size)); reflexivity.
Qed.

Lemma all_zero_bytes_at (m : buffer) (n i : nat) :
  all_zero (bytes_at m 0 n) = true -> (i < n)%nat -> m i = 0.
Proof.
  intros Hz Hi.
  pose proof (all_zero_nth _ i Hz) as Hn.
  unfold bytes_at in Hn.
  rewrite (nth_indep _ 0 ((fun j => m (0 + j)%nat) 0%nat)) in Hn
    by (rewrite length_map, length_seq; exact Hi).
  rewrite (map_nth (fun j => m (0 + j)%nat)), seq_nth in Hn by exact Hi.
  exact Hn.
Qed.

(** ** What commands do *)

(** X1: a command that is not answered with the success status leaves
    the whole state as it was. *)
Theorem rejected_command_changes_nothing (st : state) (apdu : apdu_t)
    (st' : state) (out : sw) :
  otp_process_apdu st apdu = Some (st', out) -> out <> SW_OK -> st' = st.
Proof.
  intros Hrun Hne.
  destruct (process_apdu_inv st apdu st' out Hrun) as [[_ H]|[H _]];
    [exact H|contradiction].
Qed.

(** X2: what is wrong with a command is looked at in a fixed order, and
    each rejection changes nothing: a class other than 0x00 gives
    class-not-supported; then an instruction other than OTP (0x01)
    gives instruction-not-supported, the table holding the one handler;
    then a P2 other than 0 gives incorrect-parameters, whatever P1; then
    a configure command with a non-zero reserved byte gives wrong-data,
    whatever the slot holds and whatever access code is supplied. *)
Theorem command_rejections (st : state) (apdu : apdu_t) :
  (CLA apdu <> 0x00 ->
   otp_process_apdu st apdu = Some (st, SW_CLA_NOT_SUPPORTED))
  /\ (CLA apdu = 0x00 -> INS apdu <> INS_OTP ->
      otp_process_apdu st apdu = Some (st, SW_INS_NOT_SUPPORTED))
  /\ (CLA apdu = 0x00 -> INS apdu = INS_OTP -> P2 apdu <> 0x00 ->
      otp_process_apdu st apdu = Some (st, SW_INCORRECT_P1P2))
  /\ (CLA apdu = 0x00 -> INS apdu = INS_OTP -> P2 apdu = 0x00 ->
      P1 apdu = 0x01 \/ P1 apdu = 0x03 ->
      data apdu off_rfu <> 0 \/ data apdu (S off_rfu) <> 0 ->
      otp_process_apdu st apdu = Some (st, SW_WRONG_DATA)).
Proof.
  split; [|split; [|split]].
  - intros Hc. unfold otp_process_apdu.
    destruct (Z.eqb_spec (CLA apdu) 0); [contradiction|reflexivity].
  - intros Hc Hi. unfold otp_process_apdu, cmds, dispatch.
    rewrite Hc. cbn [negb Z.eqb]. unfold INS_OTP in *.
    change (1 =? 0) with false. cbv iota.
    destruct (Z.eqb_spec 1 (INS apdu)); [congruence|reflexivity].
  - intros Hc Hi H2.
    rewrite process_apdu_is_cmd_otp by assumption. unfold cmd_otp.
    destruct (Z.eqb_spec (P2 apdu) 0); [contradiction|reflexivity].
  - intros Hc Hi H2 H1 Hr.
    rewrite process_apdu_is_cmd_otp by assumption. unfold cmd_otp.
    rewrite H2. cbn [Z.eqb negb].
    replace ((P1 apdu =? 1) || (P1 apdu =? 3))%bool with true
      by (destruct H1 as [-> | ->]; reflexivity).
    destruct (Z.eqb_spec (data apdu off_rfu) 0);
      destruct (Z.eqb_spec (data apdu (S off_rfu)) 0);
      try reflexivity.
    destruct Hr; contradiction.
Qed.

(** X3: a configure command whose first 52 payload bytes are all zero
    and whose access check passes deletes the target slot.  The other
    slot keeps its bytes, and the revision counter is 0 afterwards if
    the other slot is empty and as it was otherwise. *)
Theorem zero_payload_deletes_slot (st : state) (apdu : apdu_t) :
  CLA apdu = 0x00 -> INS apdu = INS_OTP -> P2 apdu = 0x00 ->
  P1 apdu = 0x01 \/ P1 apdu = 0x03 ->
  all_zero (bytes_at (data apdu) 0 otp_config_size) = true ->
  access_granted st apdu ->
  exists st',
    otp_process_apdu st apdu = Some (st', SW_OK)
    /\ search_dynamic_file st' (target_file (P1 apdu)) = None
    /\ search_dynamic_file st' (other_file (target_file (P1 apdu))) =
         search_dynamic_file st (other_file (target_file (P1 apdu)))
    /\ config_seq st' =
         (if file_has_data
               (search_dynamic_file st (other_file (target_file (P1 apdu))))
          then config_seq st else 0).
Proof.
  intros Hc Hi H2 H1 Hz Hg.
  assert (Hr0 : data apdu off_rfu = 0)
    by (apply (all_zero_bytes_at _ _ _ Hz); vm_compute; lia).
  assert (Hr1 : data apdu (S off_rfu) = 0)
    by (apply (all_zero_bytes_at _ _ _ Hz); vm_compute; lia).
  rewrite (process_apdu_granted st apdu) by assumption.
  eexists. split; [reflexivity|].
  rewrite !otp_status_files, otp_status_config_seq, !configured_files, Hz.
  unfold delete_file. rewrite with_file_same, with_file_other.
  split; [reflexivity|]. split; [reflexivity|].
  unfold configured. rewrite Hz. cbv zeta. unfold delete_file.
  destruct (target_file (P1 apdu)); cbn [search_dynamic_file with_file
    ef_otp_slot1 ef_otp_slot2 file_has_data other_file negb andb];
    destruct (file_has_data _); reflexivity.
Qed.

(** X4: a configure command with zero reserved bytes, a payload whose
    first 52 bytes are not all zero and a passed access check is
    answered with success.  When its write to the flash takes effect,
    the stored bytes of the target slot are those 52 bytes afterwards,
    also when the slot held a counter extension; when the write stores
    nothing, the slot holds what it held, and the command is answered
    with success all the same.  Either way the other slot keeps its
    bytes and the revision counter goes up by 1 modulo 256. *)
Theorem granted_configure_replaces_slot (st : state) (apdu : apdu_t) :
  CLA apdu = 0x00 -> INS apdu = INS_OTP -> P2 apdu = 0x00 ->
  P1 apdu = 0x01 \/ P1 apdu = 0x03 ->
  data apdu off_rfu = 0 -> data apdu (S off_rfu) = 0 ->
  all_zero (bytes_at (data apdu) 0 otp_config_size) = false ->
  access_granted st apdu ->
  exists st',
    otp_process_apdu st apdu = Some (st', SW_OK)
    /\ search_dynamic_file st' (target_file (P1 apdu)) =
         (if flash_write_outcome (target_file (P1 apdu))
               (bytes_at (data apdu) 0 otp_config_size) =? CCID_OK
          then Some (bytes_at (data apdu) 0 otp_config_size)
          else search_dynamic_file st (target_file (P1 apdu)))
    /\ length (bytes_at (data apdu) 0 otp_config_size) = otp_config_size
    /\ search_dynamic_file st' (other_file (target_file (P1 apdu))) =
         search_dynamic_file st (other_file (target_file (P1 apdu)))
    /\ config_seq st' = u8 (config_seq st + 1).
Proof.
  intros Hc Hi H2 H1 Hr0 Hr1 Hnz Hg.
  rewrite (process_apdu_granted st apdu) by assumption.
  eexists. split; [reflexivity|].
  rewrite !otp_status_files, otp_status_config_seq, !configured_files,
    configured_config_seq, Hnz.
  split; [|split; [apply bytes_at_length|split; [|reflexivity]]];
    destruct (flash_write_outcome _ _ =? CCID_OK);
    rewrite ?with_file_same, ?with_file_other; reflexivity.
Qed.

(** X5: a command never changes the bytes of a slot it does not
    target, the keystroke buffer, or the record of the calls of the
    OATH primitive. *)
Theorem command_touches_only_its_slot (st : state) (apdu : apdu_t)
    (st' : state) (out : sw) :
  otp_process_apdu st apdu = Some (st', out) ->
  (P1 apdu <> 0x01 ->
   search_dynamic_file st' EF_OTP_SLOT1 = search_dynamic_file st EF_OTP_SLOT1)
  /\ (P1 apdu <> 0x03 ->
      search_dynamic_file st' EF_OTP_SLOT2 = search_dynamic_file st EF_OTP_SLOT2)
  /\ keyboard_buffer st' = keyboard_buffer st
  /\ keyboard_encode st' = keyboard_encode st
  /\ oath_calls st' = oath_calls st.
Proof.
  intros Hrun.
  destruct (process_apdu_inv st apdu st' out Hrun)
    as [[_ ->]|[_ [_ [_ [_ [[_ [_ [_ ->]]]|[[_ ->]|[Hp [_ [_ [_ ->]]]]]]]]]]];
    try (repeat split; reflexivity).
  destruct (configured_frame st apdu) as [Hk1 [Hk2 Hk3]].
  split; [|split; [|repeat split; assumption]].
  - intros Hn. destruct Hp as [Hp|Hp]; [contradiction|].
    rewrite otp_status_files, configured_files.
    unfold target_file. rewrite Hp.
    destruct (all_zero _); [|destruct (_ =? CCID_OK)]; reflexivity.
  - intros Hn. destruct Hp as [Hp|Hp]; [|contradiction].
    rewrite otp_status_files, configured_files.
    unfold target_file. rewrite Hp.
    destruct (all_zero _); [|destruct (_ =? CCID_OK)]; reflexivity.
Qed.


(** X7: the status report a successful configure command returns
    describes the state the command leaves: it carries the new revision
    counter, and the presence bit of the target slot is clear after a
    delete, set after a write that took effect, and as it was before
    the command after a write that stored nothing. *)
Theorem configure_reports_new_state (st : state) (apdu : apdu_t)
    (st' : state) :
  otp_process_apdu st apdu = Some (st', SW_OK) ->
  P1 apdu = 0x01 \/ P1 apdu = 0x03 ->
  bytes_at (res_APDU st') 1 6 =
    [ u8 PICO_FIDO_VERSION_MAJOR; u8 PICO_FIDO_VERSION_MINOR; 0;
      config_seq st'; capability_flags st'; 0 ]
  /\ Z.land (capability_flags st') (valid_bit (target_file (P1 apdu))) =
       (if all_zero (bytes_at (data apdu) 0 otp_config_size) then 0
        else if flash_write_outcome (target_file (P1 apdu))
                  (bytes_at (data apdu) 0 otp_config_size) =? CCID_OK
        then valid_bit (target_file (P1 apdu))
        else Z.land (capability_flags st) (valid_bit (target_file (P1 apdu)))).
Proof.
  intros Hrun Hp.
  destruct (process_apdu_inv st apdu st' SW_OK Hrun)
    as [[Hne _]|[_ [_ [_ [_ [[Ha [Hb _]]|[[Hd _]|[_ [_ [_ [_ ->]]]]]]]]]]].
  - congruence.
  - destruct Hp; contradiction.
  - destruct Hp as [Hp|Hp]; rewrite Hp in Hd; discriminate.
  - split; [reflexivity|].
    change (capability_flags (fst (otp_status (configured st apdu))))
      with (capability_flags (configured st apdu)).
    rewrite !capability_flags_cases, !configured_files.
    unfold delete_file.
    destruct (all_zero (bytes_at (data apdu) 0 otp_config_size)) eqn:Hz.
    + destruct (target_file (P1 apdu));
        cbn [search_dynamic_file with_file ef_otp_slot1 ef_otp_slot2
             file_has_data valid_bit];
        destruct (file_has_data _); reflexivity.
    + assert (Hh : file_has_data (Some (bytes_at (data apdu) 0 otp_config_size))
                   = true) by (cbn [file_has_data]; now rewrite Hz).
      destruct (flash_write_outcome _ _ =? CCID_OK); [|reflexivity].
      destruct (target_file (P1 apdu));
        cbn [search_dynamic_file with_file ef_otp_slot1 ef_otp_slot2 valid_bit];
        rewrite Hh; clear Hh; destruct (file_has_data _); reflexivity.
Qed.

(** X8: the identifier query (P1 = 0x10) answers with the four bytes
    the platform writes as the whole response, and changes no slot and
    not the revision counter. *)
Theorem board_id_query (st : state) (apdu : apdu_t) :
  CLA apdu = 0x00 -> INS apdu = INS_OTP -> P2 apdu = 0x00 ->
  P1 apdu = 0x10 ->
  length (pico_get_unique_board_id_string 4) = 4%nat ->
  exists st',
    otp_process_apdu st apdu = Some (st', SW_OK)
    /\ bytes_at (res_APDU st') 0 (res_APDU_size st') =
         pico_get_unique_board_id_string 4
    /\ search_dynamic_file st' EF_OTP_SLOT1 = search_dynamic_file st EF_OTP_SLOT1
    /\ search_dynamic_file st' EF_OTP_SLOT2 = search_dynamic_file st EF_OTP_SLOT2
    /\ config_seq st' = config_seq st.
Proof.
  intros Hc Hi H2 H1 Hl.
  rewrite process_apdu_is_cmd_otp by assumption. unfold cmd_otp.
  rewrite H2, H1. cbn [Z.eqb negb orb].
  eexists. split; [reflexivity|].
  split; [|repeat split].
  cbn [res_APDU res_APDU_size with_res].
  pose proof (bytes_at_store_bytes (res_APDU st) 0
                (pico_get_unique_board_id_string 4)) as Hb.
  rewrite Hl in Hb. exact Hb.
Qed.

(** ** Selection *)

(** X9: the applet takes an AID exactly when the AID is a prefix of
    its own seven-byte AID or has the whole of it as a prefix; the
    empty AID is taken. *)
Theorem select_matches_prefix (st : state) (aid : list Z) :
  snd (otp_select st aid) = true <->
  (exists t, aid ++ t = tl otp_aid) \/ (exists t, aid = tl otp_aid ++ t).
Proof.
  unfold otp_select.
  change (Z.to_nat (hd 0 otp_aid)) with 7%nat.
  set (own := tl otp_aid).
  assert (Hown : length own = 7%nat) by reflexivity.
  set (n := Nat.min (length aid) 7).
  destruct (bytes_eqb (firstn n aid) (firstn n own)) eqn:Heq; cbn [snd].
  - apply bytes_eqb_eq in Heq. split; [intros _|reflexivity].
    destruct (Nat.le_gt_cases (length aid) 7) as [Hle|Hgt].
    + left. exists (skipn (length aid) own).
      replace n with (length aid) in Heq by (unfold n; lia).
      rewrite firstn_all in Heq. rewrite Heq at 1. apply firstn_skipn.
    + right. exists (skipn 7 aid).
      replace n with 7%nat in Heq by (unfold n; lia).
      rewrite <- Hown in Heq at 2. rewrite firstn_all in Heq.
      rewrite <- Heq. symmetry. apply firstn_skipn.
  - split; [discriminate|]. intros H. exfalso.
    assert (Hb : bytes_eqb (firstn n aid) (firstn n own) = true);
      [|congruence].
    apply bytes_eqb_eq.
    destruct H as [[t Ht]|[t Ht]].
    + assert (Hle : (length aid <= 7)%nat)
        by (rewrite <- Hown, <- Ht, length_app; lia).
      replace n with (length aid) by (unfold n; lia).
      rewrite firstn_all, <- Ht, firstn_app, firstn_all, Nat.sub_diag.
      cbn [firstn]. now rewrite app_nil_r.
    + assert (Hge : (7 <= length aid)%nat)
        by (rewrite Ht, length_app; lia).
      replace n with 7%nat by (unfold n; lia).
      rewrite Ht, <- Hown, firstn_app, firstn_all, Nat.sub_diag.
      cbn [firstn]. now rewrite app_nil_r.
Qed.

(** X10: a selection that takes the AID leaves both slots as they
    were, sets the revision counter to 0 exactly when both slots are
    empty, writes the status report for that counter, and announces a
    response of length 0. *)
Theorem select_activates (st : state) (aid : list Z) :
  snd (otp_select st aid) = true ->
  let st' := fst (otp_select st aid) in
  search_dynamic_file st' EF_OTP_SLOT1 = search_dynamic_file st EF_OTP_SLOT1
  /\ search_dynamic_file st' EF_OTP_SLOT2 = search_dynamic_file st EF_OTP_SLOT2
  /\ (config_seq st' = 0 <->
      file_has_data (search_dynamic_file st EF_OTP_SLOT1) = false
      /\ file_has_data (search_dynamic_file st EF_OTP_SLOT2) = false)
  /\ bytes_at (res_APDU st') 1 6 =
       [ u8 PICO_FIDO_VERSION_MAJOR; u8 PICO_FIDO_VERSION_MINOR; 0;
         config_seq st'; capability_flags st; 0 ]
  /\ apdu_ne st' = 0%nat.
Proof.
  unfold otp_select.
  destruct (bytes_eqb _ _); cbn [snd fst]; [intros _|discriminate].
  cbv zeta.
  set (occupied := (file_has_data (search_dynamic_file st EF_OTP_SLOT1)
                    || file_has_data (search_dynamic_file st EF_OTP_SLOT2))%bool).
  replace (if occupied then with_config_seq st 1 else with_config_seq st 0)
    with (with_config_seq st (if occupied then 1 else 0))
    by (destruct occupied; reflexivity).
  split; [reflexivity|]. split; [reflexivity|].
  split; [|split; reflexivity].
  change (config_seq _) with (if occupied then 1 else 0).
  unfold occupied.
  destruct (file_has_data (search_dynamic_file st EF_OTP_SLOT1));
    destruct (file_has_data (search_dynamic_file st EF_OTP_SLOT2));
    cbn [orb]; split; try discriminate; try (intros [? ?]; discriminate);
    auto.
Qed.

(** ** The button, mode by mode *)

Lemma press_hotp_effect (st : state) (slot g : Z) (bytes : list Z)
    (c : otp_config_t) (imf ret : Z) (out : list Z) :
  search_dynamic_file st (slot_file slot) = Some bytes ->
  view_config bytes = Some c ->
  flag_set (tkt_flags c) OATH_HOTP = true ->
  resolve_imf (Some bytes) bytes c = Some imf ->
  calculate_oath 1 (tmp_key_of c g) (chal_of_imf imf) = (ret, out) ->
  exists st',
    otp_button_pressed st slot g = Some (st', 0)
    /\ search_dynamic_file st' (other_file (slot_file slot)) =
         search_dynamic_file st (other_file (slot_file slot))
    /\ search_dynamic_file st' (slot_file slot) =
         (if ((ret =? CCID_OK)
              && (flash_write_outcome (slot_file slot)
                    (firstn otp_config_size bytes ++ chal_of_imf (u64 (imf + 1)))
                  =? CCID_OK))%bool
          then Some (firstn otp_config_size bytes ++ chal_of_imf (u64 (imf + 1)))
          else Some bytes)
    /\ config_seq st' = config_seq st
    /\ apdu_ne st' = apdu_ne st
    /\ oath_calls st' = (1, tmp_key_of c g, chal_of_imf imf) :: oath_calls st
    /\ res_APDU st' = store_bytes (res_APDU st) 0 out
    /\ res_APDU_size st' = length out
    /\ keyboard_buffer st' =
         (if ret =? CCID_OK then
            if flag_set (cfg_flags c) OATH_HOTP8
            then decimal 8 (res_number (store_bytes (res_APDU st) 0 out)
                            mod 100000000)
            else decimal 6 (res_number (store_bytes (res_APDU st) 0 out)
                            mod 1000000)
          else keyboard_buffer st)
         ++ (if flag_set (tkt_flags c) APPEND_CR then [13] else [])
    /\ keyboard_encode st' =
         (if ret =? CCID_OK then true else keyboard_encode st).
Proof.
  intros Hf Hv Hh Hi Hc. unfold otp_button_pressed, file_get_data.
  rewrite Hf, Hv, Hh, Hi, Hc. cbn [fst]. rewrite !flash_write_effect.
  destruct (flash_write_outcome (slot_file slot)
              (firstn otp_config_size bytes ++ chal_of_imf (u64 (imf + 1)))
            =? CCID_OK);
    destruct (ret =? CCID_OK);
    destruct (flag_set (cfg_flags c) OATH_HOTP8);
    destruct (flag_set (tkt_flags c) APPEND_CR);
    eexists; (split; [reflexivity|]);
    (split; [destruct (slot_file slot); reflexivity|]);
    (split; [revert Hf; destruct (slot_file slot); cbn; auto|]);
    unfold res_number;
    cbn [res_APDU res_APDU_size keyboard_buffer keyboard_encode config_seq
         apdu_ne oath_calls with_res log_oath_call add_keyboard_buffer
         append_keyboard_buffer with_keyboard with_file plus];
    repeat split; rewrite ?app_nil_r; reflexivity.
Qed.

Lemma read_bytes_front (bs : list Z) (n : nat) (t : list Z) :
  read_bytes bs off_fixed_data n = Some t ->
  t = firstn n bs /\ (n <= length bs)%nat.
Proof.
  unfold read_bytes, slice, off_fixed_data. cbn [plus skipn].
  destruct (Nat.leb_spec n (length bs)) as [Hle|Hgt]; [|discriminate].
  intros Hs. inversion Hs. split; [reflexivity|assumption].
Qed.

Lemma press_static_effect (st : state) (slot g : Z) (bytes : list Z)
    (c : otp_config_t) (st' : state) (r : Z) :
  search_dynamic_file st (slot_file slot) = Some bytes ->
  view_config bytes = Some c ->
  flag_set (tkt_flags c) OATH_HOTP = false ->
  (flag_set (cfg_flags c) SHORT_TICKET
   || flag_set (cfg_flags c) STATIC_TICKET)%bool = true ->
  otp_button_pressed st slot g = Some (st', r) ->
  exists bytes',
    bytes' = (if flag_set (cfg_flags c) SHORT_TICKET
              then write_byte bytes off_fixed_size (fixed_size c / 2)
              else bytes)
    /\ r = 0
    /\ search_dynamic_file st' (other_file (slot_file slot)) =
         search_dynamic_file st (other_file (slot_file slot))
    /\ search_dynamic_file st' (slot_file slot) = Some bytes'
    /\ config_seq st' = config_seq st
    /\ apdu_ne st' = apdu_ne st
    /\ oath_calls st' = oath_calls st
    /\ res_APDU st' = res_APDU st
    /\ res_APDU_size st' = res_APDU_size st
    /\ (Z.to_nat (nth off_fixed_size bytes' 0%Z) <= length bytes')%nat
    /\ keyboard_buffer st' =
         firstn (Z.to_nat (nth off_fixed_size bytes' 0)) bytes'
         ++ (if flag_set (tkt_flags c) APPEND_CR then [0x28] else [])
    /\ keyboard_encode st' = false.
Proof.
  intros Hf Hv Hh Hm. unfold otp_button_pressed, file_get_data.
  rewrite Hf, Hv, Hh, Hm. cbv zeta.
  set (bytes' := if flag_set (cfg_flags c) SHORT_TICKET
                 then write_byte bytes off_fixed_size (fixed_size c / 2)
                 else bytes).
  destruct (read_bytes bytes' off_fixed_data
              (Z.to_nat (nth off_fixed_size bytes' 0))) as [ticket|] eqn:Hr;
    [|discriminate].
  apply read_bytes_front in Hr. destruct Hr as [-> Hlen].
  intros H. apply some_pair_inv in H. destruct H as [<- <-].
  exists bytes'. split; [reflexivity|]. split; [reflexivity|].
  split.
  { destruct (flag_set (cfg_flags c) SHORT_TICKET);
      destruct (flag_set (tkt_flags c) APPEND_CR);
      destruct (slot_file slot); reflexivity. }
  split.
  { unfold bytes'. revert Hf.
    destruct (flag_set (cfg_flags c) SHORT_TICKET);
      destruct (flag_set (tkt_flags c) APPEND_CR);
      destruct (slot_file slot); cbn; auto. }
  destruct (flag_set (cfg_flags c) SHORT_TICKET);
    destruct (flag_set (tkt_flags c) APPEND_CR);
    repeat split; rewrite ?app_nil_r; try reflexivity; exact Hlen.
Qed.

Lemma flag_set_nonzero (x mask : Z) : flag_set x mask = true -> x <> 0.
Proof.
  unfold flag_set. intros H ->. rewrite Z.land_0_l in H. discriminate.
Qed.

Lemma nonzero_byte_has_data (bytes : list Z) (i : nat) :
  nth i bytes 0 <> 0 -> file_has_data (Some bytes) = true.
Proof.
  intros Hn. cbn [file_has_data].
  destruct (all_zero bytes) eqn:Hz; [|reflexivity].
  exfalso. apply Hn. now apply all_zero_nth.
Qed.

Lemma view_flags (bytes : list Z) (c : otp_config_t) :
  view_config bytes = Some c ->
  tkt_flags c = nth off_tkt_flags bytes 0
  /\ cfg_flags c = nth off_cfg_flags bytes 0
  /\ fixed_size c = nth off_fixed_size bytes 0
  /\ fixed_data c = firstn FIXED_SIZE bytes.
Proof.
  unfold view_config.
  destruct (length bytes <? otp_config_size)%nat; [discriminate|].
  intros H. inversion H. repeat split.
Qed.

Lemma nth_write_byte_other (bs : list Z) (i j : nat) (v : Z) :
  (i < length bs)%nat -> j <> i -> nth j (write_byte bs i v) 0 = nth j bs 0.
Proof.
  intros Hi Hj. unfold write_byte.
  destruct (Nat.lt_ge_cases j i) as [Hlt|Hge].
  - rewrite app_nth1 by (rewrite length_firstn; lia).
    apply nth_firstn_lt. exact Hlt.
  - rewrite app_nth2 by (rewrite length_firstn; lia).
    rewrite length_firstn, Nat.min_l by lia.
    destruct (j - i)%nat as [|k] eqn:Hk; [lia|].
    cbn [nth]. rewrite nth_skipn. f_equal. lia.
Qed.

(** A press that returns, mode by mode. *)
Lemma press_inv (st : state) (slot g : Z) (st' : state) (r : Z) :
  otp_button_pressed st slot g = Some (st', r) ->
  exists bytes c,
    search_dynamic_file st (slot_file slot) = Some bytes
    /\ view_config bytes = Some c
    /\ ((flag_set (tkt_flags c) OATH_HOTP = true
         /\ exists imf, resolve_imf (Some bytes) bytes c = Some imf)
        \/ (flag_set (tkt_flags c) OATH_HOTP = false
            /\ (flag_set (cfg_flags c) SHORT_TICKET
                || flag_set (cfg_flags c) STATIC_TICKET)%bool = true)
        \/ (flag_set (tkt_flags c) OATH_HOTP = false
            /\ (flag_set (cfg_flags c) SHORT_TICKET
                || flag_set (cfg_flags c) STATIC_TICKET)%bool = false
            /\ st' = st /\ r = 0)).
Proof.
  intros Hrun. unfold otp_button_pressed, file_get_data in Hrun.
  destruct (search_dynamic_file st (slot_file slot)) as [bytes|];
    [|discriminate].
  destruct (view_config bytes) as [c|] eqn:Hv; [|discriminate].
  exists bytes, c. split; [reflexivity|]. split; [exact Hv|].
  destruct (flag_set (tkt_flags c) OATH_HOTP).
  - left. split; [reflexivity|].
    destruct (resolve_imf (Some bytes) bytes c) as [imf|]; [|discriminate].
    exists imf. reflexivity.
  - right.
    destruct (flag_set (cfg_flags c) SHORT_TICKET
              || flag_set (cfg_flags c) STATIC_TICKET)%bool.
    + left. split; reflexivity.
    + right. apply some_pair_inv in Hrun. destruct Hrun as [<- <-].
      repeat split.
Qed.

Lemma press_frame (st : state) (slot g : Z) (st' : state) (r : Z) :
  otp_button_pressed st slot g = Some (st', r) ->
  r = 0
  /\ search_dynamic_file st' (other_file (slot_file slot)) =
       search_dynamic_file st (other_file (slot_file slot))
  /\ config_seq st' = config_seq st
  /\ apdu_ne st' = apdu_ne st.
Proof.
  intros Hrun.
  destruct (press_inv st slot g st' r Hrun)
    as [bytes [c [Hf [Hv [[Hh [imf Hi]]|[[Hh Hm]|[_ [_ [-> ->]]]]]]]]].
  - destruct (calculate_oath 1 (tmp_key_of c g) (chal_of_imf imf))
      as [ret out] eqn:Hc.
    destruct (press_hotp_effect st slot g bytes c imf ret out Hf Hv Hh Hi Hc)
      as [st1 [Hrun1 [Ho [_ [Hs [Hn _]]]]]].
    rewrite Hrun1 in Hrun. apply some_pair_inv in Hrun.
    destruct Hrun as [<- <-]. repeat split; assumption.
  - destruct (press_static_effect st slot g bytes c st' r Hf Hv Hh Hm Hrun)
      as [bytes' [_ [Hr [Ho [_ [Hs [Hn _]]]]]]].
    repeat split; assumption.
  - repeat split.
Qed.

Lemma press_occupancy (st : state) (slot g : Z) (st' : state) (r : Z)
    (f : file_id) :
  otp_button_pressed st slot g = Some (st', r) ->
  file_has_data (search_dynamic_file st' f) =
  file_has_data (search_dynamic_file st f).
Proof.
  intros Hrun.
  destruct (file_cases (slot_file slot) f) as [->| ->].
  2:{ destruct (press_frame st slot g st' r Hrun) as [_ [Ho _]].
      now rewrite Ho. }
  destruct (press_inv st slot g st' r Hrun)
    as [bytes [c [Hf [Hv [[Hh [imf Hi]]|[[Hh Hm]|[_ [_ [-> ->]]]]]]]]];
    [| |reflexivity].
  - destruct (view_flags bytes c Hv) as [Ht _].
    pose proof (flag_set_nonzero _ _ Hh) as Hnz. rewrite Ht in Hnz.
    destruct (calculate_oath 1 (tmp_key_of c g) (chal_of_imf imf))
      as [ret out] eqn:Hc.
    destruct (press_hotp_effect st slot g bytes c imf ret out Hf Hv Hh Hi Hc)
      as [st1 [Hrun1 [_ [Hs _]]]].
    rewrite Hrun1 in Hrun. apply some_pair_inv in Hrun.
    destruct Hrun as [<- _]. rewrite Hs, Hf.
    rewrite (nonzero_byte_has_data bytes off_tkt_flags Hnz).
    destruct (_ && _)%bool;
      [|apply (nonzero_byte_has_data bytes off_tkt_flags Hnz)].
    apply (nonzero_byte_has_data _ off_tkt_flags).
    pose proof (view_config_length _ _ Hv) as Hl.
    rewrite nth_app_prefix
      by (rewrite length_firstn; change off_tkt_flags with 46%nat;
          change otp_config_size with 52%nat in *; lia).
    rewrite nth_firstn_lt by (vm_compute; lia). exact Hnz.
  - destruct (press_static_effect st slot g bytes c st' r Hf Hv Hh Hm Hrun)
      as [bytes' [Hb [_ [_ [Hs _]]]]].
    rewrite Hs, Hf.
    destruct (view_flags bytes c Hv) as [_ [Hcf _]].
    assert (Hnz : nth off_cfg_flags bytes 0 <> 0).
    { rewrite <- Hcf. apply orb_true_iff in Hm.
      destruct Hm as [Hm|Hm]; exact (flag_set_nonzero _ _ Hm). }
    rewrite (nonzero_byte_has_data bytes off_cfg_flags Hnz).
    apply (nonzero_byte_has_data _ off_cfg_flags).
    subst bytes'. destruct (flag_set (cfg_flags c) SHORT_TICKET);
      [|exact Hnz].
    pose proof (view_config_length _ _ Hv) as Hl.
    rewrite nth_write_byte_other;
      [exact Hnz| |vm_compute; lia].
    change off_fixed_size with 44%nat.
    change otp_config_size with 52%nat in Hl. lia.
Qed.

Lemma press_without_mode_bits_aux (st : state) (slot g : Z)
    (bytes : list Z) (c : otp_config_t) :
  search_dynamic_file st (slot_file slot) = Some bytes ->
  view_config bytes = Some c ->
  flag_set (tkt_flags c) OATH_HOTP = false ->
  flag_set (cfg_flags c) SHORT_TICKET = false ->
  flag_set (cfg_flags c) STATIC_TICKET = false ->
  otp_button_pressed st slot g = Some (st, 0).
Proof.
  intros Hf Hv Hh Hs Ht. unfold otp_button_pressed, file_get_data.
  now rewrite Hf, Hv, Hh, Hs, Ht.
Qed.

(** ** What the button does *)

(** X11: a press that returns reports 0 and changes neither the bytes
    of the other slot nor the revision counter. *)
Theorem press_touches_only_its_slot (st : state) (slot g : Z)
    (st' : state) (r : Z) :
  otp_button_pressed st slot g = Some (st', r) ->
  r = 0
  /\ search_dynamic_file st' (other_file (slot_file slot)) =
       search_dynamic_file st (other_file (slot_file slot))
  /\ config_seq st' = config_seq st.
Proof.
  intros Hrun.
  destruct (press_frame st slot g st' r Hrun) as [Hr [Ho [Hs _]]].
  repeat split; assumption.
Qed.

(** X12: a press that returns does not change which slots hold data:
    the capability byte a status report would carry is the same before
    and after it. *)
Theorem press_keeps_capability_flags (st : state) (slot g : Z)
    (st' : state) (r : Z) :
  otp_button_pressed st slot g = Some (st', r) ->
  file_has_data (search_dynamic_file st' EF_OTP_SLOT1) =
    file_has_data (search_dynamic_file st EF_OTP_SLOT1)
  /\ file_has_data (search_dynamic_file st' EF_OTP_SLOT2) =
       file_has_data (search_dynamic_file st EF_OTP_SLOT2)
  /\ capability_flags st' = capability_flags st.
Proof.
  intros Hrun.
  pose proof (press_occupancy st slot g st' r EF_OTP_SLOT1 Hrun) as H1.
  pose proof (press_occupancy st slot g st' r EF_OTP_SLOT2 Hrun) as H2.
  split; [exact H1|]. split; [exact H2|].
  unfold capability_flags. now rewrite H1, H2.
Qed.

(** X13: on a slot that is not in HOTP mode and has the static-ticket
    bit but not the short-ticket bit, with [fixed_size] between 0 and
    16, the press hands the first [fixed_size] bytes of [fixed_data] to
    the keystroke channel, unencoded, followed by 0x28 when the
    CR-append bit is set, and leaves both slots as they were. *)
Theorem static_ticket_emission (st : state) (slot g : Z) (bytes : list Z)
    (c : otp_config_t) :
  search_dynamic_file st (slot_file slot) = Some bytes ->
  view_config bytes = Some c ->
  flag_set (tkt_flags c) OATH_HOTP = false ->
  flag_set (cfg_flags c) SHORT_TICKET = false ->
  flag_set (cfg_flags c) STATIC_TICKET = true ->
  fixed_size c <= Z.of_nat FIXED_SIZE ->
  exists st',
    otp_button_pressed st slot g = Some (st', 0)
    /\ keyboard_buffer st' =
         firstn (Z.to_nat (fixed_size c)) (fixed_data c)
         ++ (if flag_set (tkt_flags c) APPEND_CR then [0x28] else [])
    /\ keyboard_encode st' = false
    /\ search_dynamic_file st' EF_OTP_SLOT1 = search_dynamic_file st EF_OTP_SLOT1
    /\ search_dynamic_file st' EF_OTP_SLOT2 = search_dynamic_file st EF_OTP_SLOT2.
Proof.
  intros Hf Hv Hh Hs Ht Hn.
  destruct (view_flags bytes c Hv) as [_ [_ [Hfs Hfd]]].
  pose proof (view_config_length _ _ Hv) as Hl.
  change (Z.of_nat FIXED_SIZE) with 16 in Hn.
  assert (Hr : read_bytes bytes off_fixed_data (Z.to_nat (fixed_size c)) =
               Some (firstn (Z.to_nat (fixed_size c)) (fixed_data c))).
  { unfold read_bytes, slice, off_fixed_data. cbn [plus skipn].
    destruct (Nat.leb_spec (Z.to_nat (fixed_size c)) (length bytes));
      [|change otp_config_size with 52%nat in Hl; lia].
    rewrite Hfd, firstn_firstn. do 2 f_equal.
    change FIXED_SIZE with 16%nat. lia. }
  unfold otp_button_pressed, file_get_data.
  rewrite Hf, Hv, Hh, Hs, Ht. cbn [orb]. rewrite <- Hfs, Hr.
  destruct (flag_set (tkt_flags c) APPEND_CR);
    eexists; (split; [reflexivity|]);
    repeat split; cbn; rewrite ?app_nil_r; reflexivity.
Qed.

(** X14: a press on a short-ticket slot that returns writes the halved
    [fixed_size] into the stored record and leaves every other stored
    byte, and the length of the stored bytes, as they were. *)
Theorem short_ticket_press_rewrites_size (st : state) (slot g : Z)
    (bytes : list Z) (c : otp_config_t) (st' : state) (r : Z) :
  search_dynamic_file st (slot_file slot) = Some bytes ->
  view_config bytes = Some c ->
  flag_set (tkt_flags c) OATH_HOTP = false ->
  flag_set (cfg_flags c) SHORT_TICKET = true ->
  otp_button_pressed st slot g = Some (st', r) ->
  exists bytes',
    search_dynamic_file st' (slot_file slot) = Some bytes'
    /\ length bytes' = length bytes
    /\ nth off_fixed_size bytes' 0 = fixed_size c / 2
    /\ forall i, i <> off_fixed_size -> nth i bytes' 0 = nth i bytes 0.
Proof.
  intros Hf Hv Hh Hs Hrun.
  assert (Hm : (flag_set (cfg_flags c) SHORT_TICKET
                || flag_set (cfg_flags c) STATIC_TICKET)%bool = true)
    by (rewrite Hs; reflexivity).
  destruct (press_static_effect st slot g bytes c st' r Hf Hv Hh Hm Hrun)
    as [bytes' [Hb [_ [_ [Hst _]]]]].
  rewrite Hs in Hb. subst bytes'.
  pose proof (view_config_length _ _ Hv) as Hl.
  assert (Hoff : (off_fixed_size < length bytes)%nat)
    by (change off_fixed_size with 44%nat;
        change otp_config_size with 52%nat in Hl; lia).
  eexists. split; [exact Hst|].
  split; [now apply write_byte_length|].
  split; [now apply nth_write_byte|].
  intros i Hi. now apply nth_write_byte_other.
Qed.

(** X15: a press outside HOTP mode that returns never calls the OATH
    primitive and leaves the response buffer and its length as they
    were; when the record has neither the short-ticket nor the
    static-ticket bit either, it leaves the whole state as it was. *)
Theorem press_outside_hotp_never_calls_oath (st : state) (slot g : Z)
    (bytes : list Z) (c : otp_config_t) (st' : state) (r : Z) :
  search_dynamic_file st (slot_file slot) = Some bytes ->
  view_config bytes = Some c ->
  flag_set (tkt_flags c) OATH_HOTP = false ->
  otp_button_pressed st slot g = Some (st', r) ->
  oath_calls st' = oath_calls st
  /\ res_APDU st' = res_APDU st
  /\ res_APDU_size st' = res_APDU_size st
  /\ (flag_set (cfg_flags c) SHORT_TICKET = false ->
      flag_set (cfg_flags c) STATIC_TICKET = false -> st' = st).
Proof.
  intros Hf Hv Hh Hrun.
  destruct (flag_set (cfg_flags c) SHORT_TICKET
            || flag_set (cfg_flags c) STATIC_TICKET)%bool eqn:Hm.
  - destruct (press_static_effect st slot g bytes c st' r Hf Hv Hh Hm Hrun)
      as [bytes' [_ [_ [_ [_ [_ [_ [Hc [Hr [Hn _]]]]]]]]]].
    repeat split; try assumption.
    intros Hs Ht. rewrite Hs, Ht in Hm. discriminate.
  - apply orb_false_iff in Hm. destruct Hm as [Hs Ht].
    rewrite (press_without_mode_bits_aux st slot g bytes c Hf Hv Hh Hs Ht) in Hrun.
    apply some_pair_inv in Hrun. destruct Hrun as [<- _]. repeat split.
Qed.

(** X16: on a press in HOTP mode on which the primitive reports
    success and answers with at least six bytes, the keystroke channel
    receives, to be encoded, a code of eight decimal digits when the
    eight-digit bit of [cfg_flags] is set and of six otherwise, followed
    by a carriage return when the CR-append bit is set.  The digits
    read as a number are the big-endian number in bytes 2 to 5 of the
    answer modulo 10^8 or 10^6: a smaller number is padded with zeros
    on the left. *)
Theorem hotp_press_emits_code (st : state) (slot g : Z) (bytes : list Z)
    (c : otp_config_t) (imf : Z) (out : list Z) :
  search_dynamic_file st (slot_file slot) = Some bytes ->
  view_config bytes = Some c ->
  flag_set (tkt_flags c) OATH_HOTP = true ->
  resolve_imf (Some bytes) bytes c = Some imf ->
  calculate_oath 1 (tmp_key_of c g) (chal_of_imf imf) = (CCID_OK, out) ->
  (6 <= length out)%nat ->
  Forall is_byte out ->
  let digits := if flag_set (cfg_flags c) OATH_HOTP8 then 8%nat else 6%nat in
  exists st' code,
    otp_button_pressed st slot g = Some (st', 0)
    /\ keyboard_buffer st' =
         code ++ (if flag_set (tkt_flags c) APPEND_CR then [13] else [])
    /\ keyboard_encode st' = true
    /\ length code = digits
    /\ Forall (fun ch => 48 <= ch <= 57) code
    /\ undecimal code = be_decode (slice 2 4 out) mod 10 ^ Z.of_nat digits.
Proof.
  intros Hf Hv Hh Hi Hc Hl Hb digits.
  destruct (press_hotp_effect st slot g bytes c imf CCID_OK out Hf Hv Hh Hi Hc)
    as [st' [Hrun [_ [_ [_ [_ [_ [_ [_ [Hk He]]]]]]]]]].
  assert (Hn : res_number (store_bytes (res_APDU st) 0 out) =
               be_decode (slice 2 4 out)).
  { assert (Hs : slice 2 4 out =
                 [nth 2 out 0; nth 3 out 0; nth 4 out 0; nth 5 out 0]).
    { unfold slice.
      destruct out as [|o0 [|o1 [|o2 [|o3 [|o4 [|o5 rest]]]]]];
        cbn [length] in Hl; try lia. reflexivity. }
    rewrite Hs, res_number_be;
      rewrite ?store_bytes_inside by lia;
      try (apply nth_is_byte; [assumption|lia]).
    reflexivity. }
  exists st',
    (decimal digits (be_decode (slice 2 4 out) mod 10 ^ Z.of_nat digits)).
  split; [exact Hrun|]. split; [|split; [exact He|]].
  - rewrite Hk, Hn. f_equal. cbn [Z.eqb CCID_OK]. unfold digits.
    destruct (flag_set (cfg_flags c) OATH_HOTP8); reflexivity.
  - split; [apply decimal_length|]. split; [apply decimal_digits|].
    rewrite undecimal_decimal. apply Z.mod_mod.
    apply Z.pow_nonzero; lia.
Qed.

(** X17: on a press in HOTP mode on which the primitive reports an
    error, no code is emitted and nothing is stored: both slots keep
    their bytes, the moving factor is not advanced, and the keystroke
    buffer keeps what it held, with a carriage return added to it when
    the CR-append bit is set. *)
Theorem hotp_press_with_failed_primitive (st : state) (slot g : Z)
    (bytes : list Z) (c : otp_config_t) (imf ret : Z) (out : list Z) :
  search_dynamic_file st (slot_file slot) = Some bytes ->
  view_config bytes = Some c ->
  flag_set (tkt_flags c) OATH_HOTP = true ->
  resolve_imf (Some bytes) bytes c = Some imf ->
  calculate_oath 1 (tmp_key_of c g) (chal_of_imf imf) = (ret, out) ->
  ret <> CCID_OK ->
  exists st',
    otp_button_pressed st slot g = Some (st', 0)
    /\ search_dynamic_file st' EF_OTP_SLOT1 = search_dynamic_file st EF_OTP_SLOT1
    /\ search_dynamic_file st' EF_OTP_SLOT2 = search_dynamic_file st EF_OTP_SLOT2
    /\ keyboard_buffer st' =
         keyboard_buffer st
         ++ (if flag_set (tkt_flags c) APPEND_CR then [13] else [])
    /\ keyboard_encode st' = keyboard_encode st.
Proof.
  intros Hf Hv Hh Hi Hc Hne.
  destruct (press_hotp_effect st slot g bytes c imf ret out Hf Hv Hh Hi Hc)
    as [st' [Hrun [Ho [Hs [_ [_ [_ [_ [_ [Hk He]]]]]]]]]].
  assert (Hr : (ret =? CCID_OK) = false) by now apply Z.eqb_neq.
  rewrite Hr in Hs, Hk, He. cbn [andb] in Hs. rewrite <- Hf in Hs.
  exists st'. split; [exact Hrun|].
  split; [|split; [|split; assumption]].
  - destruct (slot_file slot); [exact Hs|exact Ho].
  - destruct (slot_file slot); [exact Ho|exact Hs].
Qed.

(** X18: the moving factor the handler serialises is the one it reads
    back from the extension, for every value below 2^64 whose bit 31 is
    clear. *)
Theorem stored_counter_round_trip (imf : Z) :
  0 <= imf < 2 ^ 64 ->
  Z.testbit imf 31 = false ->
  imf_of_ext (chal_of_imf imf) = imf.
Proof.
  intros Hr Hb.
  pose proof (be_decode_chal imf Hr) as Hd.
  pose proof (chal_of_imf_bytes imf) as Hbytes.
  unfold chal_of_imf in *.
  rewrite imf_of_ext_be; [exact Hd|exact Hbytes|].
  apply (be_decode_bit31 _ _ _ _ _ _ _ _ Hbytes).
  rewrite Hd. exact Hb.
Qed.

Lemma nth_bytes_at (m : buffer) (n i : nat) :
  (i < n)%nat -> nth i (bytes_at m 0 n) 0 = m i.
Proof.
  intros Hi. unfold bytes_at.
  rewrite (nth_indep _ 0 ((fun j => m (0 + j)%nat) 0%nat))
    by (rewrite length_map, length_seq; exact Hi).
  now rewrite (map_nth (fun j => m (0 + j)%nat)), seq_nth by exact Hi.
Qed.

Lemma seeded_moving_factor (bytes : list Z) :
  length bytes = otp_config_size -> Forall is_byte bytes ->
  moving_factor bytes =
    (nth (off_uid + 4) bytes 0 * 256 + nth (off_uid + 5) bytes 0) * 16
  /\ Z.testbit (moving_factor bytes) 31 = false.
Proof.
  intros Hl Hb. unfold moving_factor. rewrite Hl, Nat.eqb_refl.
  split; [reflexivity|].
  assert (H4 : is_byte (nth (off_uid + 4) bytes 0))
    by (apply nth_is_byte; [assumption|rewrite Hl; vm_compute; lia]).
  assert (H5 : is_byte (nth (off_uid + 5) bytes 0))
    by (apply nth_is_byte; [assumption|rewrite Hl; vm_compute; lia]).
  unfold is_byte in H4, H5.
  apply (testbit_above _ 20); lia.
Qed.

(** ** Commands and the button together *)

(** X19: after a successful configure command with a record in HOTP
    mode whose write to the flash took effect, the first press of that
    slot works from the seed in the two low [uid] bytes of the new
    record, whatever counter the slot had reached before: the challenge
    handed to the primitive is that seed, serialised. *)
Theorem reconfigured_hotp_slot_starts_from_seed (st : state)
    (apdu : apdu_t) (st1 : state) (g : Z) (c : otp_config_t) :
  otp_process_apdu st apdu = Some (st1, SW_OK) ->
  P1 apdu = 0x01 \/ P1 apdu = 0x03 ->
  flash_write_outcome (target_file (P1 apdu))
    (bytes_at (data apdu) 0 otp_config_size) = CCID_OK ->
  Forall is_byte (bytes_at (data apdu) 0 otp_config_size) ->
  view_config (bytes_at (data apdu) 0 otp_config_size) = Some c ->
  flag_set (tkt_flags c) OATH_HOTP = true ->
  exists st2,
    otp_button_pressed st1 (if P1 apdu =? 0x01 then 1 else 2) g = Some (st2, 0)
    /\ oath_calls st2 =
         (1, tmp_key_of c g,
          chal_of_imf ((data apdu 20%nat * 256 + data apdu 21%nat) * 16))
         :: oath_calls st.
Proof.
  intros Hrun Hp Hw Hb Hv Hh.
  set (payload := bytes_at (data apdu) 0 otp_config_size) in *.
  assert (Hlen : length payload = otp_config_size) by apply bytes_at_length.
  assert (Hnz : all_zero payload = false).
  { destruct (view_flags payload c Hv) as [Ht _].
    pose proof (flag_set_nonzero _ _ Hh) as Hn. rewrite Ht in Hn.
    pose proof (nonzero_byte_has_data payload off_tkt_flags Hn) as Hd.
    cbn [file_has_data] in Hd. now apply negb_true_iff in Hd. }
  assert (Hslot : slot_file (if P1 apdu =? 1 then 1 else 2) =
                  target_file (P1 apdu))
    by (destruct Hp as [-> | ->]; reflexivity).
  destruct (process_apdu_inv st apdu st1 SW_OK Hrun)
    as [[Hne _]|[_ [_ [_ [_ [[Ha [Hb3 _]]|[[Hd _]|[_ [_ [_ [_ Hst]]]]]]]]]]].
  - congruence.
  - destruct Hp; contradiction.
  - destruct Hp as [Hp|Hp]; rewrite Hp in Hd; discriminate.
  - assert (Hf : search_dynamic_file st1
                   (slot_file (if P1 apdu =? 1 then 1 else 2)) = Some payload).
    { rewrite Hslot, Hst, otp_status_files, configured_files.
      fold payload. rewrite Hnz, Hw. apply with_file_same. }
    assert (Hcalls : oath_calls st1 = oath_calls st).
    { rewrite Hst. apply (configured_frame st apdu). }
    destruct (seeded_moving_factor payload Hlen Hb) as [Hmf Hbit].
    destruct (resolve_imf_moving_factor payload c (or_introl Hlen) Hb Hv Hbit)
      as [Hr _].
    destruct (press_hotp st1 _ g payload c _ Hf Hv Hh Hr)
      as [st2 [Hrun2 [Hc2 _]]].
    exists st2. split; [exact Hrun2|].
    rewrite Hc2, Hcalls, Hmf. unfold payload.
    rewrite !nth_bytes_at by (vm_compute; lia). reflexivity.
Qed.

(** X20: [N] presses of a slot in HOTP mode, on each of which the OATH
    primitive reports success and the write to the flash takes effect,
    hand to the primitive the [N] consecutive values from the moving
    factor on, one per press, newest first in the record of calls: no
    value is used for two presses (as long as bit 31 of the moving
    factor is clear at each press and 2^64 is not reached). *)
Theorem hotp_presses_use_consecutive_counters (stack : list Z) :
  forall (st : state) (slot : Z) (bytes : list Z) (c : otp_config_t),
  search_dynamic_file st (slot_file slot) = Some bytes ->
  length bytes = otp_config_size \/ length bytes = (otp_config_size + 8)%nat ->
  Forall is_byte bytes ->
  view_config bytes = Some c ->
  flag_set (tkt_flags c) OATH_HOTP = true ->
  (forall k, 0 <= k < Z.of_nat (length stack) ->
             Z.testbit (moving_factor bytes + k) 31 = false) ->
  moving_factor bytes + Z.of_nat (length stack) < 2 ^ 64 ->
  (forall i, (i < length stack)%nat ->
     fst (calculate_oath 1 (tmp_key_of c (nth i stack 0))
            (chal_of_imf (moving_factor bytes + Z.of_nat i))) = CCID_OK
     /\ flash_write_outcome (slot_file slot)
          (firstn otp_config_size bytes
           ++ chal_of_imf (moving_factor bytes + Z.of_nat i + 1)) = CCID_OK) ->
  exists st',
    presses st slot stack = Some st'
    /\ map (fun call => be_decode (snd call)) (oath_calls st') =
         rev (map (fun k => moving_factor bytes + Z.of_nat k)
                (seq 0 (length stack)))
         ++ map (fun call => be_decode (snd call)) (oath_calls st).
Proof.
  induction stack as [|g stack IH];
    intros st slot bytes c Hf Hlen Hb Hv Hh Hbits Hmax Hok.
  - exists st. split; reflexivity.
  - cbn [length] in Hbits, Hmax, Hok. rewrite Nat2Z.inj_succ in Hbits, Hmax.
    assert (Hl : (otp_config_size <= length bytes)%nat) by (destruct Hlen; lia).
    assert (Ht0 : Z.testbit (moving_factor bytes) 31 = false).
    { rewrite <- (Z.add_0_r (moving_factor bytes)). apply Hbits. lia. }
    destruct (resolve_imf_moving_factor bytes c Hlen Hb Hv Ht0) as [_ Hpos].
    destruct (Hok 0%nat (Nat.lt_0_succ _)) as [Hok0 Hw0].
    cbn [nth Z.of_nat] in Hok0, Hw0. rewrite Z.add_0_r in Hok0, Hw0.
    destruct (press_hotp_advances st slot g bytes c Hf Hlen Hb Hv Hh Ht0)
      as [st1 [Hrun1 [Hst1 Hc1]]]; [lia|exact Hok0|exact Hw0|].
    set (bytes1 := firstn otp_config_size bytes
                   ++ chal_of_imf (moving_factor bytes + 1)) in *.
    assert (Hmf1 : moving_factor bytes1 = moving_factor bytes + 1)
      by (apply moving_factor_written; [assumption|lia]).
    assert (Hfst1 : firstn otp_config_size bytes1 = firstn otp_config_size bytes)
      by (apply firstn_written; assumption).
    destruct (IH st1 slot bytes1 c Hst1) as [st' [Hrun Hcalls]].
    + right. unfold bytes1.
      rewrite length_app, length_firstn, chal_of_imf_length. lia.
    + apply Forall_app. split;
        [now apply Forall_firstn_bytes|apply chal_of_imf_bytes].
    + unfold bytes1. rewrite view_config_prefix by assumption. exact Hv.
    + exact Hh.
    + intros k Hk. rewrite Hmf1.
      replace (moving_factor bytes + 1 + k) with (moving_factor bytes + (k + 1))
        by ring.
      apply Hbits. lia.
    + rewrite Hmf1. lia.
    + intros i Hi. rewrite Hmf1, Hfst1.
      replace (moving_factor bytes + 1 + Z.of_nat i)
        with (moving_factor bytes + Z.of_nat (S i)) by lia.
      apply (Hok (S i)). lia.
    + exists st'. cbn [presses]. rewrite Hrun1. cbn [fst].
      split; [exact Hrun|].
      rewrite Hcalls, Hc1, Hmf1. cbn [length seq map rev snd].
      rewrite be_decode_chal by lia.
      rewrite <- seq_shift, map_map, <- app_assoc. cbn [app].
      rewrite Z.add_0_r. f_equal. f_equal.
      apply map_ext. intros k. rewrite Nat2Z.inj_succ. lia.
Qed.

(** ** What the applet keeps over a run *)

Lemma select_inv (st : state) (aid : list Z) :
  applet_inv st -> applet_inv (fst (otp_select st aid)).
Proof.
  intros Hinv. unfold otp_select.
  destruct (bytes_eqb _ _); cbn [fst]; [|exact Hinv].
  destruct Hinv as [Hs [Hr He]]. cbv zeta.
  set (occupied := (file_has_data (search_dynamic_file st EF_OTP_SLOT1)
                    || file_has_data (search_dynamic_file st EF_OTP_SLOT2))%bool).
  replace (if occupied then with_config_seq st 1 else with_config_seq st 0)
    with (with_config_seq st (if occupied then 1 else 0))
    by (destruct occupied; reflexivity).
  split; [exact Hs|].
  change (0 <= (if occupied then 1 else 0) < 256
          /\ (file_has_data (search_dynamic_file st EF_OTP_SLOT1) = false ->
              file_has_data (search_dynamic_file st EF_OTP_SLOT2) = false ->
              (if occupied then 1 else 0) = 0)).
  split; [destruct occupied; lia|].
  intros H1 H2. unfold occupied. now rewrite H1, H2.
Qed.

Lemma select_bounded (st : state) (aid : list Z) :
  slots_ok st /\ 0 <= config_seq st < 256 ->
  slots_ok (fst (otp_select st aid))
  /\ 0 <= config_seq (fst (otp_select st aid)) < 256.
Proof.
  intros [Hs Hr]. rewrite otp_select_config_seq. split.
  - unfold otp_select.
    destruct (bytes_eqb _ _); cbn [fst]; [|exact Hs].
    cbv zeta. destruct (_ || _)%bool; exact Hs.
  - destruct (snd (otp_select st aid)); [destruct (_ || _)%bool; lia|exact Hr].
Qed.

Lemma command_bounded (st : state) (apdu : apdu_t) (st' : state) (out : sw) :
  slots_ok st /\ 0 <= config_seq st < 256 ->
  otp_process_apdu st apdu = Some (st', out) ->
  slots_ok st' /\ 0 <= config_seq st' < 256.
Proof.
  intros [Hs Hr] Hrun.
  split; [apply (process_apdu_slots_ok st apdu st' out Hs Hrun)|].
  destruct (process_apdu_inv st apdu st' out Hrun)
    as [[_ ->]|[_ [_ [_ [_ [[_ [_ [_ ->]]]|[[_ ->]|[Hp [_ [_ [_ ->]]]]]]]]]]];
    try exact Hr.
  rewrite otp_status_config_seq, configured_config_seq.
  destruct (all_zero _); [destruct (_ && _)%bool; [lia|exact Hr]|].
  unfold u8. apply Z.mod_pos_bound. reflexivity.
Qed.

Lemma button_bounded (st : state) (slot g : Z) (st' : state) (r : Z) :
  slots_ok st /\ 0 <= config_seq st < 256 ->
  otp_button_pressed st slot g = Some (st', r) ->
  slots_ok st' /\ 0 <= config_seq st' < 256.
Proof.
  intros [Hs Hr] Hrun.
  split; [apply (button_slots_ok st slot g st' r Hs Hrun)|].
  destruct (press_frame st slot g st' r Hrun) as [_ [_ [Hc _]]].
  rewrite Hc. exact Hr.
Qed.

Lemma command_inv (st : state) (apdu : apdu_t) (st' : state) (out : sw) :
  (forall f bs, flash_write_outcome f bs = CCID_OK) ->
  applet_inv st -> otp_process_apdu st apdu = Some (st', out) ->
  applet_inv st'.
Proof.
  intros Hw [Hs [Hr He]] Hrun.
  destruct (command_bounded st apdu st' out (conj Hs Hr) Hrun) as [Hs' Hr'].
  split; [exact Hs'|]. split; [exact Hr'|]. clear Hs' Hr'.
  destruct (process_apdu_inv st apdu st' out Hrun)
    as [[_ ->]|[_ [_ [_ [_ [[_ [_ [_ ->]]]|[[_ ->]|[Hp [_ [_ [_ ->]]]]]]]]]]];
    try assumption.
  rewrite !otp_status_files, otp_status_config_seq, configured_config_seq.
  destruct (all_zero (bytes_at (data apdu) 0 otp_config_size)) eqn:Hz.
  - intros H1 H2. now rewrite H1, H2.
  - rewrite !configured_files, Hz, Hw.
    change (CCID_OK =? CCID_OK) with true. cbv iota.
    assert (Hh : file_has_data (Some (bytes_at (data apdu) 0 otp_config_size))
                 = true) by (cbn [file_has_data]; now rewrite Hz).
    destruct (target_file (P1 apdu));
      cbn [search_dynamic_file with_file ef_otp_slot1 ef_otp_slot2];
      rewrite Hh; intros; discriminate.
Qed.

Lemma button_inv (st : state) (slot g : Z) (st' : state) (r : Z) :
  applet_inv st -> otp_button_pressed st slot g = Some (st', r) ->
  applet_inv st'.
Proof.
  intros [Hs [Hr He]] Hrun.
  split; [apply (button_slots_ok st slot g st' r Hs Hrun)|].
  destruct (press_frame st slot g st' r Hrun) as [_ [_ [Hc _]]].
  rewrite Hc.
  rewrite (press_occupancy st slot g st' r EF_OTP_SLOT1 Hrun).
  rewrite (press_occupancy st slot g st' r EF_OTP_SLOT2 Hrun).
  split; assumption.
Qed.

(** X21: over every run of selections, commands and button presses that
    returns, the applet keeps the stored bytes of each slot at the
    length of the record or of the record with its counter extension
    and the revision counter within a byte, whether the writes to the
    flash take effect or not.  On a platform on which every write takes
    effect it also keeps the revision counter at 0 while both slots are
    empty. *)
Theorem run_keeps_invariant (es : list event) :
  forall st st',
  run st es = Some st' ->
  (slots_ok st /\ 0 <= config_seq st < 256 ->
   slots_ok st' /\ 0 <= config_seq st' < 256)
  /\ ((forall f bs, flash_write_outcome f bs = CCID_OK) ->
      applet_inv st -> applet_inv st').
Proof.
  induction es as [|e es IH]; intros st st' Hrun.
  - cbn in Hrun. inversion Hrun; subst. split; auto.
  - cbn [run] in Hrun.
    destruct (step st e) as [st1|] eqn:Hstep; [|discriminate].
    destruct (IH st1 st' Hrun) as [IHb IHi].
    destruct e as [aid|apdu|slot g]; cbn [step] in Hstep.
    + inversion Hstep; subst. split.
      * intros Hb. apply IHb. now apply select_bounded.
      * intros Hw Hinv. apply (IHi Hw). now apply select_inv.
    + destruct (otp_process_apdu st apdu) as [[st2 out]|] eqn:Hp;
        [|discriminate].
      inversion Hstep; subst. split.
      * intros Hb. apply IHb. now apply (command_bounded st apdu st1 out).
      * intros Hw Hinv. apply (IHi Hw). now apply (command_inv st apdu st1 out).
    + destruct (otp_button_pressed st slot g) as [[st2 r]|] eqn:Hp;
        [|discriminate].
      inversion Hstep; subst. split.
      * intros Hb. apply IHb. now apply (button_bounded st slot g st1 r).
      * intros Hw Hinv. apply (IHi Hw). now apply (button_inv st slot g st1 r).
Qed.

End Coverage.

(** ** The properties above on concrete commands and slots *)

Lemma rejected_command_changes_nothing_witness :
  @otp_process_apdu steady_oath (state_with_slot1 (sample_record 16 0 STATIC_TICKET))
    (configure 0x01 (sample_record 8 0 STATIC_TICKET ++ [9; 9; 9; 9; 9; 9]))
  = Some (state_with_slot1 (sample_record 16 0 STATIC_TICKET),
          SW_SECURITY_STATUS_NOT_SATISFIED)
  /\ state_with_slot1 (sample_record 16 0 STATIC_TICKET) =
     state_with_slot1 (sample_record 16 0 STATIC_TICKET).
Proof.
  split; [reflexivity|].
  apply (@rejected_command_changes_nothing steady_oath
           (state_with_slot1 (sample_record 16 0 STATIC_TICKET))
           (configure 0x01 (sample_record 8 0 STATIC_TICKET ++ [9; 9; 9; 9; 9; 9]))
           (state_with_slot1 (sample_record 16 0 STATIC_TICKET))
           SW_SECURITY_STATUS_NOT_SATISFIED);
    [reflexivity|discriminate].
Defined.

Lemma command_rejections_witness :
  @otp_process_apdu steady_oath empty_state (command 0x80 0x01 0x01 0 []) =
    Some (empty_state, SW_CLA_NOT_SUPPORTED)
  /\ @otp_process_apdu steady_oath empty_state (command 0 0xa2 0x01 0 []) =
       Some (empty_state, SW_INS_NOT_SUPPORTED)
  /\ @otp_process_apdu steady_oath empty_state (command 0 0x01 0x10 1 []) =
       Some (empty_state, SW_INCORRECT_P1P2)
  /\ @otp_process_apdu steady_oath empty_state
       (command 0 0x01 0x03 0
          (firstn 48 (sample_record 16 0 STATIC_TICKET) ++ [0; 1; 0; 0])) =
       Some (empty_state, SW_WRONG_DATA).
Proof.
  split; [|split; [|split]].
  - apply (proj1 (@command_rejections steady_oath empty_state
                    (command 0x80 0x01 0x01 0 []))).
    simpl; lia.
  - apply (proj1 (proj2 (@command_rejections steady_oath empty_state
                           (command 0 0xa2 0x01 0 [])))).
    + reflexivity.
    + simpl; unfold INS_OTP; lia.
  - apply (proj1 (proj2 (proj2 (@command_rejections steady_oath empty_state
                                  (command 0 0x01 0x10 1 []))))).
    + reflexivity.
    + reflexivity.
    + simpl; lia.
  - apply (proj2 (proj2 (proj2 (@command_rejections steady_oath empty_state
             (command 0 0x01 0x03 0
                (firstn 48 (sample_record 16 0 STATIC_TICKET) ++ [0; 1; 0; 0])))))).
    + reflexivity.
    + reflexivity.
    + reflexivity.
    + right; reflexivity.
    + right. vm_compute. discriminate.
Defined.

Lemma zero_payload_deletes_slot_witness :
  let r := sample_record 16 0 STATIC_TICKET in
  exists st',
    @otp_process_apdu steady_oath (state_with_both r r)
      (configure 0x01 (repeat 0 52 ++ sample_code)) = Some (st', SW_OK)
    /\ search_dynamic_file st' EF_OTP_SLOT1 = None
    /\ search_dynamic_file st' EF_OTP_SLOT2 = Some r
    /\ config_seq st' = 1.
Proof.
  cbv zeta.
  apply (@zero_payload_deletes_slot steady_oath
           (state_with_both (sample_record 16 0 STATIC_TICKET)
              (sample_record 16 0 STATIC_TICKET))
           (configure 0x01 (repeat 0 52 ++ sample_code)));
    try reflexivity.
  - left; reflexivity.
  - right. exists (sample_record 16 0 STATIC_TICKET),
      (view_of (sample_record 16 0 STATIC_TICKET)).
    split; [reflexivity|]. split; reflexivity.
Defined.

Lemma granted_configure_replaces_slot_witness :
  let old := sample_record 16 OATH_HOTP 0 ++ [0; 0; 0; 0; 0; 0; 0; 9] in
  let new := sample_record 8 0 SHORT_TICKET in
  (exists st',
     @otp_process_apdu steady_oath (state_with_slot1 old)
       (configure 0x01 (new ++ sample_code)) = Some (st', SW_OK)
     /\ search_dynamic_file st' EF_OTP_SLOT1 = Some new
     /\ length new = 52%nat
     /\ search_dynamic_file st' EF_OTP_SLOT2 = None
     /\ config_seq st' = 1)
  /\ (exists st',
        @otp_process_apdu failing_flash (state_with_slot1 old)
          (configure 0x01 (new ++ sample_code)) = Some (st', SW_OK)
        /\ search_dynamic_file st' EF_OTP_SLOT1 = Some old
        /\ length new = 52%nat
        /\ search_dynamic_file st' EF_OTP_SLOT2 = None
        /\ config_seq st' = 1).
Proof.
  cbv zeta.
  assert (Hg : access_granted
                 (state_with_slot1
                    (sample_record 16 OATH_HOTP 0 ++ [0; 0; 0; 0; 0; 0; 0; 9]))
                 (configure 0x01 (sample_record 8 0 SHORT_TICKET ++ sample_code))).
  { right.
    exists (sample_record 16 OATH_HOTP 0 ++ [0; 0; 0; 0; 0; 0; 0; 9]),
      (view_of (sample_record 16 OATH_HOTP 0 ++ [0; 0; 0; 0; 0; 0; 0; 9])).
    split; [reflexivity|]. split; reflexivity. }
  split.
  - apply (@granted_configure_replaces_slot steady_oath
             (state_with_slot1
                (sample_record 16 OATH_HOTP 0 ++ [0; 0; 0; 0; 0; 0; 0; 9]))
             (configure 0x01 (sample_record 8 0 SHORT_TICKET ++ sample_code)));
      try reflexivity; [left; reflexivity|exact Hg].
  - apply (@granted_configure_replaces_slot failing_flash
             (state_with_slot1
                (sample_record 16 OATH_HOTP 0 ++ [0; 0; 0; 0; 0; 0; 0; 9]))
             (configure 0x01 (sample_record 8 0 SHORT_TICKET ++ sample_code)));
      try reflexivity; [left; reflexivity|exact Hg].
Defined.

Lemma command_touches_only_its_slot_witness :
  let r := sample_record 16 0 STATIC_TICKET in
  exists st',
    @otp_process_apdu steady_oath (state_with_both r r)
      (configure 0x01 (sample_record 8 0 SHORT_TICKET ++ sample_code)) =
      Some (st', SW_OK)
    /\ search_dynamic_file st' EF_OTP_SLOT2 = Some r
    /\ keyboard_buffer st' = []
    /\ oath_calls st' = [].
Proof.
  cbv zeta. eexists. split; [reflexivity|].
  destruct (@command_touches_only_its_slot steady_oath
              (state_with_both (sample_record 16 0 STATIC_TICKET)
                 (sample_record 16 0 STATIC_TICKET))
              (configure 0x01 (sample_record 8 0 SHORT_TICKET ++ sample_code))
              _ SW_OK eq_refl) as [_ [H2 [Hk [_ Hc]]]].
  split; [apply H2; simpl; lia|]. split; [exact Hk|exact Hc].
Defined.


Lemma configure_reports_new_state_witness :
  (exists st',
     @otp_process_apdu steady_oath empty_state
       (configure 0x01 (sample_record 16 0 STATIC_TICKET)) = Some (st', SW_OK)
     /\ bytes_at (res_APDU st') 1 6 = [5; 2; 0; 1; 13; 0]
     /\ Z.land (capability_flags st') CONFIG1_VALID = CONFIG1_VALID)
  /\ (exists st',
        @otp_process_apdu failing_flash empty_state
          (configure 0x01 (sample_record 16 0 STATIC_TICKET)) = Some (st', SW_OK)
        /\ bytes_at (res_APDU st') 1 6 = [5; 2; 0; 1; 12; 0]
        /\ Z.land (capability_flags st') CONFIG1_VALID = 0).
Proof.
  split.
  - eexists. split; [reflexivity|].
    apply (@configure_reports_new_state steady_oath empty_state
             (configure 0x01 (sample_record 16 0 STATIC_TICKET)));
      [reflexivity|left; reflexivity].
  - eexists. split; [reflexivity|].
    apply (@configure_reports_new_state failing_flash empty_state
             (configure 0x01 (sample_record 16 0 STATIC_TICKET)));
      [reflexivity|left; reflexivity].
Defined.

Lemma board_id_query_witness :
  exists st',
    @otp_process_apdu steady_oath
      (state_with_slot1 (sample_record 16 0 STATIC_TICKET))
      (command 0 0x01 0x10 0 []) = Some (st', SW_OK)
    /\ bytes_at (res_APDU st') 0 (res_APDU_size st') = [0x30; 0x30; 0x30; 0x30]
    /\ search_dynamic_file st' EF_OTP_SLOT1 = Some (sample_record 16 0 STATIC_TICKET)
    /\ search_dynamic_file st' EF_OTP_SLOT2 = None
    /\ config_seq st' = 0.
Proof.
  apply (@board_id_query steady_oath
           (state_with_slot1 (sample_record 16 0 STATIC_TICKET))
           (command 0 0x01 0x10 0 []));
    reflexivity.
Defined.

Lemma select_activates_witness :
  let st := state_with_slot1 (sample_record 16 0 STATIC_TICKET) in
  let st' := fst (@otp_select steady_oath st (tl otp_aid)) in
  search_dynamic_file st' EF_OTP_SLOT1 = Some (sample_record 16 0 STATIC_TICKET)
  /\ search_dynamic_file st' EF_OTP_SLOT2 = None
  /\ (config_seq st' = 0 <->
      file_has_data (search_dynamic_file st EF_OTP_SLOT1) = false
      /\ file_has_data (search_dynamic_file st EF_OTP_SLOT2) = false)
  /\ bytes_at (res_APDU st') 1 6 = [5; 2; 0; config_seq st'; 13; 0]
  /\ apdu_ne st' = 0%nat.
Proof.
  apply (@select_activates steady_oath
           (state_with_slot1 (sample_record 16 0 STATIC_TICKET)) (tl otp_aid)).
  reflexivity.
Defined.

Lemma press_touches_only_its_slot_witness :
  let r := sample_record 16 0 STATIC_TICKET in
  let h := sample_record 16 OATH_HOTP 0 in
  exists st',
    @otp_button_pressed steady_oath (state_with_both h r) 1 0 = Some (st', 0)
    /\ 0 = 0
    /\ search_dynamic_file st' EF_OTP_SLOT2 = Some r
    /\ config_seq st' = 1.
Proof.
  cbv zeta. eexists. split; [reflexivity|].
  apply (@press_touches_only_its_slot steady_oath
           (state_with_both (sample_record 16 OATH_HOTP 0)
              (sample_record 16 0 STATIC_TICKET)) 1 0).
  reflexivity.
Defined.

Lemma press_keeps_capability_flags_witness :
  let r := sample_record 16 0 STATIC_TICKET in
  let h := sample_record 16 OATH_HOTP 0 in
  exists st',
    @otp_button_pressed steady_oath (state_with_both h r) 1 0 = Some (st', 0)
    /\ file_has_data (search_dynamic_file st' EF_OTP_SLOT1) = true
    /\ file_has_data (search_dynamic_file st' EF_OTP_SLOT2) = true
    /\ capability_flags st' = 15.
Proof.
  cbv zeta. eexists. split; [reflexivity|].
  apply (@press_keeps_capability_flags steady_oath
           (state_with_both (sample_record 16 OATH_HOTP 0)
              (sample_record 16 0 STATIC_TICKET)) 1 0 _ 0).
  reflexivity.
Defined.

Lemma static_ticket_emission_witness :
  let r := sample_record 12 APPEND_CR STATIC_TICKET in
  exists st',
    @otp_button_pressed steady_oath (state_with_slot1 r) 1 0 = Some (st', 0)
    /\ keyboard_buffer st' = [1; 2; 3; 4; 5; 6; 7; 8; 9; 10; 11; 12; 0x28]
    /\ keyboard_encode st' = false
    /\ search_dynamic_file st' EF_OTP_SLOT1 = Some r
    /\ search_dynamic_file st' EF_OTP_SLOT2 = None.
Proof.
  cbv zeta.
  apply (@static_ticket_emission steady_oath
           (state_with_slot1 (sample_record 12 APPEND_CR STATIC_TICKET)) 1 0
           (sample_record 12 APPEND_CR STATIC_TICKET)
           (view_of (sample_record 12 APPEND_CR STATIC_TICKET)));
    try reflexivity.
  vm_compute. discriminate.
Defined.

Lemma short_ticket_press_rewrites_size_witness :
  let r := sample_record 16 0 SHORT_TICKET in
  exists bytes',
    search_dynamic_file
      (with_keyboard
         (with_file (state_with_slot1 r) EF_OTP_SLOT1
            (Some (write_byte r off_fixed_size 8)))
         [1; 2; 3; 4; 5; 6; 7; 8] false)
      (slot_file 1) = Some bytes'
    /\ length bytes' = 52%nat
    /\ nth off_fixed_size bytes' 0 = 8
    /\ forall i, i <> off_fixed_size -> nth i bytes' 0 = nth i r 0.
Proof.
  cbv zeta.
  apply (@short_ticket_press_rewrites_size steady_oath
           (state_with_slot1 (sample_record 16 0 SHORT_TICKET)) 1 0
           (sample_record 16 0 SHORT_TICKET)
           (view_of (sample_record 16 0 SHORT_TICKET)) _ 0);
    reflexivity.
Defined.

Lemma press_outside_hotp_never_calls_oath_witness :
  let r := sample_record 16 0 STATIC_TICKET in
  exists st',
    @otp_button_pressed steady_oath (state_with_slot1 r) 1 0 = Some (st', 0)
    /\ oath_calls st' = []
    /\ res_APDU_size st' = 0%nat.
Proof.
  cbv zeta. eexists. split; [reflexivity|].
  destruct (@press_outside_hotp_never_calls_oath steady_oath
              (state_with_slot1 (sample_record 16 0 STATIC_TICKET)) 1 0
              (sample_record 16 0 STATIC_TICKET)
              (view_of (sample_record 16 0 STATIC_TICKET)) _ 0
              eq_refl eq_refl eq_refl eq_refl) as [Hc [_ [Hn _]]].
  split; [exact Hc|exact Hn].
Defined.

Lemma hotp_press_emits_code_witness :
  let h := sample_record 16 (Z.lor OATH_HOTP APPEND_CR) 0 in
  exists st' code,
    @otp_button_pressed steady_oath (state_with_slot1 h) 1 0 = Some (st', 0)
    /\ keyboard_buffer st' = code ++ [13]
    /\ keyboard_encode st' = true
    /\ length code = 6%nat
    /\ Forall (fun ch => 48 <= ch <= 57) code
    /\ undecimal code = 0x12345678 mod 10 ^ 6.
Proof.
  cbv zeta.
  apply (@hotp_press_emits_code steady_oath
           (state_with_slot1 (sample_record 16 (Z.lor OATH_HOTP APPEND_CR) 0))
           1 0
           (sample_record 16 (Z.lor OATH_HOTP APPEND_CR) 0)
           (view_of (sample_record 16 (Z.lor OATH_HOTP APPEND_CR) 0))
           0x25260 [5; 6; 0x12; 0x34; 0x56; 0x78]);
    try reflexivity.
  repeat (apply Forall_cons; [unfold is_byte; lia|]). apply Forall_nil.
Defined.

Lemma hotp_press_with_failed_primitive_witness :
  let h := sample_record 16 (Z.lor OATH_HOTP APPEND_CR) 0 in
  exists st',
    @otp_button_pressed failing_oath (state_with_slot1 h) 1 0 = Some (st', 0)
    /\ search_dynamic_file st' EF_OTP_SLOT1 = Some h
    /\ search_dynamic_file st' EF_OTP_SLOT2 = None
    /\ keyboard_buffer st' = [13]
    /\ keyboard_encode st' = false.
Proof.
  cbv zeta.
  apply (@hotp_press_with_failed_primitive failing_oath
           (state_with_slot1 (sample_record 16 (Z.lor OATH_HOTP APPEND_CR) 0))
           1 0
           (sample_record 16 (Z.lor OATH_HOTP APPEND_CR) 0)
           (view_of (sample_record 16 (Z.lor OATH_HOTP APPEND_CR) 0))
           0x25260 1 []);
    try reflexivity.
  unfold CCID_OK; lia.
Defined.

Lemma stored_counter_round_trip_witness :
  imf_of_ext (chal_of_imf 0x7FFFFFFF) = 0x7FFFFFFF.
Proof.
  apply stored_counter_round_trip; [lia|reflexivity].
Defined.

Lemma reconfigured_hotp_slot_starts_from_seed_witness :
  let old := sample_record 16 OATH_HOTP 0 ++ [0; 0; 0; 0; 0; 0; 0; 9] in
  let new := sample_record 16 OATH_HOTP 0 in
  exists st1 st2,
    @otp_process_apdu steady_oath (state_with_slot1 old)
      (configure 0x01 (new ++ sample_code)) = Some (st1, SW_OK)
    /\ @otp_button_pressed steady_oath st1 1 0 = Some (st2, 0)
    /\ oath_calls st2 =
         [ (1, tmp_key_of (view_of new) 0, [0; 0; 0; 0; 0; 0x02; 0x52; 0x60]) ].
Proof.
  cbv zeta. eexists.
  assert (Hrun : @otp_process_apdu steady_oath
                   (state_with_slot1
                      (sample_record 16 OATH_HOTP 0 ++ [0; 0; 0; 0; 0; 0; 0; 9]))
                   (configure 0x01 (sample_record 16 OATH_HOTP 0 ++ sample_code))
                 = Some (fst (@otp_status steady_oath
                                (@configured steady_oath
                                   (state_with_slot1
                                      (sample_record 16 OATH_HOTP 0
                                       ++ [0; 0; 0; 0; 0; 0; 0; 9]))
                                   (configure 0x01
                                      (sample_record 16 OATH_HOTP 0 ++ sample_code)))),
                         SW_OK)) by reflexivity.
  destruct (@reconfigured_hotp_slot_starts_from_seed steady_oath _ _ _ 0
              (view_of (sample_record 16 OATH_HOTP 0)) Hrun)
    as [st2 [Hp Hc]]; try reflexivity.
  - left; reflexivity.
  - cbv [bytes_at seq map otp_config_size FIXED_SIZE UID_SIZE KEY_SIZE
         ACC_CODE_SIZE plus configure data buffer_of sample_record app
         sample_code nth OATH_HOTP].
    repeat (apply Forall_cons; [unfold is_byte; lia|]). apply Forall_nil.
  - exists st2. split; [exact Hrun|]. split; [exact Hp|exact Hc].
Defined.

Lemma hotp_presses_use_consecutive_counters_witness :
  let bytes := sample_record 16 OATH_HOTP 0 ++ [0; 0; 0; 0; 0; 0; 0; 5] in
  exists st',
    @presses steady_oath (state_with_slot1 bytes) 1 [0; 0; 0] = Some st'
    /\ map (fun call => be_decode (snd call)) (oath_calls st') = [7; 6; 5].
Proof.
  cbv zeta.
  apply (@hotp_presses_use_consecutive_counters steady_oath [0; 0; 0]
           (state_with_slot1
              (sample_record 16 OATH_HOTP 0 ++ [0; 0; 0; 0; 0; 0; 0; 5]))
           1
           (sample_record 16 OATH_HOTP 0 ++ [0; 0; 0; 0; 0; 0; 0; 5])
           (view_of (sample_record 16 OATH_HOTP 0 ++ [0; 0; 0; 0; 0; 0; 0; 5])));
    try reflexivity.
  - right; reflexivity.
  - cbv [sample_record app OATH_HOTP].
    repeat (apply Forall_cons; [unfold is_byte; lia|]). apply Forall_nil.
  - intros k Hk.
    assert (Hcases : k = 0 \/ k = 1 \/ k = 2) by (simpl in Hk; lia).
    destruct Hcases as [-> | [-> | ->]]; reflexivity.
  - intros i Hi. split; reflexivity.
Defined.

Lemma run_keeps_invariant_witness :
  let es :=
    [ Select (tl otp_aid);
      Command (configure 0x01 (sample_record 16 OATH_HOTP 0));
      Button 1 0;
      Command (configure 0x03 (sample_record 16 0 SHORT_TICKET));
      Button 2 0;
      Command (configure 0x01 (repeat 0 52 ++ sample_code)) ] in
  (exists st', @run steady_oath empty_state es = Some st' /\ applet_inv st')
  /\ (exists st',
        @run failing_flash empty_state
          [ Select (tl otp_aid);
            Command (configure 0x01 (sample_record 16 OATH_HOTP 0)) ] = Some st'
        /\ slots_ok st' /\ 0 <= config_seq st' < 256).
Proof.
  cbv zeta. split.
  - destruct (@run steady_oath empty_state
                [ Select (tl otp_aid);
                  Command (configure 0x01 (sample_record 16 OATH_HOTP 0));
                  Button 1 0;
                  Command (configure 0x03 (sample_record 16 0 SHORT_TICKET));
                  Button 2 0;
                  Command (configure 0x01 (repeat 0 52 ++ sample_code)) ])
      as [st'|] eqn:Hrun.
    + exists st'. split; [reflexivity|].
      apply (proj2 (@run_keeps_invariant steady_oath _ _ _ Hrun)).
      * intros f bs. reflexivity.
      * split; [split; exact I|]. split; [simpl; lia|]. reflexivity.
    + vm_compute in Hrun. discriminate.
  - destruct (@run failing_flash empty_state
                [ Select (tl otp_aid);
                  Command (configure 0x01 (sample_record 16 OATH_HOTP 0)) ])
      as [st'|] eqn:Hrun.
    + exists st'. split; [reflexivity|].
      apply (proj1 (@run_keeps_invariant failing_flash _ _ _ Hrun)).
      split; [split; exact I|]. simpl; lia.
    + vm_compute in Hrun. discriminate.
Defined.
